(** * Device information panel: InfoProvider (www/js/device-info.js) and
    AppController (the main application script)

    A shallow embedding of the two JavaScript modules of the repository and
    the proofs of the properties stated about them.

    Layout of the development:
    - [Js]: the part of the JavaScript language the two modules rely on:
      binary64 numbers, [Math.round], [Number::toString], values, property
      access, [JSON.parse] and [JSON.stringify];
    - [Host]: the browser and the native bridge as a state (local storage,
      clock, DOM, timers, Capacitor plugins) with a state-and-exception monad;
    - [DeviceInfo]: the functions of device-info.js;
    - [App]: the functions of the application script;
    - the theorems. *)

From Stdlib Require Import ZArith NArith String Ascii List Bool Lia.
From Stdlib Require Import DecimalString DecimalN DecimalZ.
From Corelib Require Import SpecFloat.
From stdpp Require Import gmap strings.

Local Open Scope Z_scope.
Set Warnings "-register-all".
Set Default Proof Using "Type".

(** The source is full of string literals that contain a double quote (JSON
    texts); they are written here with a single quote and converted. *)
Definition dquote : ascii := "034"%char.

Fixpoint json_text (s : string) : string :=
  match s with
  | EmptyString => EmptyString
  | String c r => String (if Ascii.eqb c "'"%char then dquote else c) (json_text r)
  end.

(* ================================================================== *)
(** * The JavaScript fragment *)
(* ================================================================== *)

Module Js.

(** ** Numbers

    A JavaScript number is an IEEE 754 binary64 value: [spec_float] with a
    53 bit mantissa. *)

Definition number : Type := spec_float.
Definition prec : Z := 53.
Definition emax : Z := 1024.

Definition num_of_Z (n : Z) : number := binary_normalize prec emax n 0 false.

Definition num_mul : number -> number -> number := SFmul prec emax.

(** [x > y] *)
Definition num_gt (x y : number) : bool := SFltb y x.

(** Identity of two numbers as values ([Object.is]). *)
Definition num_same (x y : number) : bool :=
  match x, y with
  | S754_zero a, S754_zero b => Bool.eqb a b
  | S754_infinity a, S754_infinity b => Bool.eqb a b
  | S754_nan, S754_nan => true
  | S754_finite a m e, S754_finite b m' e' => Bool.eqb a b && Pos.eqb m m' && Z.eqb e e'
  | _, _ => false
  end.

(** ToBoolean on a number: [0], [-0] and [NaN] are falsy. *)
Definition num_truthy (x : number) : bool :=
  match x with
  | S754_zero _ | S754_nan => false
  | _ => true
  end.

(** The number a decimal literal with digits [M] and exponent [E] denotes:
    [M * 10^E] rounded to the nearest double (ties to even). *)
Definition num_of_decimal (neg : bool) (M : N) (E : Z) : number :=
  match M with
  | N0 => S754_zero neg
  | Npos m =>
      if 0 <=? E
      then binary_normalize prec emax (cond_Zopp neg (Zpos m * 10 ^ E)) 0 false
      else SFdiv prec emax (S754_finite neg m 0) (S754_finite false (Z.to_pos (10 ^ (- E))) 0)
  end.

(** The integer a number is, when it is one. *)
Definition num_to_Z (x : number) : option Z :=
  match x with
  | S754_zero _ => Some 0
  | S754_finite s m e =>
      if 0 <=? e then Some (cond_Zopp s (Zpos m * 2 ^ e))
      else if Zpos m mod 2 ^ (- e) =? 0 then Some (cond_Zopp s (Zpos m / 2 ^ (- e)))
      else None
  | _ => None
  end.

(** [Number.isSafeInteger]: an integer of magnitude below [2^53]. *)
Definition safe_integer (x : number) : option Z :=
  match num_to_Z x with
  | Some n => if Z.abs n <? 2 ^ 53 then Some n else None
  | None => None
  end.

(** [Math.round]: the nearest integer, a tie going up; the sign of a zero
    result is the sign of the argument. *)
Definition Math_round (x : number) : number :=
  match x with
  | S754_finite s m e =>
      if 0 <=? e then x
      else
        let r := (2 * cond_Zopp s (Zpos m) + 2 ^ (- e)) / 2 ^ (- e + 1) in
        if r =? 0 then S754_zero s else num_of_Z r
  | _ => x
  end.

(** ** Decimal digits *)

Definition N_to_string (n : N) : string := NilZero.string_of_uint (N.to_uint n).

Definition Z_to_string (n : Z) : string := NilZero.string_of_int (Z.to_int n).

Fixpoint zeros (n : nat) : string :=
  match n with
  | O => EmptyString
  | S k => String "0"%char (zeros k)
  end.

Fixpoint take (n : nat) (s : string) : string :=
  match n, s with
  | S k, String c r => String c (take k r)
  | _, _ => EmptyString
  end.

Fixpoint drop (n : nat) (s : string) : string :=
  match n, s with
  | S k, String _ r => drop k r
  | _, _ => s
  end.

(** ** Number::toString (radix 10)

    For a positive finite [x = a / b], [decimal_magnitude] is the [n] with
    [10^(n-1) <= x < 10^n]. *)
Fixpoint scale_below_one (fuel : nat) (a b j : Z) : Z :=
  match fuel with
  | O => j
  | S f => if b <=? a then j else scale_below_one f (10 * a) b (j + 1)
  end.

Definition decimal_magnitude (a b : Z) : Z :=
  if b <=? a
  then Z.of_nat (Decimal.nb_digits (N.to_uint (Z.to_N (a / b))))
  else 1 - scale_below_one 400 (10 * a) b 1.

(** The shortest digit string that reads back as [x]: for [k = 1, 2, ...]
    digits, the two [k]-digit decimals around [x] are tried, the closer one
    first. The result is the pair [(c, p)] with [x] printed as [c * 10^p]. *)
Fixpoint shortest_digits (fuel : nat) (k : Z) (x : number) (a b n : Z) : Z * Z :=
  match fuel with
  | O => (0, 0)
  | S f =>
      let p := n - k in
      let A := if 0 <=? p then a else a * 10 ^ (- p) in
      let B := if 0 <=? p then b * 10 ^ p else b in
      let lo := A / B in
      let hi := lo + 1 in
      let reads c := num_same (num_of_decimal false (Z.to_N c) p) x in
      let lo_first :=
        match 2 * (A mod B) ?= B with
        | Lt => true
        | Eq => Z.even lo
        | Gt => false
        end in
      let c1 := if lo_first then lo else hi in
      let c2 := if lo_first then hi else lo in
      if reads c1 then (c1, p)
      else if reads c2 then (c2, p)
      else shortest_digits f (k + 1) x a b n
  end.

Fixpoint strip_zeros (fuel : nat) (c p : Z) : Z * Z :=
  match fuel with
  | O => (c, p)
  | S f => if (c mod 10 =? 0) && negb (c =? 0) then strip_zeros f (c / 10) (p + 1) else (c, p)
  end.

Definition format_digits (D : string) (n : Z) : string :=
  let k := Z.of_nat (String.length D) in
  if (k <=? n) && (n <=? 21) then D +:+ zeros (Z.to_nat (n - k))
  else if (0 <? n) && (n <=? 21) then take (Z.to_nat n) D +:+ "." +:+ drop (Z.to_nat n) D
  else if (-6 <? n) && (n <=? 0) then "0." +:+ zeros (Z.to_nat (- n)) +:+ D
  else
    let e := n - 1 in
    let exponent := (if 0 <=? e then "e+" else "e-") +:+ Z_to_string (Z.abs e) in
    if k =? 1 then D +:+ exponent
    else take 1 D +:+ "." +:+ drop 1 D +:+ exponent.

Definition positive_to_string (m : positive) (e : Z) : string :=
  let a := if 0 <=? e then Zpos m * 2 ^ e else Zpos m in
  let b := if 0 <=? e then 1 else 2 ^ (- e) in
  let n := decimal_magnitude a b in
  let '(c0, p0) := shortest_digits 17 1 (S754_finite false m e) a b n in
  let '(c, p) := strip_zeros 40 c0 p0 in
  let D := N_to_string (Z.to_N c) in
  format_digits D (Z.of_nat (String.length D) + p).

Definition Number_toString (x : number) : string :=
  match safe_integer x with
  | Some n => Z_to_string n
  | None =>
      match x with
      | S754_nan => "NaN"
      | S754_zero _ => "0"
      | S754_infinity s => if s then "-Infinity" else "Infinity"
      | S754_finite s m e => (if s then "-" else "") +:+ positive_to_string m e
      end
  end.

(** ** Values

    The values a JSON text denotes, and [undefined]. An object is the list
    of its own properties in enumeration order; an array has its elements
    and, beside them, the named properties assigned to it. *)

Inductive value : Type :=
| VUndefined
| VNull
| VBool (b : bool)
| VNum (x : number)
| VStr (s : string)
| VArr (elems : list value) (named : list (string * value))
| VObj (props : list (string * value)).

Inductive error : Type :=
| TypeError (message : string)
| SyntaxError (message : string)
| Rejected (reason : string).   (* a call across the native bridge that fails *)

(** How an evaluation ends: with a value, or by throwing. *)
Inductive completion (A : Type) : Type :=
| Normal (a : A)
| Throw (e : error).
Arguments Normal {A} a.
Arguments Throw {A} e.

(** ToBoolean *)
Definition truthy (v : value) : bool :=
  match v with
  | VUndefined | VNull => false
  | VBool b => b
  | VNum x => num_truthy x
  | VStr s => negb (String.eqb s "")
  | VArr _ _ | VObj _ => true
  end.

(** [a || b] *)
Definition or_else (a b : value) : value := if truthy a then a else b.

Fixpoint lookup_prop (props : list (string * value)) (k : string) : option value :=
  match props with
  | [] => None
  | (k', v) :: r => if String.eqb k' k then Some v else lookup_prop r k
  end.

(** An array index: the canonical decimal spelling of an integer below
    [2^32 - 1]. *)
Definition array_index (k : string) : option N :=
  match NilEmpty.uint_of_string k with
  | Some u =>
      let n := N.of_uint u in
      if String.eqb (N_to_string n) k && (n <? 4294967295)%N then Some n else None
  | None => None
  end.

(** [v.k] for a name [k] that no prototype defines (the program reads
    [autoRefresh], [refreshInterval], [showBattery] and [showNetwork]):
    the own property, [undefined] when there is none, and a TypeError on
    [null] and [undefined]. *)
Definition get_prop (v : value) (k : string) : completion value :=
  match v with
  | VUndefined => Throw (TypeError ("Cannot read properties of undefined (reading '" +:+ k +:+ "')"))
  | VNull => Throw (TypeError ("Cannot read properties of null (reading '" +:+ k +:+ "')"))
  | VObj props => Normal (default VUndefined (lookup_prop props k))
  | VArr elems named =>
      match array_index k with
      | Some i => Normal (default VUndefined (elems !! N.to_nat i))
      | None => Normal (default VUndefined (lookup_prop named k))
      end
  | VBool _ | VNum _ | VStr _ => Normal VUndefined
  end.

(** Own properties enumerate array indices first, in ascending order, then
    the other names in the order of their creation. *)
Fixpoint replace_prop (props : list (string * value)) (k : string) (v : value) :=
  match props with
  | [] => []
  | (k', v') :: r => if String.eqb k' k then (k, v) :: r else (k', v') :: replace_prop r k v
  end.

Fixpoint insert_index_prop (props : list (string * value)) (i : N) (k : string) (v : value) :=
  match props with
  | [] => [(k, v)]
  | (k', v') :: r =>
      match array_index k' with
      | Some i' => if (i <? i')%N then (k, v) :: props else (k', v') :: insert_index_prop r i k v
      | None => (k, v) :: props
      end
  end.

Definition obj_define (props : list (string * value)) (k : string) (v : value) :=
  match lookup_prop props k with
  | Some _ => replace_prop props k v
  | None =>
      match array_index k with
      | Some i => insert_index_prop props i k v
      | None => props ++ [(k, v)]
      end
  end.

(** [v.k = x] in strict mode (the scripts are ES modules). *)
Definition set_prop (v : value) (k : string) (x : value) : completion value :=
  match v with
  | VUndefined => Throw (TypeError ("Cannot set properties of undefined (setting '" +:+ k +:+ "')"))
  | VNull => Throw (TypeError ("Cannot set properties of null (setting '" +:+ k +:+ "')"))
  | VObj props => Normal (VObj (obj_define props k x))
  | VArr elems named =>
      match array_index k with
      | Some i =>
          let i := N.to_nat i in
          if (i <? length elems)%nat then Normal (VArr (<[i := x]> elems) named)
          else Normal (VArr (elems ++ replicate (i - length elems) VUndefined ++ [x]) named)
      | None => Normal (VArr elems (obj_define named k x))
      end
  | VBool _ | VNum _ | VStr _ =>
      Throw (TypeError ("Cannot create property '" +:+ k +:+ "' on a primitive value"))
  end.

(** ** JSON.stringify *)

Definition hex_digit (n : N) : ascii :=
  if (n <? 10)%N then ascii_of_N (48 + n) else ascii_of_N (87 + n).

Definition quote_char (c : ascii) : string :=
  let n := N_of_ascii c in
  if Ascii.eqb c dquote then String "\"%char (String dquote "")
  else if Ascii.eqb c "\"%char then "\\"
  else if (n =? 8)%N then "\b"
  else if (n =? 9)%N then "\t"
  else if (n =? 10)%N then "\n"
  else if (n =? 12)%N then "\f"
  else if (n =? 13)%N then "\r"
  else if (n <? 32)%N then "\u00" +:+ String (hex_digit (n / 16)) (String (hex_digit (n mod 16)) "")
  else String c "".

Fixpoint quote_chars (s : string) : string :=
  match s with
  | EmptyString => EmptyString
  | String c r => quote_char c +:+ quote_chars r
  end.

(** QuoteJSONString *)
Definition quote (s : string) : string :=
  String dquote (quote_chars s +:+ String dquote "").

Fixpoint join_commas (l : list string) : string :=
  match l with
  | [] => ""
  | [t] => t
  | t :: r => t +:+ "," +:+ join_commas r
  end.

Definition num_finite (x : number) : bool :=
  match x with
  | S754_zero _ | S754_finite _ _ _ => true
  | _ => false
  end.

(** SerializeJSONProperty: [None] is [undefined] (the value has no JSON
    text: a property that holds it is left out, an element is [null]). *)
Fixpoint serialize (v : value) : option string :=
  let fix elements (l : list value) : list string :=
    match l with
    | [] => []
    | e :: r => default "null" (serialize e) :: elements r
    end in
  let fix members (l : list (string * value)) : list string :=
    match l with
    | [] => []
    | (k, x) :: r =>
        match serialize x with
        | Some t => (quote k +:+ ":" +:+ t) :: members r
        | None => members r
        end
    end in
  match v with
  | VUndefined => None
  | VNull => Some "null"
  | VBool b => Some (if b then "true" else "false")
  | VNum x => Some (if num_finite x then Number_toString x else "null")
  | VStr s => Some (quote s)
  | VArr elems _ => Some ("[" +:+ join_commas (elements elems) +:+ "]")
  | VObj props => Some ("{" +:+ join_commas (members props) +:+ "}")
  end.

(** [JSON.stringify(v)]: a string, or [undefined]. *)
Definition JSON_stringify (v : value) : value :=
  match serialize v with
  | Some t => VStr t
  | None => VUndefined
  end.

(** ToString on the values [JSON.stringify] returns. *)
Definition ToString_stringified (v : value) : string :=
  match v with
  | VStr s => s
  | _ => "undefined"
  end.

(** ** JSON.parse

    The JSON grammar of ECMA-404, read in two passes: the text is cut into
    tokens, and the tokens are parsed into a value. Strings are sequences of
    bytes (UTF-8), so a [\uXXXX] escape is decoded to the UTF-8 bytes of its
    code point. *)

Inductive token : Type :=
| TLBrace | TRBrace | TLBracket | TRBracket | TColon | TComma
| TTrue | TFalse | TNull
| TNum (x : number)
| TStr (s : string).

Definition is_whitespace (c : ascii) : bool :=
  let n := N_of_ascii c in
  ((n =? 32) || (n =? 9) || (n =? 10) || (n =? 13))%N.

Definition hex_value (c : ascii) : option N :=
  let n := N_of_ascii c in
  if ((48 <=? n) && (n <=? 57))%N then Some (n - 48)%N
  else if ((97 <=? n) && (n <=? 102))%N then Some (n - 87)%N
  else if ((65 <=? n) && (n <=? 70))%N then Some (n - 55)%N
  else None.

Definition hex4 (a b c d : ascii) : option N :=
  match hex_value a, hex_value b, hex_value c, hex_value d with
  | Some x, Some y, Some z, Some w => Some (((x * 16 + y) * 16 + z) * 16 + w)%N
  | _, _, _, _ => None
  end.

Definition utf8 (cp : N) : string :=
  let byte n := ascii_of_N n in
  (if cp <? 128 then String (byte cp) ""
   else if cp <? 2048 then String (byte (192 + cp / 64)) (String (byte (128 + cp mod 64)) "")
   else if cp <? 65536 then
     String (byte (224 + cp / 4096))
       (String (byte (128 + (cp / 64) mod 64)) (String (byte (128 + cp mod 64)) ""))
   else
     String (byte (240 + cp / 262144))
       (String (byte (128 + (cp / 4096) mod 64))
          (String (byte (128 + (cp / 64) mod 64)) (String (byte (128 + cp mod 64)) ""))))%N.

Definition high_surrogate (u : N) : bool := ((55296 <=? u) && (u <=? 56319))%N.
Definition low_surrogate (u : N) : bool := ((56320 <=? u) && (u <=? 57343))%N.

Definition prepend (t : string) (o : option (string * string)) : option (string * string) :=
  match o with
  | Some (s, rest) => Some (t +:+ s, rest)
  | None => None
  end.

Definition simple_escape (e : ascii) : option string :=
  if Ascii.eqb e dquote then Some (String dquote "")
  else if Ascii.eqb e "\"%char then Some "\"
  else if Ascii.eqb e "/"%char then Some "/"
  else if Ascii.eqb e "b"%char then Some (String (ascii_of_N 8) "")
  else if Ascii.eqb e "f"%char then Some (String (ascii_of_N 12) "")
  else if Ascii.eqb e "n"%char then Some (String (ascii_of_N 10) "")
  else if Ascii.eqb e "r"%char then Some (String (ascii_of_N 13) "")
  else if Ascii.eqb e "t"%char then Some (String (ascii_of_N 9) "")
  else None.

(** The characters of a string literal after its opening quote: the string
    it denotes and the text after its closing quote. *)
Fixpoint lex_string (s : string) : option (string * string) :=
  match s with
  | EmptyString => None
  | String c r =>
      if Ascii.eqb c dquote then Some ("", r)
      else if Ascii.eqb c "\"%char then
        match r with
        | EmptyString => None
        | String e r1 =>
            if Ascii.eqb e "u"%char then
              match r1 with
              | String h1 (String h2 (String h3 (String h4 r2))) =>
                  match hex4 h1 h2 h3 h4 with
                  | None => None
                  | Some hi =>
                      match r2 with
                      | String b (String u (String l1 (String l2 (String l3 (String l4 r3))))) =>
                          match
                            (if high_surrogate hi && Ascii.eqb b "\"%char && Ascii.eqb u "u"%char
                             then hex4 l1 l2 l3 l4 else None)
                          with
                          | Some lo =>
                              if low_surrogate lo
                              then prepend (utf8 (65536 + (hi - 55296) * 1024 + (lo - 56320))%N)
                                     (lex_string r3)
                              else prepend (utf8 hi) (lex_string r2)
                          | None => prepend (utf8 hi) (lex_string r2)
                          end
                      | _ => prepend (utf8 hi) (lex_string r2)
                      end
                  end
              | _ => None
              end
            else
              match simple_escape e with
              | Some t => prepend t (lex_string r1)
              | None => None
              end
        end
      else if (N_of_ascii c <? 32)%N then None
      else prepend (String c "") (lex_string r)
  end.

Definition is_digit (c : ascii) : bool :=
  match uint_of_char c (Some Decimal.Nil) with
  | Some _ => true
  | None => false
  end.

(** The longest prefix of decimal digits, and the text after it. *)
Fixpoint read_digits (s : string) : Decimal.uint * string :=
  match s with
  | EmptyString => (Decimal.Nil, s)
  | String c r =>
      if is_digit c then
        let '(u, r') := read_digits r in
        (default u (uint_of_char c (Some u)), r')
      else (Decimal.Nil, s)
  end.

Definition is_nil (u : Decimal.uint) : bool :=
  match u with
  | Decimal.Nil => true
  | _ => false
  end.

Definition leading_zero (u : Decimal.uint) : bool :=
  match u with
  | Decimal.D0 r => negb (is_nil r)
  | _ => false
  end.

Definition lex_fraction (s : string) : option (Decimal.uint * string) :=
  match s with
  | String "."%char r =>
      let '(d, r') := read_digits r in
      if is_nil d then None else Some (d, r')
  | _ => Some (Decimal.Nil, s)
  end.

Definition lex_exponent (s : string) : option (Z * string) :=
  match s with
  | String c r =>
      if Ascii.eqb c "e"%char || Ascii.eqb c "E"%char then
        let '(neg, r1) :=
          match r with
          | String "+"%char r' => (false, r')
          | String "-"%char r' => (true, r')
          | _ => (false, r)
          end in
        let '(d, r2) := read_digits r1 in
        if is_nil d then None else Some (cond_Zopp neg (Z.of_N (N.of_uint d)), r2)
      else Some (0, s)
  | EmptyString => Some (0, s)
  end.

(** A number literal without its sign. *)
Definition lex_unsigned_number (neg : bool) (s1 : string) : option (number * string) :=
  let '(di, s2) := read_digits s1 in
  if is_nil di || leading_zero di then None
  else
    match lex_fraction s2 with
    | None => None
    | Some (df, s3) =>
        match lex_exponent s3 with
        | None => None
        | Some (ex, s4) =>
            Some (num_of_decimal neg (N.of_uint (Decimal.app di df))
                    (ex - Z.of_nat (Decimal.nb_digits df)), s4)
        end
    end.

(** A number literal at the head of [s]. *)
Definition lex_number (s : string) : option (number * string) :=
  match s with
  | String "-"%char r => lex_unsigned_number true r
  | _ => lex_unsigned_number false s
  end.

(** The text after the prefix [p] of [s], when [s] starts with [p]. *)
Fixpoint strip_prefix (p s : string) : option string :=
  match p with
  | EmptyString => Some s
  | String c p' =>
      match s with
      | String d s' => if Ascii.eqb c d then strip_prefix p' s' else None
      | EmptyString => None
      end
  end.

Definition cons_token (t : token) (o : option (list token)) : option (list token) :=
  match o with
  | Some ts => Some (t :: ts)
  | None => None
  end.

(** The tokens of a text. Every step consumes a character, so a fuel above
    the length of the text is never exhausted. *)
Fixpoint lex (fuel : nat) (s : string) : option (list token) :=
  match fuel with
  | O => None
  | S f =>
      match s with
      | EmptyString => Some []
      | String c r =>
          if is_whitespace c then lex f r
          else if Ascii.eqb c "{"%char then cons_token TLBrace (lex f r)
          else if Ascii.eqb c "}"%char then cons_token TRBrace (lex f r)
          else if Ascii.eqb c "["%char then cons_token TLBracket (lex f r)
          else if Ascii.eqb c "]"%char then cons_token TRBracket (lex f r)
          else if Ascii.eqb c ":"%char then cons_token TColon (lex f r)
          else if Ascii.eqb c ","%char then cons_token TComma (lex f r)
          else if Ascii.eqb c dquote then
            match lex_string r with
            | Some (t, r') => cons_token (TStr t) (lex f r')
            | None => None
            end
          else if Ascii.eqb c "-"%char || is_digit c then
            match lex_number s with
            | Some (x, r') => cons_token (TNum x) (lex f r')
            | None => None
            end
          else
            match strip_prefix "true" s, strip_prefix "false" s, strip_prefix "null" s with
            | Some r', _, _ => cons_token TTrue (lex f r')
            | _, Some r', _ => cons_token TFalse (lex f r')
            | _, _, Some r' => cons_token TNull (lex f r')
            | _, _, _ => None
            end
      end
  end.

(** A value at the head of the tokens, and the tokens after it. *)
Fixpoint parse_value (fuel : nat) (ts : list token) : option (value * list token) :=
  match fuel with
  | O => None
  | S f =>
      match ts with
      | TNull :: r => Some (VNull, r)
      | TTrue :: r => Some (VBool true, r)
      | TFalse :: r => Some (VBool false, r)
      | TNum x :: r => Some (VNum x, r)
      | TStr s :: r => Some (VStr s, r)
      | TLBracket :: TRBracket :: r => Some (VArr [] [], r)
      | TLBracket :: r => parse_elements f r []
      | TLBrace :: TRBrace :: r => Some (VObj [], r)
      | TLBrace :: r => parse_members f r []
      | _ => None
      end
  end
with parse_elements (fuel : nat) (ts : list token) (acc : list value) : option (value * list token) :=
  match fuel with
  | O => None
  | S f =>
      match parse_value f ts with
      | Some (v, TComma :: r) => parse_elements f r (acc ++ [v])
      | Some (v, TRBracket :: r) => Some (VArr (acc ++ [v]) [], r)
      | _ => None
      end
  end
with parse_members (fuel : nat) (ts : list token) (acc : list (string * value)) : option (value * list token) :=
  match fuel with
  | O => None
  | S f =>
      match ts with
      | TStr k :: TColon :: r =>
          match parse_value f r with
          | Some (v, TComma :: r') => parse_members f r' (obj_define acc k v)
          | Some (v, TRBrace :: r') => Some (VObj (obj_define acc k v), r')
          | _ => None
          end
      | _ => None
      end
  end.

(** [JSON.parse(text)]: the value, or a SyntaxError. *)
Definition JSON_parse (text : string) : completion value :=
  match lex (S (String.length text)) text with
  | Some ts =>
      match parse_value (2 * length ts + 2) ts with
      | Some (v, []) => Normal v
      | _ => Throw (SyntaxError "Unexpected token in JSON")
      end
  | None => Throw (SyntaxError "Unexpected token in JSON")
  end.

End Js.

(* ================================================================== *)
(** * The host: browser and native bridge *)
(* ================================================================== *)

Module Host.
Import Js.

(** ** Data of the information panel *)

(** What the device capability answers ([Device.getInfo],
    [Device.getBatteryInfo]) and the network capability ([Network.getStatus]
    and the [networkStatusChange] event). A field may be missing. *)
Record DeviceInfoResult : Type := {
  r_model : option string;
  r_platform : option string;
  r_operatingSystem : option string;
  r_osVersion : option string;
  r_manufacturer : option string;
  r_isVirtual : option bool
}.

Record BatteryInfoResult : Type := {
  r_batteryLevel : option number;
  r_isCharging : option bool
}.

Record NetworkStatusResult : Type := {
  r_connected : option bool;
  r_connectionType : option string
}.

(** The records the panel works with. The formatting helpers read them with
    [?.] and [||], so a field that may be absent there is an option. *)
Record Battery : Type := {
  level : option number;
  charging : option bool
}.

Record NetworkStatus : Type := {
  connected : option bool;
  connectionType : option string;
  typeText : option string
}.

Record DeviceRecord : Type := {
  d_model : string;
  d_platform : string;
  d_operatingSystem : string;
  d_osVersion : string;
  d_manufacturer : string;
  d_isVirtual : bool;
  d_battery : option Battery
}.

Record Snapshot : Type := {
  model : string;
  platform : string;
  operatingSystem : string;
  osVersion : string;
  manufacturer : string;
  isVirtual : bool;
  battery : option Battery;
  network : option NetworkStatus;
  appVersion : string;
  uptime : string
}.

(** [a || b] on a field of a known type. *)
Definition str_or (a : option string) (b : string) : string :=
  match a with
  | Some s => if String.eqb s "" then b else s
  | None => b
  end.

Definition bool_or (a : option bool) (b : bool) : bool :=
  match a with
  | Some true => true
  | _ => b
  end.

Definition number_or (a : option number) (b : number) : number :=
  match a with
  | Some x => if num_truthy x then x else b
  | None => b
  end.

(** ** Capacitor plugins

    A plugin is given by what each of its calls answers: a value, or a
    failure of the call. *)
Record DevicePlugin : Type := {
  getInfo : completion DeviceInfoResult;
  getBatteryInfo : completion BatteryInfoResult
}.

Record NetworkPlugin : Type := {
  getStatus : completion NetworkStatusResult;
  addListener_fails : option error;   (* [Some e]: addListener throws [e] *)
  remove_fails : option error         (* [Some e]: a handle's remove throws [e] *)
}.

Record HapticsPlugin : Type := {
  impact : completion unit
}.

Record LocalNotificationsPlugin : Type := {
  requestPermissions : completion unit;
  schedule : completion unit
}.

Record ClipboardPlugin : Type := {
  write : completion unit
}.

Record Plugins : Type := {
  Device : option DevicePlugin;
  Network : option NetworkPlugin;
  Haptics : option HapticsPlugin;
  LocalNotifications : option LocalNotificationsPlugin;
  Clipboard : option ClipboardPlugin
}.

(** The callbacks the program registers. *)
Inductive callback : Type :=
| OnNetworkChange.      (* the arrow function of App.setupNetworkListener *)

(** ** The document *)

Inductive action : Type :=
| RefreshInfo | TestHaptics | SendTestNotification | CopyAllInfo | ToggleAutoRefresh.

Inductive node : Type :=
| Spinner
| Heading (text : string)
| Paragraph (text : string)
| Button (label : string) (onclick : action)
| Item (icon label class value : string)      (* a row: label, and a value of a CSS class *)
| ItemOf (icon label class id : string).      (* a row whose value is the element [id] *)

(** An element that has an id: its [hidden] and [show] classes, whether it
    lies inside [#app], and its content. *)
Record element : Type := {
  hidden : bool;
  show : bool;
  in_app : bool;
  content : list node;
  text : string
}.

(** ** Timers *)

Inductive task : Type :=
| RefreshTick      (* the callback of startAutoRefresh: loadDeviceInfo *)
| UptimeTick       (* the one-second tick: updateUptime *)
| HideToast.       (* the timeout of showToast *)

Record timer : Type := {
  repeats : bool;       (* setInterval, not setTimeout *)
  what : task;
  delay : value
}.

(** ** The state of the page *)

Record World : Type := {
  (* the browser *)
  localStorage : gmap string string;
  clock : Z;                              (* Date.now(), in milliseconds *)
  document : gmap string element;         (* the elements, by id *)
  timers : gmap nat timer;                (* the active timers, by handle *)
  next_timer : nat;
  (* the native bridge *)
  capacitor : option Plugins;             (* window.Capacitor.Plugins *)
  listeners : gmap nat callback;          (* the active networkStatusChange subscriptions *)
  next_listener : nat;
  (* the DeviceInfo object; [cachedInfo] is written by [getAllInfo] and never
     read: it is the object that [App.state.deviceInfo] then holds, and the
     later updates of that one are not mirrored in this field *)
  cachedInfo : option Snapshot;
  networkListener : option nat;
  (* App.state *)
  deviceInfo : option Snapshot;
  refreshInterval : option nat;
  preferences : value
}.

Definition with_localStorage (f : gmap string string -> gmap string string) (w : World) : World :=
  {| localStorage := f (localStorage w); clock := clock w; document := document w;
     timers := timers w; next_timer := next_timer w; capacitor := capacitor w;
     listeners := listeners w; next_listener := next_listener w;
     cachedInfo := cachedInfo w; networkListener := networkListener w;
     deviceInfo := deviceInfo w; refreshInterval := refreshInterval w;
     preferences := preferences w |}.

Definition with_document (f : gmap string element -> gmap string element) (w : World) : World :=
  {| localStorage := localStorage w; clock := clock w; document := f (document w);
     timers := timers w; next_timer := next_timer w; capacitor := capacitor w;
     listeners := listeners w; next_listener := next_listener w;
     cachedInfo := cachedInfo w; networkListener := networkListener w;
     deviceInfo := deviceInfo w; refreshInterval := refreshInterval w;
     preferences := preferences w |}.

Definition with_timers (f : gmap nat timer -> gmap nat timer) (n : nat) (w : World) : World :=
  {| localStorage := localStorage w; clock := clock w; document := document w;
     timers := f (timers w); next_timer := n; capacitor := capacitor w;
     listeners := listeners w; next_listener := next_listener w;
     cachedInfo := cachedInfo w; networkListener := networkListener w;
     deviceInfo := deviceInfo w; refreshInterval := refreshInterval w;
     preferences := preferences w |}.

Definition with_listeners (f : gmap nat callback -> gmap nat callback) (n : nat) (w : World) : World :=
  {| localStorage := localStorage w; clock := clock w; document := document w;
     timers := timers w; next_timer := next_timer w; capacitor := capacitor w;
     listeners := f (listeners w); next_listener := n;
     cachedInfo := cachedInfo w; networkListener := networkListener w;
     deviceInfo := deviceInfo w; refreshInterval := refreshInterval w;
     preferences := preferences w |}.

Definition with_cachedInfo (x : option Snapshot) (w : World) : World :=
  {| localStorage := localStorage w; clock := clock w; document := document w;
     timers := timers w; next_timer := next_timer w; capacitor := capacitor w;
     listeners := listeners w; next_listener := next_listener w;
     cachedInfo := x; networkListener := networkListener w;
     deviceInfo := deviceInfo w; refreshInterval := refreshInterval w;
     preferences := preferences w |}.

Definition with_networkListener (x : option nat) (w : World) : World :=
  {| localStorage := localStorage w; clock := clock w; document := document w;
     timers := timers w; next_timer := next_timer w; capacitor := capacitor w;
     listeners := listeners w; next_listener := next_listener w;
     cachedInfo := cachedInfo w; networkListener := x;
     deviceInfo := deviceInfo w; refreshInterval := refreshInterval w;
     preferences := preferences w |}.

Definition with_deviceInfo (x : option Snapshot) (w : World) : World :=
  {| localStorage := localStorage w; clock := clock w; document := document w;
     timers := timers w; next_timer := next_timer w; capacitor := capacitor w;
     listeners := listeners w; next_listener := next_listener w;
     cachedInfo := cachedInfo w; networkListener := networkListener w;
     deviceInfo := x; refreshInterval := refreshInterval w;
     preferences := preferences w |}.

Definition with_refreshInterval (x : option nat) (w : World) : World :=
  {| localStorage := localStorage w; clock := clock w; document := document w;
     timers := timers w; next_timer := next_timer w; capacitor := capacitor w;
     listeners := listeners w; next_listener := next_listener w;
     cachedInfo := cachedInfo w; networkListener := networkListener w;
     deviceInfo := deviceInfo w; refreshInterval := x;
     preferences := preferences w |}.

Definition with_preferences (x : value) (w : World) : World :=
  {| localStorage := localStorage w; clock := clock w; document := document w;
     timers := timers w; next_timer := next_timer w; capacitor := capacitor w;
     listeners := listeners w; next_listener := next_listener w;
     cachedInfo := cachedInfo w; networkListener := networkListener w;
     deviceInfo := deviceInfo w; refreshInterval := refreshInterval w;
     preferences := x |}.

(** ** Computations

    A function of the program is a state transformer that ends normally or
    by throwing; the state reached when it throws is kept (what was written
    before a throw stays written). An [await] of a call that fails throws
    at the place of the [await]; the calls of the program are awaited one
    after the other, so an asynchronous function runs here as a sequence. *)
Definition JS (A : Type) : Type := World -> completion A * World.

Definition ret {A} (a : A) : JS A := fun w => (Normal a, w).

Definition throw {A} (e : error) : JS A := fun w => (Throw e, w).

Definition bind {A B} (m : JS A) (k : A -> JS B) : JS B :=
  fun w =>
    match m w with
    | (Normal a, w') => k a w'
    | (Throw e, w') => (Throw e, w')
    end.

(** [try { body } catch (error) { handler }] *)
Definition try_catch {A} (body : JS A) (handler : error -> JS A) : JS A :=
  fun w =>
    match body w with
    | (Normal a, w') => (Normal a, w')
    | (Throw e, w') => handler e w'
    end.

(** [await] of a call whose answer is known. *)
Definition await {A} (c : completion A) : JS A := fun w => (c, w).

Definition get : JS World := fun w => (Normal w, w).

Definition modify (f : World -> World) : JS unit := fun w => (Normal tt, f w).

Declare Scope js_scope.
Delimit Scope js_scope with js.
Notation "'let*' x := m 'in' k" := (bind m (fun x => k))
  (at level 10, x name, m at level 100, k at level 200) : js_scope.
Notation "m ;; k" := (bind m (fun _ => k))
  (at level 100, k at level 200, right associativity) : js_scope.
Local Open Scope js_scope.

(** ** The browser's objects *)

(** [localStorage.getItem(key)]: the string, or [null]. *)
Definition getItem (key : string) : JS (option string) :=
  fun w => (Normal (localStorage w !! key), w).

(** [localStorage.setItem(key, value)], the value already a string. *)
Definition setItem (key : string) (v : string) : JS unit :=
  modify (with_localStorage (fun m => <[key := v]> m)).

(** [!!s] on what [getItem] returns: [null] and the empty string are falsy. *)
Definition item_truthy (s : option string) : bool :=
  match s with
  | Some t => negb (String.eqb t "")
  | None => false
  end.

Definition Date_now : JS Z := fun w => (Normal (clock w), w).

(** [document.getElementById(id)] *)
Definition getElementById (id : string) : JS (option element) :=
  fun w => (Normal (document w !! id), w).

(** A use of [el.classList], [el.innerHTML = ...] or [el.textContent = ...]
    on what [getElementById(id)] returned: a TypeError when that is [null]. *)
Definition update_element (id : string) (f : element -> element) : JS unit :=
  fun w =>
    match document w !! id with
    | Some el => (Normal tt, with_document (fun d => <[id := f el]> d) w)
    | None => (Throw (TypeError ("Cannot read properties of null (element " +:+ id +:+ ")")), w)
    end.

Definition set_hidden (b : bool) (el : element) : element :=
  {| hidden := b; show := show el; in_app := in_app el; content := content el; text := text el |}.

Definition set_show (b : bool) (el : element) : element :=
  {| hidden := hidden el; show := b; in_app := in_app el; content := content el; text := text el |}.

(** [el.innerHTML = ...]: the content is replaced entirely. *)
Definition set_content (c : list node) (el : element) : element :=
  {| hidden := hidden el; show := show el; in_app := in_app el; content := c; text := "" |}.

(** [el.textContent = ...] *)
Definition set_text (t : string) (el : element) : element :=
  {| hidden := hidden el; show := show el; in_app := in_app el; content := []; text := t |}.

(** A timer handle is a positive integer: it is truthy. *)
Definition handle_truthy (h : option nat) : bool :=
  match h with
  | Some (S _) => true
  | _ => false
  end.

(** [setInterval] and [setTimeout]: a new active timer, and its handle. *)
Definition set_timer (t : timer) : JS nat :=
  fun w =>
    let id := next_timer w in
    (Normal id, with_timers (fun m => <[id := t]> m) (S id) w).

(** [clearInterval(handle)]: the timer is no longer active (nothing happens
    when the handle names none). *)
Definition clearInterval (id : nat) : JS unit :=
  fun w => (Normal tt, with_timers (fun m => delete id m) (next_timer w) w).

(** [window.Capacitor.Plugins.X], when the bridge and the plugin exist. *)
Definition plugin {A} (select : Plugins -> option A) (w : World) : option A :=
  match capacitor w with
  | Some p => select p
  | None => None
  end.

(** [Network.addListener('networkStatusChange', cb)]: a new subscription
    and its handle, unless the call fails. *)
Definition addListener (net : NetworkPlugin) (cb : callback) : JS nat :=
  fun w =>
    match addListener_fails net with
    | Some e => (Throw e, w)
    | None =>
        let h := next_listener w in
        (Normal h, with_listeners (fun m => <[h := cb]> m) (S h) w)
    end.

(** [handle.remove()]: the subscription ends, unless the call fails. The
    handle carries the plugin it came from; the bridge has one. *)
Definition remove_listener (h : nat) : JS unit :=
  fun w =>
    match plugin Network w with
    | Some {| remove_fails := Some e |} => (Throw e, w)
    | _ => (Normal tt, with_listeners (fun m => delete h m) (next_listener w) w)
    end.

End Host.

(* ================================================================== *)
(** * InfoProvider: www/js/device-info.js *)
(* ================================================================== *)

Module DeviceInfo.
Import Js Host.
Local Open Scope js_scope.

(** [getPlugins()]: the five plugins of [window.Capacitor.Plugins], or
    [null] when the bridge is absent. *)
Definition getPlugins : JS (option Plugins) :=
  fun w => (Normal (capacitor w), w).

(** [init()]: asks for the notification permission; an error is logged. *)
Definition init : JS unit :=
  try_catch
    (let* plugins := getPlugins in
     match plugins with
     | Some p =>
         match LocalNotifications p with
         | Some ln => await (requestPermissions ln)
         | None => ret tt
         end
     | None => ret tt
     end)
    (fun error => ret tt).

Definition getFallbackDeviceInfo : DeviceRecord :=
  {| d_model := "iOS 设备";
     d_platform := "ios";
     d_operatingSystem := "iOS";
     d_osVersion := "未知";
     d_manufacturer := "Apple";
     d_isVirtual := false;
     d_battery := Some {| level := Some (num_of_Z 1); charging := Some false |} |}.

Definition getDeviceInfo : JS DeviceRecord :=
  let* plugins := getPlugins in
  match plugins with
  | None => ret getFallbackDeviceInfo
  | Some p =>
      match Device p with
      | None => ret getFallbackDeviceInfo
      | Some device =>
          try_catch
            (let* info := await (getInfo device) in
             let* batteryId := await (getBatteryInfo device) in
             ret {| d_model := str_or (r_model info) "未知设备";
                    d_platform := str_or (r_platform info) "未知平台";
                    d_operatingSystem := str_or (r_operatingSystem info) "未知系统";
                    d_osVersion := str_or (r_osVersion info) "未知版本";
                    d_manufacturer := str_or (r_manufacturer info) "未知厂商";
                    d_isVirtual := bool_or (r_isVirtual info) false;
                    d_battery :=
                      Some {| level := Some (number_or (r_batteryLevel batteryId) (num_of_Z 1));
                              charging := Some (bool_or (r_isCharging batteryId) false) |} |})
            (fun error => ret getFallbackDeviceInfo)
      end
  end.

Definition getFallbackNetworkStatus : NetworkStatus :=
  {| connected := Some false;
     connectionType := Some "none";
     typeText := Some "无法获取" |}.

(** [getNetworkTypeText(type, connected)]; [typeMap] has four entries of
    its own. A type that names a property [typeMap] inherits (such as
    "constructor") is read here as any other unlisted type; the plugin
    reports "wifi", "cellular", "none" or "unknown". *)
Definition getNetworkTypeText (type : option string) (connected : option bool) : string :=
  if negb (bool_or connected false) then "未连接"
  else
    match type with
    | Some t =>
        if String.eqb t "wifi" then "Wi-Fi"
        else if String.eqb t "cellular" then "蜂窝网络"
        else if String.eqb t "none" then "无网络"
        else if String.eqb t "unknown" then "未知"
        else "未知"
    | None => "未知"
    end.

Definition getNetworkStatus : JS NetworkStatus :=
  let* plugins := getPlugins in
  match plugins with
  | None => ret getFallbackNetworkStatus
  | Some p =>
      match Network p with
      | None => ret getFallbackNetworkStatus
      | Some net =>
          try_catch
            (let* status := await (getStatus net) in
             ret {| connected := r_connected status;
                    connectionType := Some (str_or (r_connectionType status) "unknown");
                    typeText :=
                      Some (getNetworkTypeText (r_connectionType status) (r_connected status)) |})
            (fun error => ret getFallbackNetworkStatus)
      end
  end.

Definition getAppVersion : string := "1.0.0".

(** ToNumber on the stored start time. The key is written by [App.init]
    alone, as the decimal digits of [Date.now()]; a string that is no
    decimal integer reads as [NaN] here ([None]). *)
Definition timestamp_of_string (s : string) : option Z :=
  option_map Z.of_int (NilZero.int_of_string s).

(** [getUptime()]. Times are integers of milliseconds: on them the
    subtraction and the [Math.floor] of a quotient are those of [Z], and
    [%] is [Z.rem]. The clock does not advance during the call (the two
    readings of [Date.now()] agree). *)
Definition getUptime : JS string :=
  let* stored := getItem "appStartTime" in
  let* now := Date_now in
  let startTime :=
    match stored with
    | Some s => if item_truthy stored then timestamp_of_string s else Some now
    | None => Some now
    end in
  match startTime with
  | None => ret "NaN秒"
  | Some t =>
      let elapsed := now - t in
      let seconds := elapsed / 1000 in
      let minutes := seconds / 60 in
      let hours := minutes / 60 in
      let days := hours / 24 in
      ret (if 0 <? days then
             Z_to_string days +:+ "天 " +:+ Z_to_string (Z.rem hours 24) +:+ "小时"
           else if 0 <? hours then
             Z_to_string hours +:+ "小时 " +:+ Z_to_string (Z.rem minutes 60) +:+ "分钟"
           else if 0 <? minutes then
             Z_to_string minutes +:+ "分钟 " +:+ Z_to_string (Z.rem seconds 60) +:+ "秒"
           else Z_to_string seconds +:+ "秒")
  end.

Definition with_extras (d : DeviceRecord) (net : option NetworkStatus)
    (version up : string) : Snapshot :=
  {| model := d_model d; platform := d_platform d;
     operatingSystem := d_operatingSystem d; osVersion := d_osVersion d;
     manufacturer := d_manufacturer d; isVirtual := d_isVirtual d;
     battery := d_battery d;
     network := net; appVersion := version; uptime := up |}.

Definition getFallbackInfo : Snapshot :=
  with_extras getFallbackDeviceInfo (Some getFallbackNetworkStatus) "1.0.0" "刚刚启动".

Definition getAllInfo : JS Snapshot :=
  try_catch
    (let* deviceInfo := getDeviceInfo in
     let* networkStatus := getNetworkStatus in
     let* up := getUptime in
     let info := with_extras deviceInfo (Some networkStatus) getAppVersion up in
     modify (with_cachedInfo (Some info));;
     ret info)
    (fun error => ret getFallbackInfo).

Definition hapticFeedback (style : string) : JS unit :=
  let* plugins := getPlugins in
  match plugins with
  | None => ret tt
  | Some p =>
      match Haptics p with
      | None => ret tt
      | Some haptics => try_catch (await (impact haptics)) (fun error => ret tt)
      end
  end.

Definition sendNotification (title body : string) : JS unit :=
  let* plugins := getPlugins in
  match plugins with
  | None => ret tt
  | Some p =>
      match LocalNotifications p with
      | None => ret tt
      | Some ln => try_catch (await (schedule ln)) (fun error => ret tt)
      end
  end.

Definition copyToClipboard (t : string) : JS bool :=
  let* plugins := getPlugins in
  match plugins with
  | None => ret false
  | Some p =>
      match Clipboard p with
      | None => ret false
      | Some clipboard =>
          try_catch (await (write clipboard);; ret true) (fun error => ret false)
      end
  end.

(** [addNetworkListener(callback)] *)
Definition addNetworkListener (cb : callback) : JS unit :=
  let* plugins := getPlugins in
  match plugins with
  | None => ret tt
  | Some p =>
      match Network p with
      | None => ret tt
      | Some net =>
          try_catch
            (let* handle := addListener net cb in
             modify (with_networkListener (Some handle)))
            (fun error => ret tt)
      end
  end.

(** What the registered arrow function hands to the callback. *)
Definition listener_argument (status : NetworkStatusResult) : NetworkStatus :=
  {| connected := r_connected status;
     connectionType := r_connectionType status;
     typeText := Some (getNetworkTypeText (r_connectionType status) (r_connected status)) |}.

(** [removeNetworkListener()] *)
Definition removeNetworkListener : JS unit :=
  let* w := get in
  match networkListener w with
  | Some handle =>
      try_catch
        (remove_listener handle;;
         modify (with_networkListener None))
        (fun error => ret tt)
  | None => ret tt
  end.

Record DisplayItem : Type := {
  di_label : string;
  di_value : string;
  di_icon : string
}.

Definition formatInfoForDisplay (info : Snapshot) : list DisplayItem :=
  [ {| di_label := "设备型号"; di_value := model info; di_icon := "📱" |};
    {| di_label := "操作系统";
       di_value := operatingSystem info +:+ " " +:+ osVersion info; di_icon := "💻" |};
    {| di_label := "制造商"; di_value := manufacturer info; di_icon := "🏭" |};
    {| di_label := "平台"; di_value := platform info; di_icon := "⚡" |};
    {| di_label := "虚拟设备";
       di_value := if isVirtual info then "是" else "否"; di_icon := "🖥️" |} ].

Record BatteryFormat : Type := {
  bf_level : number;
  bf_charging : bool;
  bf_levelClass : string;
  bf_text : string
}.

Definition formatBatteryInfo (info : Snapshot) : BatteryFormat :=
  let lvl :=
    Math_round
      (num_mul (number_or (match battery info with Some b => level b | None => None end)
                  (num_of_Z 1))
         (num_of_Z 100)) in
  let chg := bool_or (match battery info with Some b => charging b | None => None end) false in
  let levelClass :=
    if num_gt lvl (num_of_Z 50) then "high"
    else if num_gt lvl (num_of_Z 20) then "medium" else "low" in
  {| bf_level := lvl;
     bf_charging := chg;
     bf_levelClass := levelClass;
     bf_text := Number_toString lvl +:+ "% " +:+ (if chg then "🔌充电中" else "🔋未充电") |}.

Record NetworkFormat : Type := {
  nf_connected : bool;
  nf_type : string;
  nf_text : string;
  nf_statusClass : string
}.

Definition formatNetworkInfo (info : Snapshot) : NetworkFormat :=
  let conn := bool_or (match network info with Some n => connected n | None => None end) false in
  {| nf_connected := conn;
     nf_type := str_or (match network info with Some n => connectionType n | None => None end)
                  "unknown";
     nf_text := str_or (match network info with Some n => typeText n | None => None end) "未知";
     nf_statusClass := if conn then "connected" else "disconnected" |}.

End DeviceInfo.

(* ================================================================== *)
(** * AppController: the application script *)
(* ================================================================== *)

Module App.
Import Js Host.
Local Open Scope js_scope.

Definition getDefaultPreferences : value :=
  VObj [ ("autoRefresh", VBool false);
         ("refreshInterval", VNum (num_of_Z 30000));
         ("showBattery", VBool true);
         ("showNetwork", VBool true);
         ("showUptime", VBool true) ].

Definition loadPreferences : JS unit :=
  let* saved := getItem "appPreferences" in
  match saved with
  | Some text =>
      if item_truthy saved then
        try_catch
          (let* parsed := await (JSON_parse text) in
           modify (with_preferences parsed))
          (fun error => modify (with_preferences getDefaultPreferences))
      else modify (with_preferences getDefaultPreferences)
  | None => modify (with_preferences getDefaultPreferences)
  end.

Definition savePreferences : JS unit :=
  let* w := get in
  setItem "appPreferences" (ToString_stringified (JSON_stringify (preferences w))).

(** The elements [renderUI] writes into [#app]. *)
Definition shell_element (hid : bool) (c : list node) : element :=
  {| hidden := hid; show := false; in_app := true; content := c; text := "" |}.

Definition shell (toggleLabel : string) : gmap string element :=
  list_to_map
    [ ("loading", shell_element false [Spinner; Paragraph "正在获取设备信息..."]);
      ("deviceCard", shell_element true [Heading "设备信息"]);
      ("deviceInfoList", shell_element false []);
      ("batteryCard", shell_element true [Heading "电池状态"]);
      ("batteryInfo", shell_element false []);
      ("networkCard", shell_element true [Heading "网络状态"]);
      ("networkInfo", shell_element false []);
      ("appCard", shell_element true [Heading "应用信息"]);
      ("appInfoList", shell_element false []);
      ("buttonGroup",
       shell_element true
         [ Button "🔄 刷新信息" RefreshInfo;
           Button "📳 震动测试" TestHaptics;
           Button "🔔 通知测试" SendTestNotification;
           Button "📋 复制信息" CopyAllInfo;
           Button ("⏱️ " +:+ toggleLabel) ToggleAutoRefresh ]);
      ("refreshBtn", shell_element false [Button "🔄" RefreshInfo]);
      ("toast", shell_element false []) ].

(** [renderUI()]: nothing without [#app]; else the template is evaluated
    (it reads [preferences.autoRefresh]) and replaces what [#app] held. *)
Definition renderUI : JS unit :=
  let* container := getElementById "app" in
  match container with
  | None => ret tt
  | Some app =>
      let* w := get in
      let* autoRefresh := await (get_prop (preferences w) "autoRefresh") in
      let label := if truthy autoRefresh then "停止自动刷新" else "自动刷新" in
      modify (with_document (fun d =>
        <["app" := set_content [Heading "📱 iOS 设备信息面板"; Paragraph "查看您的设备详情"] app]>
          (shell label ∪ filter (fun kv => in_app kv.2 = false) d)))
  end.

(** [showError(message)]: the content of [#loading], when there is such an
    element, becomes the message and the retry button. *)
Definition error_view (message : string) : list node :=
  [ Paragraph ("❌ " +:+ message); Button "🔄 重试" RefreshInfo ].

Definition showError (message : string) : JS unit :=
  let* loading := getElementById "loading" in
  match loading with
  | Some _ => update_element "loading" (set_content (error_view message))
  | None => ret tt
  end.

Definition renderDeviceInfo (info : Snapshot) : JS unit :=
  let items := DeviceInfo.formatInfoForDisplay info in
  update_element "deviceInfoList"
    (set_content
       (List.map (fun item =>
                    Item (DeviceInfo.di_icon item) (DeviceInfo.di_label item) "info-value"
                      (DeviceInfo.di_value item))
          items)).

Definition renderBatteryInfo (info : Snapshot) : JS unit :=
  let b := DeviceInfo.formatBatteryInfo info in
  update_element "batteryInfo"
    (set_content
       [ Item "🔋" "电池电量" ("battery-level " +:+ DeviceInfo.bf_levelClass b)
           (DeviceInfo.bf_text b);
         Item "⚡" "充电状态" "info-value"
           (if DeviceInfo.bf_charging b then "🔌 充电中" else "🔋 未充电") ]).

Definition renderNetworkInfo (info : Snapshot) : JS unit :=
  let n := DeviceInfo.formatNetworkInfo info in
  update_element "networkInfo"
    (set_content
       [ Item "📡" "连接状态" ("network-status " +:+ DeviceInfo.nf_statusClass n)
           (if DeviceInfo.nf_connected n then "✅ 已连接" else "❌ 未连接");
         Item "🌐" "网络类型" "info-value" (DeviceInfo.nf_text n) ]).

(** [renderAppInfo(info)]: the new content holds the element
    [#uptimeDisplay]. *)
Definition renderAppInfo (info : Snapshot) : JS unit :=
  let* list := getElementById "appInfoList" in
  update_element "appInfoList"
    (set_content
       [ Item "📦" "应用版本" "info-value" ("v" +:+ appVersion info);
         ItemOf "⏱️" "运行时间" "info-value uptime" "uptimeDisplay" ]);;
  modify (with_document (fun d =>
    <["uptimeDisplay" :=
        {| hidden := false; show := false;
           in_app := match list with Some el => in_app el | None => false end;
           content := []; text := uptime info |}]> d)).

Definition updateUI : JS unit :=
  let* w := get in
  match deviceInfo w with
  | None => ret tt
  | Some info =>
      update_element "loading" (set_hidden true);;
      update_element "deviceCard" (set_hidden false);;
      update_element "buttonGroup" (set_hidden false);;
      renderDeviceInfo info;;
      let* showBattery := await (get_prop (preferences w) "showBattery") in
      (if truthy showBattery
       then renderBatteryInfo info;; update_element "batteryCard" (set_hidden false)
       else ret tt);;
      let* showNetwork := await (get_prop (preferences w) "showNetwork") in
      (if truthy showNetwork
       then renderNetworkInfo info;; update_element "networkCard" (set_hidden false)
       else ret tt);;
      renderAppInfo info;;
      update_element "appCard" (set_hidden false)
  end.

Definition loadDeviceInfo : JS unit :=
  try_catch
    (let* info := DeviceInfo.getAllInfo in
     modify (with_deviceInfo (Some info));;
     updateUI)
    (fun error => showError "加载设备信息失败").

Definition set_network (n : NetworkStatus) (info : Snapshot) : Snapshot :=
  {| model := model info; platform := platform info;
     operatingSystem := operatingSystem info; osVersion := osVersion info;
     manufacturer := manufacturer info; isVirtual := isVirtual info;
     battery := battery info;
     network := Some n; appVersion := appVersion info; uptime := uptime info |}.

Definition set_uptime (u : string) (info : Snapshot) : Snapshot :=
  {| model := model info; platform := platform info;
     operatingSystem := operatingSystem info; osVersion := osVersion info;
     manufacturer := manufacturer info; isVirtual := isVirtual info;
     battery := battery info;
     network := network info; appVersion := appVersion info; uptime := u |}.

(** The callback of [setupNetworkListener]. *)
Definition on_network_change (networkStatus : NetworkStatus) : JS unit :=
  let* w := get in
  match deviceInfo w with
  | Some info =>
      let info' := set_network networkStatus info in
      modify (with_deviceInfo (Some info'));;
      let* card := getElementById "networkCard" in
      match card with
      | Some el => if hidden el then ret tt else renderNetworkInfo info'
      | None => throw (TypeError "Cannot read properties of null (reading 'classList')")
      end
  | None => ret tt
  end.

Definition setupNetworkListener : JS unit :=
  DeviceInfo.addNetworkListener OnNetworkChange.

(** [showToast(message, duration = 2000)] *)
Definition showToast (message : string) : JS unit :=
  let* toast := getElementById "toast" in
  match toast with
  | None => ret tt
  | Some _ =>
      update_element "toast" (fun el => set_show true (set_text message el));;
      let* _ := set_timer {| repeats := false; what := HideToast; delay := VNum (num_of_Z 2000) |} in
      ret tt
  end.

Definition refreshInfo : JS unit :=
  DeviceInfo.hapticFeedback "light";;
  loadDeviceInfo;;
  showToast "✅ 信息已刷新".

Definition startAutoRefresh : JS unit :=
  let* w := get in
  (match refreshInterval w with
   | Some id => if handle_truthy (Some id) then clearInterval id else ret tt
   | None => ret tt
   end);;
  let* d := await (get_prop (preferences w) "refreshInterval") in
  let* id := set_timer {| repeats := true; what := RefreshTick; delay := d |} in
  modify (with_refreshInterval (Some id)).

Definition stopAutoRefresh : JS unit :=
  let* w := get in
  match refreshInterval w with
  | Some id =>
      if handle_truthy (Some id)
      then clearInterval id;; modify (with_refreshInterval None)
      else ret tt
  | None => ret tt
  end.

(** The button [#buttonGroup button:last-child]. *)
Fixpoint relabel_last_button (label : string) (c : list node) : list node :=
  match c with
  | [] => []
  | [Button _ a] => [Button label a]
  | n :: r => n :: relabel_last_button label r
  end.

Definition toggleAutoRefresh : JS unit :=
  let* w := get in
  let* old := await (get_prop (preferences w) "autoRefresh") in
  let* prefs := await (set_prop (preferences w) "autoRefresh" (VBool (negb (truthy old)))) in
  modify (with_preferences prefs);;
  savePreferences;;
  let* now := await (get_prop prefs "autoRefresh") in
  (if truthy now
   then startAutoRefresh;; showToast "⏱️ 已开启自动刷新"
   else stopAutoRefresh;; showToast "⏹️ 已停止自动刷新");;
  let* group := getElementById "buttonGroup" in
  match group with
  | Some el =>
      let label := "⏱️ " +:+ (if truthy now then "停止自动刷新" else "自动刷新") in
      update_element "buttonGroup" (fun el =>
        {| hidden := hidden el; show := show el; in_app := in_app el;
           content := relabel_last_button label (content el); text := text el |})
  | None => ret tt
  end.

Definition updateUptime : JS unit :=
  let* uptimeDisplay := getElementById "uptimeDisplay" in
  let* w := get in
  match uptimeDisplay, deviceInfo w with
  | Some _, Some info =>
      let* u := DeviceInfo.getUptime in
      modify (with_deviceInfo (Some (set_uptime u info)));;
      update_element "uptimeDisplay" (set_text u)
  | _, _ => ret tt
  end.

Definition destroy : JS unit :=
  stopAutoRefresh;;
  DeviceInfo.removeNetworkListener.

(** The body of the [try] block of [init()]. [setupNetworkListener()] is
    started and not awaited; it catches its own errors and touches only the
    subscription state, so it is run in place. *)
Definition init_sequence : JS unit :=
  let* started := getItem "appStartTime" in
  (if item_truthy started then ret tt
   else let* now := Date_now in setItem "appStartTime" (Z_to_string now));;
  loadPreferences;;
  DeviceInfo.init;;
  renderUI;;
  loadDeviceInfo;;
  setupNetworkListener;;
  let* w := get in
  let* autoRefresh := await (get_prop (preferences w) "autoRefresh") in
  if truthy autoRefresh then startAutoRefresh else ret tt.

Definition init : JS unit :=
  try_catch init_sequence (fun error => showError "初始化失败，请刷新页面重试").

(** The [DOMContentLoaded] handler. [App.init()] is started and not
    awaited: it runs up to its first [await], that of [DeviceInfo.init()],
    which is after the preferences are loaded; the handler then installs the
    one-second tick, and [init] goes on from there. Nothing before the
    [await] throws, so the [try] block is entered here after the tick. *)
Definition main : JS unit :=
  let* started := getItem "appStartTime" in
  (if item_truthy started then ret tt
   else let* now := Date_now in setItem "appStartTime" (Z_to_string now));;
  loadPreferences;;
  let* _ := set_timer {| repeats := true; what := UptimeTick; delay := VNum (num_of_Z 1000) |} in
  try_catch
    (DeviceInfo.init;;
     renderUI;;
     loadDeviceInfo;;
     setupNetworkListener;;
     let* w := get in
     let* autoRefresh := await (get_prop (preferences w) "autoRefresh") in
     if truthy autoRefresh then startAutoRefresh else ret tt)
    (fun error => showError "初始化失败，请刷新页面重试").

(** ** The test buttons *)

Definition testHaptics : JS unit :=
  DeviceInfo.hapticFeedback "heavy";;
  showToast "📳 震动测试完成".

Definition sendTestNotification : JS unit :=
  DeviceInfo.sendNotification "设备信息面板" "通知功能正常工作！";;
  DeviceInfo.hapticFeedback "medium";;
  showToast "🔔 通知已发送".

Definition newline : string := String "010"%char "".

Definition is_space (c : ascii) : bool :=
  match c with
  | "009"%char | "010"%char | "011"%char | "012"%char | "013"%char | " "%char => true
  | _ => false
  end.

Fixpoint trim_start (s : string) : string :=
  match s with
  | String c r => if is_space c then trim_start r else s
  | EmptyString => EmptyString
  end.

Fixpoint trim_end (s : string) : string :=
  match s with
  | String c r =>
      match trim_end r with
      | EmptyString => if is_space c then EmptyString else String c EmptyString
      | r' => String c r'
      end
  | EmptyString => EmptyString
  end.

(** [s.trim()], for the white space of ASCII (the template of [copyAllInfo]
    begins and ends with such; white space outside ASCII is left). *)
Definition trim (s : string) : string := trim_end (trim_start s).

Definition lines (l : list string) : string :=
  foldr (fun line rest => line +:+ newline +:+ rest) "" l.

(** The text [copyAllInfo] builds from the snapshot. *)
Definition clipboard_text (info : Snapshot) : string :=
  let lvl :=
    Math_round
      (num_mul (number_or (match battery info with Some b => level b | None => None end)
                  (num_of_Z 1))
         (num_of_Z 100)) in
  let chg := bool_or (match battery info with Some b => charging b | None => None end) false in
  let conn := bool_or (match network info with Some n => connected n | None => None end) false in
  trim
    (newline +:+
     lines
       [ "设备信息面板";
         "==================";
         "设备型号: " +:+ model info;
         "操作系统: " +:+ operatingSystem info +:+ " " +:+ osVersion info;
         "制造商: " +:+ manufacturer info;
         "平台: " +:+ platform info;
         "虚拟设备: " +:+ (if isVirtual info then "是" else "否");
         "";
         "电池状态";
         "==================";
         "电量: " +:+ Number_toString lvl +:+ "%";
         "充电状态: " +:+ (if chg then "充电中" else "未充电");
         "";
         "网络状态";
         "==================";
         "连接状态: " +:+ (if conn then "已连接" else "未连接");
         "网络类型: " +:+
           str_or (match network info with Some n => typeText n | None => None end) "未知";
         "";
         "应用信息";
         "==================";
         "版本: v" +:+ appVersion info;
         "运行时间: " +:+ uptime info ] +:+
     "        ").

Definition copyAllInfo : JS unit :=
  let* w := get in
  match deviceInfo w with
  | None => ret tt
  | Some info =>
      let* success := DeviceInfo.copyToClipboard (clipboard_text info) in
      DeviceInfo.hapticFeedback "light";;
      if success then showToast "✅ 已复制到剪贴板" else showToast "❌ 复制失败"
  end.

(** ** What the host runs later *)

(** A timer fires. *)
Definition fire_timer (id : nat) : JS unit :=
  let* w := get in
  match timers w !! id with
  | None => ret tt
  | Some t =>
      (if repeats t then ret tt else clearInterval id);;
      match what t with
      | RefreshTick => loadDeviceInfo
      | UptimeTick => updateUptime
      | HideToast => update_element "toast" (set_show false)
      end
  end.

(** The network changes: every active subscription is notified. *)
Definition network_event (status : NetworkStatusResult) : JS unit :=
  let* w := get in
  foldr (fun '(_, cb) rest =>
           match cb with
           | OnNetworkChange => on_network_change (DeviceInfo.listener_argument status)
           end;; rest)
    (ret tt) (map_to_list (listeners w)).

(** A click on a button of the page. *)
Definition click (a : action) : JS unit :=
  match a with
  | RefreshInfo => refreshInfo
  | TestHaptics => testHaptics
  | SendTestNotification => sendTestNotification
  | CopyAllInfo => copyAllInfo
  | ToggleAutoRefresh => toggleAutoRefresh
  end.

(** ** The states of the interface (spec, section 4.2) *)

Inductive phase : Type := Uninitialized | Loading | Ready | Error.

Definition has_retry (c : list node) : bool :=
  existsb (fun n => match n with Button _ RefreshInfo => true | _ => false end) c.

Definition has_spinner (c : list node) : bool :=
  existsb (fun n => match n with Spinner => true | _ => false end) c.

Definition visible (d : gmap string element) (id : string) : bool :=
  match d !! id with
  | Some el => negb (hidden el)
  | None => false
  end.

(** [Error]: the loading element is shown and holds the retry control;
    [Loading]: it is shown and holds the spinner; [Ready]: the device card
    is shown. *)
Definition ui_phase (w : World) : phase :=
  match document w !! "loading" with
  | Some el =>
      if negb (hidden el) && has_retry (content el) then Error
      else if negb (hidden el) && has_spinner (content el) then Loading
      else if visible (document w) "deviceCard" then Ready
      else Uninitialized
  | None => if visible (document w) "deviceCard" then Ready else Uninitialized
  end.

End App.

(* ================================================================== *)
(** * Numbers and JSON texts: what is read back *)
(* ================================================================== *)

#[local] Arguments String.append !s1 s2 : simpl nomatch.
Import Js.

Lemma digits2_pos_size p : digits2_pos p = Pos.size p.
Proof. induction p; simpl; congruence. Qed.

Lemma digits2_iter_xO p k : digits2_pos (Pos.iter xO p k) = (digits2_pos p + k)%positive.
Proof.
  induction k using Pos.peano_ind.
  - simpl. lia.
  - rewrite Pos.iter_succ. simpl. rewrite IHk. lia.
Qed.

Lemma iter_xO_mul p k : Zpos (Pos.iter xO p k) = Zpos p * 2 ^ Zpos k.
Proof.
  induction k using Pos.peano_ind.
  - simpl. lia.
  - rewrite Pos.iter_succ. rewrite Pos2Z.inj_xO, IHk, Pos2Z.inj_succ, Z.pow_succ_r by lia. lia.
Qed.

(** The canonical form of a positive integer below 2^53. *)
Definition canon (s : bool) (p : positive) : number :=
  let d := Zpos (digits2_pos p) in
  S754_finite s (Z.to_pos (Zpos p * 2 ^ (53 - d))) (d - 53).


Lemma size_le_53 p : Zpos p < 2 ^ 53 -> Zpos (digits2_pos p) <= 53.
Proof.
  intros Hp. rewrite digits2_pos_size.
  destruct (Z.le_gt_cases (Zpos (Pos.size p)) 53) as [H|H]; [exact H|].
  exfalso. pose proof (Pos.size_le p) as Hs.
  assert (2 ^ 53 <= 2 ^ (Zpos (Pos.size p) - 1)) by (apply Z.pow_le_mono_r; lia).
  assert (Zpos (2 ^ Pos.size p) = 2 * 2 ^ (Zpos (Pos.size p) - 1)).
  { rewrite Pos2Z.inj_pow. rewrite <- Z.pow_succ_r by lia. f_equal. lia. }
  lia.
Qed.

Lemma round_aux_53 s m e :
  Zpos (digits2_pos m) = 53 -> -1074 <= e <= 971 ->
  binary_round_aux prec emax s (Zpos m) e loc_Exact = S754_finite s m e.
Proof.
  intros Hd He. unfold binary_round_aux, shr_fexp. cbn [Zdigits2 shr_record_of_loc].
  rewrite Hd.
  assert (Hf : fexp prec emax (53 + e) - e = 0).
  { unfold fexp, emin, prec, emax. lia. }
  replace (Z.sub (fexp prec emax (Z.add 53 e)) e) with 0 by (symmetry; exact Hf).
  cbn [shr shr_m loc_of_shr_record round_nearest_even Zdigits2].
  rewrite Hd.
  replace (Z.sub (fexp prec emax (Z.add 53 e)) e) with 0 by (symmetry; exact Hf).
  cbn [shr shr_m].
  replace (Z.leb e (Z.sub emax prec)) with true; [reflexivity|].
  symmetry. apply Z.leb_le. unfold emax, prec. lia.
Qed.

Lemma binary_round_small s p :
  Zpos p < 2 ^ 53 -> binary_round prec emax s p 0 = canon s p.
Proof.
  intros Hp. pose proof (size_le_53 p Hp) as Hd.
  unfold binary_round, canon.
  set (d := digits2_pos p) in *.
  assert (Hf : fexp prec emax (Zpos d + 0) = Zpos d - 53).
  { unfold fexp, emin, prec, emax. lia. }
  replace (fexp prec emax (Z.add (Zpos d) 0)) with (Zpos d - 53) by (symmetry; exact Hf).
  unfold shl_align.
  replace (Z.sub (Zpos d - 53) 0) with (Zpos d - 53) by lia.
  destruct (Zpos d - 53) as [|q|q] eqn:Hq; try lia.
  - replace (53 - Zpos d) with 0 by lia. rewrite Z.mul_1_r. cbn [Z.to_pos].
    apply round_aux_53; [fold d; lia | lia].
  - assert (Hk : 53 - Zpos d = Zpos q) by lia. rewrite Hk.
    rewrite <- iter_xO_mul. cbn [Z.to_pos].
    apply round_aux_53.
    + rewrite digits2_iter_xO. fold d. lia.
    + lia.
Qed.

Lemma num_of_Z_pos p : Zpos p < 2 ^ 53 -> num_of_Z (Zpos p) = canon false p.
Proof. intros. unfold num_of_Z, binary_normalize. now apply binary_round_small. Qed.

Lemma num_of_Z_neg p : Zpos p < 2 ^ 53 -> num_of_Z (Zneg p) = canon true p.
Proof. intros. unfold num_of_Z, binary_normalize. now apply binary_round_small. Qed.

Lemma num_to_Z_canon s p :
  Zpos p < 2 ^ 53 -> num_to_Z (canon s p) = Some (cond_Zopp s (Zpos p)).
Proof.
  intros Hp. pose proof (size_le_53 p Hp) as Hd. unfold canon, num_to_Z.
  set (d := Zpos (digits2_pos p)) in *.
  assert (Hpow : 0 < 2 ^ (53 - d)) by (apply Z.pow_pos_nonneg; lia).
  assert (Hm : Zpos (Z.to_pos (Zpos p * 2 ^ (53 - d))) = Zpos p * 2 ^ (53 - d)).
  { rewrite Z2Pos.id; [reflexivity | lia]. }
  rewrite Hm.
  destruct (Z.leb_spec 0 (d - 53)) as [H|H].
  - replace (d - 53) with 0 by lia. replace (53 - d) with 0 by lia.
    do 2 f_equal. simpl. lia.
  - replace (- (d - 53)) with (53 - d) by lia.
    rewrite Z.mod_mul by lia. cbn [Z.eqb].
    rewrite Z.div_mul by lia. reflexivity.
Qed.

Lemma safe_integer_of_Z n : Z.abs n < 2 ^ 53 -> safe_integer (num_of_Z n) = Some n.
Proof.
  intros Hn. unfold safe_integer.
  assert (num_to_Z (num_of_Z n) = Some n) as ->.
  { destruct n as [|p|p].
    - reflexivity.
    - rewrite num_of_Z_pos, num_to_Z_canon by lia. reflexivity.
    - rewrite num_of_Z_neg, num_to_Z_canon by lia. reflexivity. }
  destruct (Z.ltb_spec (Z.abs n) (2 ^ 53)); [reflexivity | lia].
Qed.

Lemma Number_toString_of_Z n : Z.abs n < 2 ^ 53 -> Number_toString (num_of_Z n) = Z_to_string n.
Proof. intros Hn. unfold Number_toString. now rewrite safe_integer_of_Z. Qed.

Lemma size_lt_lt p q : (Pos.size p < Pos.size q)%positive -> (p < q)%positive.
Proof.
  intros H. pose proof (Pos.size_gt p) as Hp. pose proof (Pos.size_le q) as Hq.
  apply Pos2Z.pos_lt_pos in Hp. apply Pos2Z.pos_le_pos in Hq.
  rewrite Pos2Z.inj_pow in Hp, Hq.
  assert (2 ^ Zpos (Pos.size p) <= 2 ^ (Zpos (Pos.size q) - 1)) by (apply Z.pow_le_mono_r; lia).
  assert (2 ^ Zpos (Pos.size q) = 2 * 2 ^ (Zpos (Pos.size q) - 1)).
  { rewrite <- Z.pow_succ_r by lia. f_equal. lia. }
  lia.
Qed.

Lemma canon_ltb p q :
  Zpos p < 2 ^ 53 -> Zpos q < 2 ^ 53 ->
  SFltb (canon false p) (canon false q) = (Zpos p <? Zpos q).
Proof.
  intros Hp Hq. pose proof (size_le_53 p Hp) as Hdp. pose proof (size_le_53 q Hq) as Hdq.
  unfold SFltb, canon, SFcompare.
  rewrite (digits2_pos_size p), (digits2_pos_size q) in *.
  destruct (Z.compare_spec (Zpos (Pos.size p) - 53) (Zpos (Pos.size q) - 53)) as [H|H|H].
  - assert (Hs : Pos.size p = Pos.size q) by lia. rewrite Hs.
    set (k := 2 ^ (53 - Zpos (Pos.size q))).
    assert (Hk : 0 < k) by (apply Z.pow_pos_nonneg; lia).
    change (Pos.compare_cont Eq ?a ?b) with (Pos.compare a b).
    rewrite <- Z2Pos.inj_compare by (apply Z.mul_pos_pos; lia).
    rewrite <- Zmult_compare_compat_r by lia.
    unfold Z.ltb. reflexivity.
  - assert ((p < q)%positive) by (apply size_lt_lt; lia).
    symmetry. apply Z.ltb_lt. lia.
  - assert ((q < p)%positive) by (apply size_lt_lt; lia).
    symmetry. apply Z.ltb_ge. lia.
Qed.

(** [num_of_Z n > num_of_Z k] is [n > k], for safe integers and a positive [k]. *)
Lemma num_gt_of_Z n k :
  Z.abs n < 2 ^ 53 -> 0 < k < 2 ^ 53 ->
  num_gt (num_of_Z n) (num_of_Z k) = (k <? n).
Proof.
  intros Hn Hk. unfold num_gt.
  destruct k as [|k|k]; try lia. rewrite (num_of_Z_pos k) by lia.
  destruct n as [|p|p].
  - reflexivity.
  - rewrite num_of_Z_pos by lia. apply canon_ltb; lia.
  - rewrite num_of_Z_neg by lia. reflexivity.
Qed.

(** ** Reading back what was printed *)

Definition digit_free_head (s : string) : Prop :=
  match s with
  | String c _ => is_digit c = false
  | EmptyString => True
  end.

Lemma read_digits_printed u rest :
  digit_free_head rest ->
  read_digits (NilEmpty.string_of_uint u +:+ rest) = (u, rest).
Proof.
  intros H. induction u; simpl; try (rewrite IHu; reflexivity).
  destruct rest as [|c r]; simpl in *; [reflexivity | now rewrite H].
Qed.

Lemma nzhead_head u :
  match Decimal.nzhead u with Decimal.D0 _ => False | _ => True end.
Proof. induction u; simpl; auto. Qed.

Lemma to_uint_normal p : leading_zero (Pos.to_uint p) = false /\ is_nil (Pos.to_uint p) = false.
Proof.
  assert (H : Decimal.unorm (Pos.to_uint p) = Pos.to_uint p).
  { rewrite <- (DecimalPos.Unsigned.to_of (Pos.to_uint p)).
    now rewrite DecimalPos.Unsigned.of_to. }
  pose proof (DecimalPos.Unsigned.to_uint_nonnil p) as Hn.
  split; [| now destruct (Pos.to_uint p)].
  rewrite <- H. unfold Decimal.unorm.
  pose proof (nzhead_head (Pos.to_uint p)) as Hh.
  destruct (Decimal.nzhead (Pos.to_uint p)); simpl; auto; contradiction.
Qed.

(** What may follow a printed number: the end of the text, or one of
    [,], [}] and [\]]. *)
Definition number_end (s : string) : bool :=
  match s with
  | EmptyString => true
  | String c _ => Ascii.eqb c ","%char || Ascii.eqb c "}"%char || Ascii.eqb c "]"%char
  end.

Lemma number_end_cases s :
  number_end s = true ->
  s = "" \/ exists r, s = String ","%char r \/ s = String "}"%char r \/ s = String "]"%char r.
Proof.
  destruct s as [|c r]; [auto|]. cbn [number_end]. intros H. right. exists r.
  apply orb_true_iff in H as [H|H]; [apply orb_true_iff in H as [H|H]|];
    apply Ascii.eqb_eq in H; subst; auto.
Qed.

Ltac number_end_cases H :=
  apply number_end_cases in H as [->|[? [->|[->| ->]]]].

Lemma lex_unsigned (neg : bool) (p : positive) rest :
  number_end rest = true ->
  lex_unsigned_number neg (NilEmpty.string_of_uint (Pos.to_uint p) +:+ rest)
  = Some (num_of_Z (cond_Zopp neg (Zpos p)), rest).
Proof.
  intros Hc. unfold lex_unsigned_number.
  rewrite read_digits_printed by (number_end_cases Hc; reflexivity).
  destruct (to_uint_normal p) as [-> ->]. cbn [orb].
  assert (lex_fraction rest = Some (Decimal.Nil, rest)) as ->
    by (number_end_cases Hc; reflexivity).
  assert (lex_exponent rest = Some (0, rest)) as ->
    by (number_end_cases Hc; reflexivity).
  rewrite DecimalFacts.app_nil_r.
  change (N.of_uint (Pos.to_uint p)) with (Pos.of_uint (Pos.to_uint p)).
  rewrite DecimalPos.Unsigned.of_to.
  unfold num_of_decimal, num_of_Z.
  cbn [Decimal.nb_digits Z.of_nat Z.sub Z.opp Z.add Z.leb Z.compare].
  rewrite Z.pow_0_r, Z.mul_1_r. reflexivity.
Qed.

Lemma head_not_minus {A} u rest (f : string -> A) (b : A) :
  u <> Decimal.Nil ->
  match NilEmpty.string_of_uint u +:+ rest with
  | String "-"%char r => f r
  | _ => b
  end = b.
Proof. destruct u; [contradiction | ..]; reflexivity. Qed.

Lemma Z_to_string_pos p : Z_to_string (Zpos p) = NilEmpty.string_of_uint (Pos.to_uint p).
Proof.
  unfold Z_to_string. cbn [Z.to_int NilZero.string_of_int NilZero.string_of_uint].
  pose proof (DecimalPos.Unsigned.to_uint_nonnil p). now destruct (Pos.to_uint p).
Qed.

Lemma Z_to_string_neg p :
  Z_to_string (Zneg p) = String "-"%char (NilEmpty.string_of_uint (Pos.to_uint p)).
Proof.
  unfold Z_to_string. cbn [Z.to_int NilZero.string_of_int NilZero.string_of_uint].
  pose proof (DecimalPos.Unsigned.to_uint_nonnil p). now destruct (Pos.to_uint p).
Qed.

(** A printed integer is read back as the number it prints. *)
Lemma lex_number_printed n rest :
  number_end rest = true ->
  lex_number (Z_to_string n +:+ rest) = Some (num_of_Z n, rest).
Proof.
  intros Hc. destruct n as [|p|p].
  - number_end_cases Hc; reflexivity.
  - rewrite Z_to_string_pos. unfold lex_number.
    rewrite head_not_minus by apply DecimalPos.Unsigned.to_uint_nonnil.
    now apply lex_unsigned.
  - rewrite Z_to_string_neg. cbn [String.append lex_number].
    now apply (lex_unsigned true).
Qed.

(** A number literal is one token. *)
Definition number_start (c : ascii) : bool := Ascii.eqb c "-"%char || is_digit c.

Lemma lex_number_step f c r x r' :
  number_start c = true ->
  lex_number (String c r) = Some (x, r') ->
  lex (S f) (String c r) = cons_token (TNum x) (lex f r').
Proof.
  intros Hc Hn. cbn [lex]. rewrite Hn.
  destruct c as [[|] [|] [|] [|] [|] [|] [|] [|]]; try discriminate Hc; reflexivity.
Qed.

Lemma printed_head n :
  exists c r, Z_to_string n = String c r /\ number_start c = true.
Proof.
  destruct n as [|p|p].
  - now exists "0"%char, "".
  - rewrite Z_to_string_pos.
    pose proof (DecimalPos.Unsigned.to_uint_nonnil p) as Hnn.
    destruct (Pos.to_uint p); [contradiction | ..]; cbn [NilEmpty.string_of_uint]; eauto.
  - rewrite Z_to_string_neg. eauto.
Qed.

Lemma lex_printed_number f n rest :
  number_end rest = true ->
  lex (S f) (Z_to_string n +:+ rest) = cons_token (TNum (num_of_Z n)) (lex f rest).
Proof.
  intros Hc. pose proof (lex_number_printed n rest Hc) as Hn.
  destruct (printed_head n) as (c0 & r0 & E & Hs). rewrite E in *.
  cbn [String.append] in *. now apply lex_number_step.
Qed.

Lemma cons_token_mono t o o' ts :
  (forall l, o = Some l -> o' = Some l) ->
  cons_token t o = Some ts -> cons_token t o' = Some ts.
Proof.
  intros H. destruct o as [l|]; [|discriminate].
  rewrite (H l eq_refl). auto.
Qed.

(** More fuel does not change the tokens. *)
Lemma lex_mono f : forall s ts f', lex f s = Some ts -> (f <= f')%nat -> lex f' s = Some ts.
Proof.
  induction f as [|f IH]; intros s ts f' H Hle; [discriminate|].
  destruct f' as [|f']; [lia|].
  assert (Hf : (f <= f')%nat) by lia.
  assert (step : forall r l, lex f r = Some l -> lex f' r = Some l) by (intros; eauto).
  revert H. cbn [lex]. destruct s as [|c r]; [auto|].
  repeat match goal with
         | |- (if ?b then _ else _) = _ -> _ => destruct b
         | |- cons_token _ _ = _ -> _ => apply cons_token_mono; apply step
         | |- lex f _ = _ -> _ => apply step
         | |- match lex_string ?x with _ => _ end = _ -> _ => destruct (lex_string x) as [[? ?]|]
         | |- match lex_number ?x with _ => _ end = _ -> _ => destruct (lex_number x) as [[? ?]|]
         | |- match strip_prefix ?p ?x with _ => _ end = _ -> _ => destruct (strip_prefix p x)
         | |- None = _ -> _ => discriminate
         end.
Qed.

Lemma append_assoc (a b c : string) : (a +:+ b) +:+ c = a +:+ b +:+ c.
Proof. induction a as [|x a IH]; cbn [String.append]; congruence. Qed.

(** ** Strings without escapes *)

(** A character that a JSON string holds as it is. *)
Definition plain_char (c : ascii) : bool :=
  negb (Ascii.eqb c dquote) && negb (Ascii.eqb c "\"%char) && negb (N_of_ascii c <? 32)%N.

Fixpoint plain (s : string) : bool :=
  match s with
  | EmptyString => true
  | String c r => plain_char c && plain r
  end.

Lemma quote_char_plain c : plain_char c = true -> quote_char c = String c "".
Proof.
  unfold plain_char, quote_char. intros H.
  apply andb_true_iff in H as [H H3]. apply andb_true_iff in H as [H1 H2].
  apply negb_true_iff in H1, H2, H3. rewrite H1, H2.
  apply N.ltb_ge in H3.
  repeat match goal with
         | |- context [(?a =? ?b)%N] =>
             destruct (N.eqb_spec a b) as [E|_]; [rewrite E in H3; vm_compute in H3; congruence|]
         end.
  destruct (N.ltb_spec (N_of_ascii c) 32); [lia | reflexivity].
Qed.

Lemma quote_chars_plain s : plain s = true -> quote_chars s = s.
Proof.
  induction s as [|c r IH]; [reflexivity|]. cbn [plain quote_chars]. intros H.
  apply andb_true_iff in H as [Hc Hr]. now rewrite quote_char_plain, IH.
Qed.

Lemma lex_string_plain s rest :
  plain s = true -> lex_string (s +:+ String dquote rest) = Some (s, rest).
Proof.
  induction s as [|c r IH]; [reflexivity|]. cbn [plain String.append lex_string]. intros H.
  apply andb_true_iff in H as [Hc Hr]. rewrite (IH Hr).
  unfold plain_char in Hc.
  apply andb_true_iff in Hc as [Hc H3]. apply andb_true_iff in Hc as [H1 H2].
  apply negb_true_iff in H1, H2, H3. now rewrite H1, H2, H3.
Qed.

(** ** Printed tokens are read back *)

Definition token_text (t : token) : string :=
  match t with
  | TLBrace => "{" | TRBrace => "}" | TLBracket => "[" | TRBracket => "]"
  | TColon => ":" | TComma => ","
  | TTrue => "true" | TFalse => "false" | TNull => "null"
  | TNum x => Number_toString x
  | TStr s => quote s
  end.

Fixpoint tokens_text (ts : list token) : string :=
  match ts with
  | [] => ""
  | t :: r => token_text t +:+ tokens_text r
  end.

Definition closes (ts : list token) : bool :=
  match ts with
  | [] | TComma :: _ | TRBrace :: _ | TRBracket :: _ => true
  | _ => false
  end.

(** Tokens as [JSON.stringify] prints them: strings without escapes, safe
    integers, and after a number a comma, a closing bracket or the end. *)
Fixpoint printable (ts : list token) : Prop :=
  match ts with
  | [] => True
  | TNum x :: r =>
      (exists n, Z.abs n < 2 ^ 53 /\ x = num_of_Z n) /\ closes r = true /\ printable r
  | TStr s :: r => plain s = true /\ printable r
  | _ :: r => printable r
  end.

Lemma closes_number_end ts : closes ts = true -> number_end (tokens_text ts) = true.
Proof. destruct ts as [|[] r]; try discriminate; reflexivity. Qed.

Lemma lex_tokens_text ts :
  printable ts -> forall f, lex (length ts + S f) (tokens_text ts) = Some ts.
Proof.
  induction ts as [|t r IH]; intros H f; [reflexivity|].
  cbn [length Nat.add tokens_text].
  destruct t; cbn [printable token_text] in *;
    try (cbn [String.append];
         match goal with
         | |- lex _ _ = Some (?t :: _) =>
             transitivity (cons_token t (lex (length r + S f) (tokens_text r)));
             [reflexivity | now rewrite IH]
         end).
  - destruct H as ((n & Hn & ->) & Hc & Hr).
    rewrite Number_toString_of_Z by assumption.
    rewrite lex_printed_number by now apply closes_number_end.
    now rewrite IH.
  - destruct H as (Hs & Hr). unfold quote. rewrite (quote_chars_plain s Hs).
    cbn [String.append]. rewrite append_assoc. cbn [String.append].
    transitivity (match lex_string (s +:+ String dquote (tokens_text r)) with
                  | Some (t, r') => cons_token (TStr t) (lex (length r + S f) r')
                  | None => None
                  end); [reflexivity|].
    rewrite (lex_string_plain s _ Hs). now rewrite IH.
Qed.

Lemma length_append a b :
  String.length (a +:+ b) = (String.length a + String.length b)%nat.
Proof. induction a as [|c a IH]; cbn [String.append String.length Nat.add]; congruence. Qed.

Lemma Z_to_string_nonempty n : Z_to_string n <> "".
Proof. destruct (printed_head n) as (c & r & -> & _). discriminate. Qed.

(** A printed text has at least one character for each token. *)
Lemma tokens_text_length ts :
  printable ts -> (length ts <= String.length (tokens_text ts))%nat.
Proof.
  induction ts as [|t r IH]; intros H; [cbn; lia|].
  cbn [length tokens_text]. rewrite length_append.
  assert (Hr : printable r) by (destruct t; cbn [printable] in H; tauto).
  assert (Ht : (1 <= String.length (token_text t))%nat).
  { destruct t; cbn [token_text]; try (cbn; lia).
    destruct H as ((n & Hn & ->) & _). rewrite Number_toString_of_Z by assumption.
    destruct (printed_head n) as (c & s & -> & _). cbn; lia. }
  specialize (IH Hr). lia.
Qed.

(** The tokens of a printed text, with the fuel [JSON.parse] gives. *)
Lemma lex_printed ts :
  printable ts -> lex (S (String.length (tokens_text ts))) (tokens_text ts) = Some ts.
Proof.
  intros H. apply (lex_mono (length ts + 1)); [now apply lex_tokens_text|].
  pose proof (tokens_text_length ts H). lia.
Qed.

(* ================================================================== *)
(** * Preferences as JSON *)
(* ================================================================== *)

Import Host.

(** The Preferences object of the data model. *)
Record Preferences : Type := {
  pref_autoRefresh : bool;
  pref_refreshInterval : Z;
  pref_showBattery : bool;
  pref_showNetwork : bool;
  pref_showUptime : bool
}.

Definition preferences_value (p : Preferences) : value :=
  VObj [ ("autoRefresh", VBool (pref_autoRefresh p));
         ("refreshInterval", VNum (num_of_Z (pref_refreshInterval p)));
         ("showBattery", VBool (pref_showBattery p));
         ("showNetwork", VBool (pref_showNetwork p));
         ("showUptime", VBool (pref_showUptime p)) ].

Definition bool_token (b : bool) : token := if b then TTrue else TFalse.

Definition preferences_tokens (p : Preferences) : list token :=
  [ TLBrace; TStr "autoRefresh"; TColon; bool_token (pref_autoRefresh p); TComma;
    TStr "refreshInterval"; TColon; TNum (num_of_Z (pref_refreshInterval p)); TComma;
    TStr "showBattery"; TColon; bool_token (pref_showBattery p); TComma;
    TStr "showNetwork"; TColon; bool_token (pref_showNetwork p); TComma;
    TStr "showUptime"; TColon; bool_token (pref_showUptime p); TRBrace ].

Lemma num_finite_of_Z n : Z.abs n < 2 ^ 53 -> num_finite (num_of_Z n) = true.
Proof.
  intros Hn. destruct n as [|q|q].
  - reflexivity.
  - now rewrite num_of_Z_pos by lia.
  - now rewrite num_of_Z_neg by lia.
Qed.

Lemma preferences_text p :
  Z.abs (pref_refreshInterval p) < 2 ^ 53 ->
  serialize (preferences_value p) = Some (tokens_text (preferences_tokens p)).
Proof.
  intros Hn. destruct p as [b1 n b2 b3 b4]. cbn [pref_refreshInterval] in *.
  unfold preferences_value, preferences_tokens.
  cbn [serialize pref_autoRefresh pref_refreshInterval pref_showBattery pref_showNetwork
       pref_showUptime tokens_text token_text join_commas].
  rewrite num_finite_of_Z by assumption.
  f_equal. rewrite !append_assoc.
  generalize (Number_toString (num_of_Z n)). intros z.
  destruct b1, b2, b3, b4; vm_compute; reflexivity.
Qed.

Lemma preferences_printable p :
  Z.abs (pref_refreshInterval p) < 2 ^ 53 -> printable (preferences_tokens p).
Proof.
  intros Hn. destruct p as [[] n [] [] []]; cbn; repeat split; eauto.
Qed.

Lemma preferences_parse p :
  parse_value (2 * length (preferences_tokens p) + 2) (preferences_tokens p)
  = Some (preferences_value p, []).
Proof. destruct p as [[] n [] [] []]; reflexivity. Qed.

(** [JSON.parse(JSON.stringify(p))] is [p], for a Preferences object [p]
    whose interval is a safe integer. *)
Lemma JSON_roundtrip_preferences p :
  Z.abs (pref_refreshInterval p) < 2 ^ 53 ->
  exists text,
    JSON_stringify (preferences_value p) = VStr text /\
    text <> "" /\
    JSON_parse text = Normal (preferences_value p).
Proof.
  intros Hn. unfold JSON_stringify. rewrite (preferences_text p Hn).
  eexists; split; [reflexivity|]. split.
  - destruct p as [b1 n b2 b3 b4]; discriminate.
  - unfold JSON_parse.
    rewrite (lex_printed _ (preferences_printable p Hn)).
    now rewrite preferences_parse.
Qed.

(* ================================================================== *)
(** * InfoProvider queries *)
(* ================================================================== *)

(** The device capability cannot answer: there is no bridge, or no Device
    plugin, or one of its two calls throws. *)
Definition device_unavailable (w : World) : Prop :=
  match capacitor w with
  | None => True
  | Some p =>
      match Device p with
      | None => True
      | Some device =>
          (exists e, getInfo device = Throw e) \/ (exists e, getBatteryInfo device = Throw e)
      end
  end.

Definition network_unavailable (w : World) : Prop :=
  match capacitor w with
  | None => True
  | Some p =>
      match Network p with
      | None => True
      | Some net => exists e, getStatus net = Throw e
      end
  end.

Lemma getDeviceInfo_returns w : exists d, DeviceInfo.getDeviceInfo w = (Normal d, w).
Proof.
  unfold DeviceInfo.getDeviceInfo, DeviceInfo.getPlugins, bind, try_catch, await, ret.
  destruct (capacitor w) as [p|]; [|eauto].
  destruct (Device p) as [device|]; [|eauto].
  destruct (getInfo device); [|eauto].
  destruct (getBatteryInfo device); eauto.
Qed.

Lemma getNetworkStatus_returns w : exists n, DeviceInfo.getNetworkStatus w = (Normal n, w).
Proof.
  unfold DeviceInfo.getNetworkStatus, DeviceInfo.getPlugins, bind, try_catch, await, ret.
  destruct (capacitor w) as [p|]; [|eauto].
  destruct (Network p) as [net|]; [|eauto].
  destruct (getStatus net); eauto.
Qed.

Lemma getDeviceInfo_fallback w :
  device_unavailable w ->
  DeviceInfo.getDeviceInfo w = (Normal DeviceInfo.getFallbackDeviceInfo, w).
Proof.
  unfold device_unavailable, DeviceInfo.getDeviceInfo, DeviceInfo.getPlugins,
    bind, try_catch, await, ret.
  destruct (capacitor w) as [p|]; [|reflexivity].
  destruct (Device p) as [device|]; [|reflexivity].
  intros [[e He]|[e He]]; rewrite He; [reflexivity|].
  now destruct (getInfo device).
Qed.

Lemma getNetworkStatus_fallback w :
  network_unavailable w ->
  DeviceInfo.getNetworkStatus w = (Normal DeviceInfo.getFallbackNetworkStatus, w).
Proof.
  unfold network_unavailable, DeviceInfo.getNetworkStatus, DeviceInfo.getPlugins,
    bind, try_catch, await, ret.
  destruct (capacitor w) as [p|]; [|reflexivity].
  destruct (Network p) as [net|]; [|reflexivity].
  intros [e He]. now rewrite He.
Qed.


(** [getAllInfo] never throws either; without a bridge it combines the two
    fallback records with the version and the uptime. *)
Lemma getAllInfo_returns w : exists s w', DeviceInfo.getAllInfo w = (Normal s, w').
Proof.
  unfold DeviceInfo.getAllInfo, try_catch.
  match goal with |- context [match ?m w with _ => _ end] => destruct (m w) as [[s|e] w'] end;
    unfold ret; eauto.
Qed.

(* ================================================================== *)
(** * Uptime *)
(* ================================================================== *)






(* ================================================================== *)
(** * Battery format *)
(* ================================================================== *)

(** The number a decimal literal of the source denotes. *)
Definition literal (s : string) : number :=
  match lex_number s with
  | Some (x, _) => x
  | None => S754_nan
  end.

Definition battery_level (info : Snapshot) : option number :=
  match battery info with
  | Some b => level b
  | None => None
  end.

Lemma levelClass_by_comparison info :
  let b := DeviceInfo.formatBatteryInfo info in
  DeviceInfo.bf_levelClass b
  = if num_gt (DeviceInfo.bf_level b) (num_of_Z 50) then "high"
    else if num_gt (DeviceInfo.bf_level b) (num_of_Z 20) then "medium" else "low".
Proof. reflexivity. Qed.

Lemma formatBatteryInfo_level info x :
  battery_level info = Some x ->
  DeviceInfo.bf_level (DeviceInfo.formatBatteryInfo info)
  = Math_round (num_mul (number_or (Some x) (num_of_Z 1)) (num_of_Z 100)).
Proof.
  unfold battery_level, DeviceInfo.formatBatteryInfo. cbn [DeviceInfo.bf_level].
  destruct (battery info) as [b|]; [|discriminate]. now intros ->.
Qed.

(** C3, as the code has it. [formatBatteryInfo] derives [levelClass] from
    the rounded percentage [level] by strict comparisons: "high" above 50,
    "medium" above 20 and not above 50, "low" otherwise. Levels 0.55, 0.35
    and 0.10 give "high", "medium" and "low"; the boundary 0.50 gives
    "medium" and the boundary 0.20 gives "low". *)
Theorem formatBatteryInfo_thresholds (info : Snapshot) :
  let b := DeviceInfo.formatBatteryInfo info in
  (DeviceInfo.bf_levelClass b
   = if num_gt (DeviceInfo.bf_level b) (num_of_Z 50) then "high"
     else if num_gt (DeviceInfo.bf_level b) (num_of_Z 20) then "medium" else "low") /\
  (forall n : Z,
     Z.abs n < 2 ^ 53 -> DeviceInfo.bf_level b = num_of_Z n ->
     (DeviceInfo.bf_levelClass b = "high" <-> 50 < n) /\
     (DeviceInfo.bf_levelClass b = "medium" <-> 20 < n <= 50) /\
     (DeviceInfo.bf_levelClass b = "low" <-> n <= 20)) /\
  (battery_level info = Some (literal "0.55") ->
   DeviceInfo.bf_level b = num_of_Z 55 /\ DeviceInfo.bf_levelClass b = "high") /\
  (battery_level info = Some (literal "0.35") ->
   DeviceInfo.bf_level b = num_of_Z 35 /\ DeviceInfo.bf_levelClass b = "medium") /\
  (battery_level info = Some (literal "0.10") ->
   DeviceInfo.bf_level b = num_of_Z 10 /\ DeviceInfo.bf_levelClass b = "low") /\
  (battery_level info = Some (literal "0.50") ->
   DeviceInfo.bf_level b = num_of_Z 50 /\ DeviceInfo.bf_levelClass b = "medium") /\
  (battery_level info = Some (literal "0.20") ->
   DeviceInfo.bf_level b = num_of_Z 20 /\ DeviceInfo.bf_levelClass b = "low").
Proof.
  intros b. split; [reflexivity|]. split.
  - intros n Hn Hl. subst b. rewrite levelClass_by_comparison. cbv zeta. rewrite Hl.
    rewrite !num_gt_of_Z by lia.
    destruct (Z.ltb_spec 50 n), (Z.ltb_spec 20 n);
      repeat split; intros; try discriminate; try lia; reflexivity.
  - subst b. rewrite levelClass_by_comparison. cbv zeta.
    repeat match goal with |- _ /\ _ => split end;
      intros H; rewrite (formatBatteryInfo_level _ _ H); split; vm_compute; reflexivity.
Qed.

(** A snapshot with the given battery level. *)
Definition snapshot_with_level (x : number) : Snapshot :=
  DeviceInfo.with_extras
    {| d_model := "iPhone"; d_platform := "ios"; d_operatingSystem := "ios";
       d_osVersion := "17.0"; d_manufacturer := "Apple"; d_isVirtual := false;
       d_battery := Some {| level := Some x; charging := Some false |} |}
    None "1.0.0" "0秒".

(** C3 fails as stated at the boundary 0.20: the percentage is 20, which is
    not above 20, so the class is "low" and not "medium". *)
Lemma level_020_is_low :
  let b := DeviceInfo.formatBatteryInfo (snapshot_with_level (literal "0.20")) in
  DeviceInfo.bf_level b = num_of_Z 20 /\
  DeviceInfo.bf_levelClass b = "low" /\
  DeviceInfo.bf_levelClass b <> "medium".
Proof. vm_compute. repeat split. discriminate. Qed.

(** C9. A battery level of exactly 0 (either zero), a missing level and a
    missing battery field are all replaced by the full battery:
    [formatBatteryInfo] reports level 100 and class "high", and
    [getDeviceInfo] stores level 1 for a reported [batteryLevel] of 0. *)
Theorem zero_level_reads_full (info : Snapshot) (w : World) :
  ((battery info = None \/ battery_level info = None \/
    exists s, battery_level info = Some (S754_zero s)) ->
   DeviceInfo.bf_level (DeviceInfo.formatBatteryInfo info) = num_of_Z 100 /\
   DeviceInfo.bf_levelClass (DeviceInfo.formatBatteryInfo info) = "high") /\
  (forall p device answer reported s,
     capacitor w = Some p -> Device p = Some device ->
     getInfo device = Normal answer -> getBatteryInfo device = Normal reported ->
     r_batteryLevel reported = Some (S754_zero s) ->
     exists d,
       DeviceInfo.getDeviceInfo w = (Normal d, w) /\
       d_battery d = Some {| level := Some (num_of_Z 1);
                             charging := Some (bool_or (r_isCharging reported) false) |}).
Proof.
  split.
  - intros H.
    assert (E : number_or (battery_level info) (num_of_Z 1) = num_of_Z 1).
    { destruct H as [H|[H|[s H]]].
      - unfold battery_level. now rewrite H.
      - now rewrite H.
      - now rewrite H. }
    unfold DeviceInfo.formatBatteryInfo. cbn [DeviceInfo.bf_level DeviceInfo.bf_levelClass].
    change (match battery info with Some b => level b | None => None end)
      with (battery_level info).
    rewrite E. split; vm_compute; reflexivity.
  - intros p device answer reported s Hc Hd Hi Hb Hl.
    unfold DeviceInfo.getDeviceInfo, DeviceInfo.getPlugins, bind, try_catch, await, ret.
    rewrite Hc, Hd, Hi, Hb, Hl. eexists. split; reflexivity.
Qed.

(* ================================================================== *)
(** * Preferences *)
(* ================================================================== *)

(** The Preferences object of the data model as a value. *)
Definition default_preferences : Preferences :=
  {| pref_autoRefresh := false; pref_refreshInterval := 30000;
     pref_showBattery := true; pref_showNetwork := true; pref_showUptime := true |}.

(** What [loadPreferences] installs, from the stored item. *)
Definition loaded_preferences (stored : option string) : value :=
  match stored with
  | None => App.getDefaultPreferences
  | Some text =>
      match JSON_parse text with
      | Normal parsed => parsed
      | Throw _ => App.getDefaultPreferences
      end
  end.

Lemma loadPreferences_spec w :
  App.loadPreferences w
  = (Normal tt, with_preferences (loaded_preferences (localStorage w !! "appPreferences")) w).
Proof.
  unfold App.loadPreferences, bind, getItem, try_catch, await, modify, loaded_preferences.
  destruct (localStorage w !! "appPreferences") as [text|]; [|reflexivity].
  unfold item_truthy. destruct (String.eqb_spec text "") as [->|_]; [reflexivity|].
  cbn [negb]. now destruct (JSON_parse text).
Qed.

(** C6. When the stored preferences are absent or do not parse as JSON,
    [loadPreferences] returns normally and installs the default
    Preferences object: autoRefresh false, interval 30000, showBattery,
    showNetwork and showUptime true. *)
Theorem loadPreferences_defaults (w : World) :
  (localStorage w !! "appPreferences" = None \/
   exists text e, localStorage w !! "appPreferences" = Some text /\ JSON_parse text = Throw e) ->
  App.loadPreferences w = (Normal tt, with_preferences App.getDefaultPreferences w) /\
  App.getDefaultPreferences = preferences_value default_preferences.
Proof.
  intros H. split; [|reflexivity].
  rewrite loadPreferences_spec. do 2 f_equal. unfold loaded_preferences.
  destruct H as [-> | (text & e & -> & ->)]; reflexivity.
Qed.

(** C10. [loadPreferences] falls back to the defaults only for an absent
    item and for a text that does not parse; a text that parses is
    installed as it is, be it [null] or an object without
    [refreshInterval]: nothing is validated, no default is merged in. *)
Theorem loadPreferences_verbatim (w : World) :
  App.loadPreferences w
  = (Normal tt, with_preferences (loaded_preferences (localStorage w !! "appPreferences")) w) /\
  (forall text parsed,
     localStorage w !! "appPreferences" = Some text -> JSON_parse text = Normal parsed ->
     App.loadPreferences w = (Normal tt, with_preferences parsed w)) /\
  loaded_preferences (Some "null") = VNull /\
  loaded_preferences (Some (json_text "{'autoRefresh':true}"))
    = VObj [("autoRefresh", VBool true)] /\
  get_prop (VObj [("autoRefresh", VBool true)]) "refreshInterval" = Normal VUndefined.
Proof.
  split; [apply loadPreferences_spec|]. split.
  - intros text parsed Hs Hp. rewrite loadPreferences_spec, Hs.
    unfold loaded_preferences. now rewrite Hp.
  - repeat split.
Qed.

Lemma savePreferences_spec w :
  App.savePreferences w
  = (Normal tt,
     with_localStorage
       (fun m => <["appPreferences" := ToString_stringified (JSON_stringify (preferences w))]> m)
       w).
Proof. reflexivity. Qed.

(** C8. Saving a Preferences object and loading it in a fresh session, one
    that starts from the local storage the save left, installs the same
    Preferences object. *)
Theorem preferences_roundtrip (p : Preferences) (w fresh : World) :
  Z.abs (pref_refreshInterval p) < 2 ^ 53 ->
  preferences w = preferences_value p ->
  localStorage fresh = localStorage (snd (App.savePreferences w)) ->
  App.loadPreferences fresh = (Normal tt, with_preferences (preferences_value p) fresh) /\
  preferences (snd (App.loadPreferences fresh)) = preferences w.
Proof.
  intros Hn Hp Hs.
  assert (E : App.loadPreferences fresh
              = (Normal tt, with_preferences (preferences_value p) fresh)).
  { rewrite loadPreferences_spec, Hs, savePreferences_spec. cbn [snd with_localStorage localStorage].
    rewrite lookup_insert_eq, Hp.
    destruct (JSON_roundtrip_preferences p Hn) as (text & -> & _ & Ht).
    unfold loaded_preferences. cbn [ToString_stringified]. now rewrite Ht. }
  split; [exact E|]. now rewrite E, Hp.
Qed.

(* ================================================================== *)
(** * The refresh timer *)
(* ================================================================== *)

#[local] Instance task_eq_dec : EqDecision task.
Proof. solve_decision. Defined.

Definition refresh_timer (d : value) : timer :=
  {| repeats := true; what := RefreshTick; delay := d |}.

(** The active timers that run the refresh. *)
Definition refresh_timers (w : World) : gmap nat timer :=
  filter (fun kv => what kv.2 = RefreshTick) (timers w).

(** Handles are positive and below the next handle of the host. *)
Definition timers_wf (w : World) : Prop :=
  (0 < next_timer w)%nat /\
  forall id t, timers w !! id = Some t -> (0 < id < next_timer w)%nat.

(** Every active refresh timer is the one [App.state] holds. *)
Definition refresh_timer_held (w : World) : Prop :=
  forall id t, timers w !! id = Some t -> what t = RefreshTick -> refreshInterval w = Some id.

(** The timers after the [clearInterval] of [startAutoRefresh]. *)
Definition cleared (w : World) : gmap nat timer :=
  match refreshInterval w with
  | Some id => if handle_truthy (Some id) then delete id (timers w) else timers w
  | None => timers w
  end.

Lemma startAutoRefresh_spec w d :
  get_prop (preferences w) "refreshInterval" = Normal d ->
  App.startAutoRefresh w
  = (Normal tt,
     with_refreshInterval (Some (next_timer w))
       (with_timers (fun _ => <[next_timer w := refresh_timer d]> (cleared w))
          (S (next_timer w)) w)).
Proof.
  intros Hd. unfold App.startAutoRefresh, bind, get, await, set_timer, modify, cleared.
  destruct (refreshInterval w) as [[|id]|]; cbn; rewrite Hd; reflexivity.
Qed.

Lemma stopAutoRefresh_spec w :
  App.stopAutoRefresh w
  = (Normal tt,
     if handle_truthy (refreshInterval w)
     then with_refreshInterval None (with_timers (fun _ => cleared w) (next_timer w) w)
     else w).
Proof.
  unfold App.stopAutoRefresh, bind, get, modify, clearInterval, cleared.
  destruct (refreshInterval w) as [[|id]|]; reflexivity.
Qed.

Lemma cleared_lookup w id t :
  timers_wf w -> refresh_timer_held w ->
  cleared w !! id = Some t -> what t <> RefreshTick /\ timers w !! id = Some t.
Proof.
  intros [_ Hwf] Hheld. unfold cleared.
  destruct (refreshInterval w) as [held|] eqn:E.
  - destruct held as [|k]; cbn [handle_truthy].
    + intros H. split; [|exact H]. intros Hr.
      pose proof (Hheld _ _ H Hr) as Hid. rewrite E in Hid. injection Hid as <-.
      apply Hwf in H. lia.
    + intros H. apply lookup_delete_Some in H as [Hne H]. split; [|exact H].
      intros Hr. pose proof (Hheld _ _ H Hr) as Hid. congruence.
  - intros H. split; [|exact H]. intros Hr. pose proof (Hheld _ _ H Hr). congruence.
Qed.

(** The two invariants hold at the start and are kept by starting and by
    stopping. *)
Lemma startAutoRefresh_invariant w d :
  get_prop (preferences w) "refreshInterval" = Normal d ->
  timers_wf w -> refresh_timer_held w ->
  timers_wf (snd (App.startAutoRefresh w)) /\ refresh_timer_held (snd (App.startAutoRefresh w)).
Proof.
  intros Hd Hwf Hheld. rewrite (startAutoRefresh_spec w d Hd). cbn [snd].
  split.
  - split; cbn; [lia|]. intros id t H.
    destruct (decide (id = next_timer w)) as [->|Hne]; [destruct Hwf; lia|].
    rewrite lookup_insert_ne in H by congruence.
    apply (cleared_lookup w id t Hwf Hheld) in H as [_ H]. apply Hwf in H. lia.
  - intros id t H Hr. cbn in *.
    destruct (decide (id = next_timer w)) as [->|Hne]; [reflexivity|].
    rewrite lookup_insert_ne in H by congruence.
    now apply (cleared_lookup w id t Hwf Hheld) in H as [Hn _].
Qed.

Lemma stopAutoRefresh_invariant w :
  timers_wf w -> refresh_timer_held w ->
  timers_wf (snd (App.stopAutoRefresh w)) /\ refresh_timer_held (snd (App.stopAutoRefresh w)) /\
  refresh_timers (snd (App.stopAutoRefresh w)) = ∅.
Proof.
  intros Hwf Hheld. rewrite stopAutoRefresh_spec. cbn [snd].
  assert (Hnone : forall id t, cleared w !! id = Some t -> what t <> RefreshTick)
    by (intros id t H; now apply (cleared_lookup w id t Hwf Hheld) in H).
  assert (Hsub : forall id t, cleared w !! id = Some t -> timers w !! id = Some t)
    by (intros id t H; now apply (cleared_lookup w id t Hwf Hheld) in H).
  destruct (handle_truthy (refreshInterval w)) eqn:Ht.
  - split; [|split].
    + destruct Hwf as [H0 H1]. split; cbn; [exact H0|]. intros id t H. eauto.
    + intros id t H Hr. cbn in H. now apply Hnone in H.
    + apply map_empty. intros id. apply map_lookup_filter_None. right.
      intros t H. cbn in H. now apply Hnone in H.
  - split; [exact Hwf|]. split; [exact Hheld|].
    apply map_empty. intros id. apply map_lookup_filter_None. right.
    intros t H Hr. cbn [snd] in Hr.
    pose proof (Hheld _ _ H Hr) as Hid. rewrite Hid in Ht. cbn in Ht.
    destruct id; [|discriminate]. destruct Hwf as [_ Hwf]. apply Hwf in H. lia.
Qed.

(** C7. Two calls of [startAutoRefresh] in succession leave exactly one
    active refresh timer: the second call cancels the timer the first one
    created, then creates its own, and [App.state] holds that one. *)
Theorem startAutoRefresh_twice (w : World) (d : value) :
  get_prop (preferences w) "refreshInterval" = Normal d ->
  timers_wf w -> refresh_timer_held w ->
  let first := next_timer w in
  let w1 := snd (App.startAutoRefresh w) in
  let w2 := snd (App.startAutoRefresh w1) in
  fst (App.startAutoRefresh w) = Normal tt /\
  fst (App.startAutoRefresh w1) = Normal tt /\
  timers w1 !! first = Some (refresh_timer d) /\
  refreshInterval w1 = Some first /\
  timers w2 !! first = None /\
  refreshInterval w2 = Some (S first) /\
  refresh_timers w2 = {[ S first := refresh_timer d ]} /\
  size (refresh_timers w2) = 1%nat.
Proof.
  intros Hd Hwf Hheld first w1 w2.
  pose proof (startAutoRefresh_spec w d Hd) as E1.
  assert (Hd1 : get_prop (preferences w1) "refreshInterval" = Normal d)
    by (subst w1; rewrite E1; exact Hd).
  pose proof (startAutoRefresh_spec w1 d Hd1) as E2.
  assert (Ht1 : timers w1 = <[first := refresh_timer d]> (cleared w))
    by (subst w1; rewrite E1; reflexivity).
  assert (Hr1 : refreshInterval w1 = Some first) by (subst w1; rewrite E1; reflexivity).
  assert (Hn1 : next_timer w1 = S first) by (subst w1; rewrite E1; reflexivity).
  assert (Hfirst : (0 < first)%nat) by (destruct Hwf; assumption).
  assert (Hc1 : cleared w1 = delete first (<[first := refresh_timer d]> (cleared w))).
  { unfold cleared. rewrite Hr1, Ht1. destruct first; [lia | reflexivity]. }
  assert (Ht2 : timers w2
               = <[S first := refresh_timer d]>
                   (delete first (<[first := refresh_timer d]> (cleared w))))
    by (subst w2; rewrite E2, Hn1, Hc1; reflexivity).
  assert (Hfilter : refresh_timers w2 = {[ S first := refresh_timer d ]}).
  { unfold refresh_timers. rewrite Ht2. apply map_eq. intros i.
    destruct (decide (i = S first)) as [->|Hne].
    - rewrite lookup_singleton_eq. apply map_lookup_filter_Some.
      split; [apply lookup_insert_eq | reflexivity].
    - rewrite lookup_singleton_ne by congruence. apply map_lookup_filter_None.
      right. intros t H. rewrite lookup_insert_ne in H by congruence.
      apply lookup_delete_Some in H as [Hne' H].
      rewrite lookup_insert_ne in H by congruence.
      now apply (cleared_lookup w i t Hwf Hheld) in H as [Hn _]. }
  repeat split.
  - now rewrite E1.
  - now rewrite E2.
  - rewrite Ht1. apply lookup_insert_eq.
  - exact Hr1.
  - rewrite Ht2. rewrite lookup_insert_ne by lia. apply lookup_delete_eq.
  - subst w2. rewrite E2, Hn1. reflexivity.
  - exact Hfilter.
  - rewrite Hfilter. apply map_size_singleton.
Qed.

(* ================================================================== *)
(** * The network subscription *)
(* ================================================================== *)

(** A page with its [#app] container, nothing stored, no timer and no
    subscription; the bridge is the parameter. *)
Definition app_container : element :=
  {| hidden := false; show := false; in_app := false; content := []; text := "" |}.

Definition fresh_page (bridge : option Plugins) : World :=
  {| localStorage := ∅; clock := 1700000000000;
     document := {[ "app" := app_container ]};
     timers := ∅; next_timer := 1;
     capacitor := bridge;
     listeners := ∅; next_listener := 1;
     cachedInfo := None; networkListener := None;
     deviceInfo := None; refreshInterval := None; preferences := VObj [] |}.

(** A bridge whose every call succeeds. *)
Definition working_bridge : Plugins :=
  {| Device :=
       Some {| getInfo :=
                 Normal {| r_model := Some "iPhone"; r_platform := Some "ios";
                           r_operatingSystem := Some "ios"; r_osVersion := Some "17.0";
                           r_manufacturer := Some "Apple"; r_isVirtual := Some false |};
               getBatteryInfo :=
                 Normal {| r_batteryLevel := Some (literal "0.55");
                           r_isCharging := Some true |} |};
     Network :=
       Some {| getStatus :=
                 Normal {| r_connected := Some true; r_connectionType := Some "wifi" |};
               addListener_fails := None; remove_fails := None |};
     Haptics := Some {| impact := Normal tt |};
     LocalNotifications := Some {| requestPermissions := Normal tt; schedule := Normal tt |};
     Clipboard := Some {| write := Normal tt |} |}.

(** A bridge whose every call throws. *)
Definition failing_bridge : Plugins :=
  let e := Rejected "plugin call failed" in
  {| Device := Some {| getInfo := Throw e; getBatteryInfo := Throw e |};
     Network := Some {| getStatus := Throw e; addListener_fails := Some e;
                        remove_fails := Some e |};
     Haptics := Some {| impact := Throw e |};
     LocalNotifications := Some {| requestPermissions := Throw e; schedule := Throw e |};
     Clipboard := Some {| write := Throw e |} |}.

(** Handles of subscriptions are below the next handle of the bridge. *)
Definition listeners_wf (w : World) : Prop :=
  forall h cb, listeners w !! h = Some cb -> (h < next_listener w)%nat.

Lemma addNetworkListener_spec w cb net :
  plugin Network w = Some net -> addListener_fails net = None ->
  DeviceInfo.addNetworkListener cb w
  = (Normal tt,
     with_networkListener (Some (next_listener w))
       (with_listeners (fun m => <[next_listener w := cb]> m) (S (next_listener w)) w)).
Proof.
  unfold plugin, DeviceInfo.addNetworkListener, DeviceInfo.getPlugins, bind, try_catch,
    addListener, modify.
  destruct (capacitor w) as [p|]; [|discriminate].
  intros -> ->. reflexivity.
Qed.

Lemma removeNetworkListener_spec w :
  match plugin Network w with Some net => remove_fails net = None | None => True end ->
  DeviceInfo.removeNetworkListener w
  = (Normal tt,
     match networkListener w with
     | Some h =>
         with_networkListener None
           (with_listeners (fun m => delete h m) (next_listener w) w)
     | None => w
     end).
Proof.
  unfold DeviceInfo.removeNetworkListener, bind, get, try_catch, remove_listener, modify.
  destruct (networkListener w) as [h|]; [|reflexivity].
  destruct (plugin Network w) as [[? ? [e|]]|]; cbn; intros H; try discriminate; reflexivity.
Qed.

(** C4, as the code has it. [addNetworkListener] removes nothing: it adds a
    subscription and keeps the handle of that one alone, so a subscription
    held before stays active and can no longer be removed;
    [removeNetworkListener] ends the subscription whose handle is held and
    no other. One subscription at most is active when [addNetworkListener]
    is called with none active, as [App.init] does once. *)
Theorem addNetworkListener_keeps_prior (w : World) (cb : callback) (net : NetworkPlugin) :
  plugin Network w = Some net ->
  addListener_fails net = None -> remove_fails net = None ->
  listeners_wf w ->
  let new := next_listener w in
  let w1 := snd (DeviceInfo.addNetworkListener cb w) in
  let w2 := snd (DeviceInfo.removeNetworkListener w1) in
  fst (DeviceInfo.addNetworkListener cb w) = Normal tt /\
  networkListener w1 = Some new /\
  listeners w1 = <[new := cb]> (listeners w) /\
  (forall h, h <> new -> listeners w1 !! h = listeners w !! h) /\
  size (listeners w1) = S (size (listeners w)) /\
  (listeners w = ∅ -> size (listeners w1) = 1%nat) /\
  listeners w2 = listeners w /\
  networkListener w2 = None.
Proof.
  intros Hp Ha Hr Hwf new w1 w2.
  pose proof (addNetworkListener_spec w cb net Hp Ha) as E1.
  assert (Hl1 : listeners w1 = <[new := cb]> (listeners w)) by (subst w1; now rewrite E1).
  assert (Hn1 : networkListener w1 = Some new) by (subst w1; now rewrite E1).
  assert (Hfresh : listeners w !! new = None).
  { destruct (listeners w !! new) as [c|] eqn:E; [|reflexivity].
    apply Hwf in E. subst new. lia. }
  assert (Hp1 : plugin Network w1 = Some net) by (subst w1; now rewrite E1).
  assert (E2 : DeviceInfo.removeNetworkListener w1
               = (Normal tt,
                  with_networkListener None
                    (with_listeners (fun m => delete new m) (next_listener w1) w1))).
  { rewrite removeNetworkListener_spec by now rewrite Hp1. now rewrite Hn1. }
  repeat split.
  - now rewrite E1.
  - exact Hn1.
  - exact Hl1.
  - intros h Hne. rewrite Hl1. now apply lookup_insert_ne.
  - rewrite Hl1. now apply map_size_insert_None.
  - intros He. rewrite Hl1, He, insert_empty. apply map_size_singleton.
  - subst w2. rewrite E2. cbn [snd listeners with_networkListener with_listeners].
    rewrite Hl1. now apply delete_insert_id.
  - subst w2. now rewrite E2.
Qed.

(** C4 fails as stated: after two calls of [addNetworkListener] two
    subscriptions are active, the first one among them. *)
Lemma addNetworkListener_twice_leaks :
  let w := fresh_page (Some working_bridge) in
  let w1 := snd (DeviceInfo.addNetworkListener OnNetworkChange w) in
  let w2 := snd (DeviceInfo.addNetworkListener OnNetworkChange w1) in
  networkListener w1 = Some 1%nat /\
  size (listeners w2) = 2%nat /\
  listeners w2 !! 1%nat = Some OnNetworkChange /\
  networkListener w2 = Some 2%nat /\
  ~ (size (listeners w2) <= 1)%nat.
Proof. vm_compute. repeat split; intros H; inversion H as [|? H']; inversion H'. Qed.

(* ================================================================== *)
(** * Initialisation *)
(* ================================================================== *)

Lemma bind_normal {A B} (m : JS A) (k : A -> JS B) w a w' :
  m w = (Normal a, w') -> bind m k w = k a w'.
Proof. unfold bind. now intros ->. Qed.

Lemma bind_throw {A B} (m : JS A) (k : A -> JS B) w e w' :
  m w = (Throw e, w') -> bind m k w = (Throw e, w').
Proof. unfold bind. now intros ->. Qed.

Definition set_document (d : gmap string element) (w : World) : World :=
  with_document (fun _ => d) w.

Lemma set_document_twice d d' w : set_document d' (set_document d w) = set_document d' w.
Proof. reflexivity. Qed.

Lemma DeviceInfo_init_spec w : DeviceInfo.init w = (Normal tt, w).
Proof.
  unfold DeviceInfo.init, try_catch, bind, DeviceInfo.getPlugins, await, ret.
  destruct (capacitor w) as [p|]; [|reflexivity].
  destruct (LocalNotifications p) as [ln|]; [|reflexivity].
  now destruct (requestPermissions ln) as [[]|].
Qed.

(** [getUptime] returns a text and leaves the state as it is. *)
Definition uptime_of (w : World) : string :=
  match fst (DeviceInfo.getUptime w) with
  | Normal up => up
  | Throw _ => ""
  end.

Lemma getUptime_spec w : DeviceInfo.getUptime w = (Normal (uptime_of w), w).
Proof.
  unfold uptime_of, DeviceInfo.getUptime, bind, getItem, Date_now, ret.
  destruct (localStorage w !! "appStartTime") as [s|]; [|reflexivity].
  destruct (item_truthy (Some s)); [|reflexivity].
  now destruct (DeviceInfo.timestamp_of_string s).
Qed.

(** The snapshot of the fallback records. *)
Definition fallback_snapshot (up : string) : Snapshot :=
  DeviceInfo.with_extras DeviceInfo.getFallbackDeviceInfo
    (Some DeviceInfo.getFallbackNetworkStatus) DeviceInfo.getAppVersion up.

Lemma getAllInfo_fallback w :
  device_unavailable w -> network_unavailable w ->
  DeviceInfo.getAllInfo w
  = (Normal (fallback_snapshot (uptime_of w)),
     with_cachedInfo (Some (fallback_snapshot (uptime_of w))) w).
Proof.
  intros Hd Hn. unfold DeviceInfo.getAllInfo, try_catch.
  rewrite (bind_normal _ _ _ _ _ (getDeviceInfo_fallback w Hd)).
  rewrite (bind_normal _ _ _ _ _ (getNetworkStatus_fallback w Hn)).
  rewrite (bind_normal _ _ _ _ _ (getUptime_spec w)).
  reflexivity.
Qed.

(** ** The document during [init] *)

(** What of the page [renderUI] keeps: the elements outside [#app]. *)
Definition outside_app (d : gmap string element) : gmap string element :=
  filter (fun kv => in_app kv.2 = false) d.

Definition toggle_label (autoRefresh : value) : string :=
  if truthy autoRefresh then "停止自动刷新" else "自动刷新".

Definition rendered_shell (app : element) (autoRefresh : value) : gmap string element :=
  <["app" := set_content [Heading "📱 iOS 设备信息面板"; Paragraph "查看您的设备详情"] app]>
    (App.shell (toggle_label autoRefresh)).

Lemma renderUI_spec w app a :
  document w !! "app" = Some app ->
  get_prop (preferences w) "autoRefresh" = Normal a ->
  App.renderUI w
  = (Normal tt, set_document (rendered_shell app a ∪ outside_app (document w)) w).
Proof.
  intros Ha Hp. unfold App.renderUI, bind, getElementById, get, await, modify.
  rewrite Ha, Hp. unfold set_document, with_document, rendered_shell.
  now rewrite insert_union_l.
Qed.

Lemma renderUI_throws w app e :
  document w !! "app" = Some app ->
  get_prop (preferences w) "autoRefresh" = Throw e ->
  App.renderUI w = (Throw e, w).
Proof.
  intros Ha Hp. unfold App.renderUI, bind, getElementById, get, await. now rewrite Ha, Hp.
Qed.

(** An update of an element of the part [A] of a document [A ∪ R]. *)
Lemma update_element_in A R id f w el :
  document w = A ∪ R -> A !! id = Some el ->
  update_element id f w = (Normal tt, set_document (<[id := f el]> A ∪ R) w).
Proof.
  intros Hd Hl. unfold update_element.
  rewrite Hd, (lookup_union_Some_l _ _ _ _ Hl).
  unfold set_document, with_document. now rewrite Hd, insert_union_l.
Qed.

Lemma renderAppInfo_in A R info w el :
  document w = A ∪ R -> A !! "appInfoList" = Some el ->
  App.renderAppInfo info w
  = (Normal tt,
     set_document
       (<["uptimeDisplay" :=
            {| hidden := false; show := false; in_app := in_app el; content := [];
               text := uptime info |}]>
          (<["appInfoList" :=
               set_content
                 [ Item "📦" "应用版本" "info-value" ("v" +:+ appVersion info);
                   ItemOf "⏱️" "运行时间" "info-value uptime" "uptimeDisplay" ] el]> A) ∪ R) w).
Proof.
  intros Hd Hl. unfold App.renderAppInfo.
  assert (Hg : getElementById "appInfoList" w = (Normal (Some el), w)).
  { unfold getElementById. now rewrite Hd, (lookup_union_Some_l _ _ _ _ Hl). }
  rewrite (bind_normal _ _ _ _ _ Hg).
  rewrite (bind_normal _ _ _ _ _ (update_element_in A R _ _ w el Hd Hl)).
  unfold modify, set_document, with_document. cbn [document].
  now rewrite insert_union_l.
Qed.

Lemma bind_assoc {A B C} (m : JS A) (k1 : A -> JS B) (k2 : B -> JS C) w :
  bind (bind m k1) k2 w = bind m (fun x => bind (k1 x) k2) w.
Proof. unfold bind. now destruct (m w) as [[a|e] w']. Qed.

Lemma bind_ret {A B} (a : A) (k : A -> JS B) w : bind (ret a) k w = k a w.
Proof. reflexivity. Qed.

Ltac update_step Hdoc :=
  match goal with
  | |- context [bind (update_element ?id ?f) ?k ?w] =>
      erewrite (bind_normal (update_element id f) k w);
      [| eapply update_element_in; [first [exact Hdoc | reflexivity] | reflexivity]];
      cbv beta; rewrite ?set_document_twice
  end.

Ltac render_app_step :=
  match goal with
  | |- context [bind (App.renderAppInfo ?info) ?k ?w] =>
      erewrite (bind_normal (App.renderAppInfo info) k w);
      [| eapply renderAppInfo_in; reflexivity];
      cbv beta; rewrite ?set_document_twice
  end;
  match goal with
  | |- context [update_element ?id ?f ?w] =>
      erewrite (update_element_in _ _ id f w); [| reflexivity | reflexivity];
      rewrite ?set_document_twice
  end;
  eexists; split; [reflexivity|]; split; reflexivity.

Definition loading_spinner : element :=
  App.shell_element false [Spinner; Paragraph "正在获取设备信息..."].

(** [updateUI] on the freshly rendered shell: the spinner is hidden and the
    device card shown. *)
Lemma updateUI_on_shell w app a R info sb sn :
  document w = rendered_shell app a ∪ R ->
  deviceInfo w = Some info ->
  get_prop (preferences w) "showBattery" = Normal sb ->
  get_prop (preferences w) "showNetwork" = Normal sn ->
  exists A,
    App.updateUI w = (Normal tt, set_document (A ∪ R) w) /\
    A !! "loading" = Some (set_hidden true loading_spinner) /\
    A !! "deviceCard" = Some (App.shell_element false [Heading "设备信息"]).
Proof.
  intros Hdoc Hinfo Hsb Hsn.
  unfold App.updateUI. rewrite (bind_normal get _ w w w eq_refl). rewrite Hinfo.
  update_step Hdoc. update_step Hdoc. update_step Hdoc.
  unfold App.renderDeviceInfo. update_step Hdoc.
  rewrite (bind_normal (await (get_prop (preferences w) "showBattery")) _ _ sb _)
    by (unfold await; now rewrite Hsb).
  destruct (truthy sb).
  - unfold App.renderBatteryInfo. rewrite bind_assoc. update_step Hdoc. update_step Hdoc.
    rewrite (bind_normal (await (get_prop (preferences w) "showNetwork")) _ _ sn _)
      by (unfold await; now rewrite Hsn).
    destruct (truthy sn).
    + unfold App.renderNetworkInfo. rewrite bind_assoc. update_step Hdoc. update_step Hdoc.
      render_app_step.
    + rewrite bind_ret. render_app_step.
  - rewrite bind_ret.
    rewrite (bind_normal (await (get_prop (preferences w) "showNetwork")) _ _ sn _)
      by (unfold await; now rewrite Hsn).
    destruct (truthy sn).
    + unfold App.renderNetworkInfo. rewrite bind_assoc. update_step Hdoc. update_step Hdoc.
      render_app_step.
    + rewrite bind_ret. render_app_step.
Qed.

(** A value with properties to read: neither [null] nor [undefined]. *)
Definition usable (v : value) : Prop := v <> VNull /\ v <> VUndefined.

Lemma get_prop_usable v k : usable v -> exists x, get_prop v k = Normal x.
Proof.
  intros [H1 H2]. destruct v; try congruence; cbn [get_prop]; eauto.
  destruct (array_index k); eauto.
Qed.

Lemma loadDeviceInfo_on_shell w app a R :
  document w = rendered_shell app a ∪ R ->
  device_unavailable w -> network_unavailable w ->
  usable (preferences w) ->
  exists A,
    App.loadDeviceInfo w
    = (Normal tt,
       set_document (A ∪ R)
         (with_deviceInfo (Some (fallback_snapshot (uptime_of w)))
            (with_cachedInfo (Some (fallback_snapshot (uptime_of w))) w))) /\
    A !! "loading" = Some (set_hidden true loading_spinner) /\
    A !! "deviceCard" = Some (App.shell_element false [Heading "设备信息"]).
Proof.
  intros Hdoc Hd Hn Hu.
  destruct (get_prop_usable _ "showBattery" Hu) as [sb Hsb].
  destruct (get_prop_usable _ "showNetwork" Hu) as [sn Hsn].
  set (snap := fallback_snapshot (uptime_of w)).
  set (w1 := with_deviceInfo (Some snap) (with_cachedInfo (Some snap) w)).
  destruct (updateUI_on_shell w1 app a R snap sb sn Hdoc eq_refl Hsb Hsn) as (A & E & H1 & H2).
  exists A. split; [|split; assumption].
  unfold App.loadDeviceInfo, try_catch.
  rewrite (bind_normal _ _ _ _ _ (getAllInfo_fallback w Hd Hn)).
  fold snap.
  rewrite (bind_normal (modify (with_deviceInfo (Some snap))) _ _ tt _ eq_refl).
  fold w1. now rewrite E.
Qed.

(** What a subscription changes: the subscription state alone. *)
Lemma addNetworkListener_frame cb w :
  exists w',
    DeviceInfo.addNetworkListener cb w = (Normal tt, w') /\
    document w' = document w /\ preferences w' = preferences w /\
    deviceInfo w' = deviceInfo w /\ timers w' = timers w /\
    next_timer w' = next_timer w /\ refreshInterval w' = refreshInterval w /\
    localStorage w' = localStorage w.
Proof.
  unfold DeviceInfo.addNetworkListener, DeviceInfo.getPlugins, bind, try_catch, addListener,
    modify, ret.
  destruct (capacitor w) as [p|]; [|eexists; repeat split].
  destruct (Network p) as [net|]; [|eexists; repeat split].
  destruct (addListener_fails net); eexists; repeat split.
Qed.

Lemma showError_spec m w el :
  document w !! "loading" = Some el ->
  App.showError m w
  = (Normal tt,
     with_document (fun d => <["loading" := set_content (App.error_view m) el]> d) w).
Proof.
  intros H. unfold App.showError, bind, getElementById, update_element. rewrite H.
  cbv beta iota. now rewrite H.
Qed.

Lemma showError_absent m w :
  document w !! "loading" = None -> App.showError m w = (Normal tt, w).
Proof.
  intros H. unfold App.showError, bind, getElementById. now rewrite H.
Qed.

Lemma showError_returns m w : exists w', App.showError m w = (Normal tt, w').
Proof.
  destruct (document w !! "loading") as [el|] eqn:E.
  - rewrite (showError_spec m w el E). eauto.
  - rewrite (showError_absent m w E). eauto.
Qed.

(** [init] after the start time is stored. *)
Definition init_rest : JS unit :=
  (App.loadPreferences;;
   DeviceInfo.init;;
   App.renderUI;;
   App.loadDeviceInfo;;
   App.setupNetworkListener;;
   let* w := get in
   let* autoRefresh := await (get_prop (preferences w) "autoRefresh") in
   if truthy autoRefresh then App.startAutoRefresh else ret tt)%js.

Definition with_start_time (w : World) : World :=
  if item_truthy (localStorage w !! "appStartTime") then w
  else with_localStorage (fun m => <["appStartTime" := Z_to_string (clock w)]> m) w.

Lemma init_sequence_unfold w : App.init_sequence w = init_rest (with_start_time w).
Proof.
  unfold App.init_sequence, with_start_time.
  rewrite (bind_normal (getItem "appStartTime") _ w _ w eq_refl).
  destruct (item_truthy (localStorage w !! "appStartTime")); reflexivity.
Qed.

Lemma with_start_time_frame w :
  localStorage (with_start_time w) !! "appPreferences" = localStorage w !! "appPreferences" /\
  document (with_start_time w) = document w /\
  capacitor (with_start_time w) = capacitor w.
Proof.
  unfold with_start_time.
  destruct (item_truthy (localStorage w !! "appStartTime")); repeat split.
  cbn. now rewrite lookup_insert_ne.
Qed.

Lemma init_rest_ready w app :
  document w !! "app" = Some app ->
  device_unavailable w -> network_unavailable w ->
  usable (loaded_preferences (localStorage w !! "appPreferences")) ->
  exists w' up,
    init_rest w = (Normal tt, w') /\
    App.ui_phase w' = App.Ready /\
    document w' !! "loading" = Some (set_hidden true loading_spinner) /\
    deviceInfo w' = Some (fallback_snapshot up).
Proof.
  intros Happ Hd Hn Hu.
  set (v := loaded_preferences (localStorage w !! "appPreferences")) in *.
  unfold init_rest.
  rewrite (bind_normal _ _ _ _ _ (loadPreferences_spec w)). fold v.
  rewrite (bind_normal _ _ _ _ _ (DeviceInfo_init_spec _)).
  set (w1 := with_preferences v w).
  destruct (get_prop_usable v "autoRefresh" Hu) as [a Ha].
  rewrite (bind_normal _ _ _ _ _ (renderUI_spec w1 app a Happ Ha)).
  set (R := outside_app (document w1)).
  set (w2 := set_document (rendered_shell app a ∪ R) w1).
  destruct (loadDeviceInfo_on_shell w2 app a R eq_refl Hd Hn Hu) as (A & E & Hl & Hc).
  rewrite (bind_normal _ _ _ _ _ E).
  match goal with |- context [bind App.setupNetworkListener _ ?x] => set (w3 := x) end.
  destruct (addNetworkListener_frame OnNetworkChange w3)
    as (w4 & E4 & Hdoc4 & Hp4 & Hi4 & Ht4 & Hn4 & Hr4 & Hs4).
  unfold App.setupNetworkListener. rewrite (bind_normal _ _ _ _ _ E4).
  rewrite (bind_normal get _ w4 w4 w4 eq_refl).
  assert (Ha4 : get_prop (preferences w4) "autoRefresh" = Normal a) by (now rewrite Hp4).
  rewrite (bind_normal (await _) _ w4 a w4) by (unfold await; now rewrite Ha4).
  assert (Hload : document w4 !! "loading" = Some (set_hidden true loading_spinner)).
  { rewrite Hdoc4. subst w3. cbn [document set_document with_document].
    now apply lookup_union_Some_l. }
  assert (Hcard : document w4 !! "deviceCard"
                  = Some (App.shell_element false [Heading "设备信息"])).
  { rewrite Hdoc4. subst w3. cbn [document set_document with_document].
    now apply lookup_union_Some_l. }
  assert (Hinfo : deviceInfo w4 = Some (fallback_snapshot (uptime_of w2)))
    by (now rewrite Hi4).
  destruct (truthy a).
  - destruct (get_prop_usable (preferences w4) "refreshInterval") as [d Hdl];
      [now rewrite Hp4|].
    rewrite (startAutoRefresh_spec w4 d Hdl).
    eexists. exists (uptime_of w2). split; [reflexivity|].
    split; [|split; assumption].
    unfold App.ui_phase, App.visible. cbn [document with_refreshInterval with_timers].
    now rewrite Hload, Hcard.
  - exists w4, (uptime_of w2). split; [reflexivity|]. split; [|split; assumption].
    unfold App.ui_phase, App.visible. now rewrite Hload, Hcard.
Qed.

Definition init_failure_message : string := "初始化失败，请刷新页面重试".

(** C5, as the code has it. [init] never throws. When every capability
    provider call fails, each failure is caught inside InfoProvider and
    answered with the fallback records: with an [#app] container and usable
    preferences, [init] reaches [Ready] with the spinner hidden and the
    fallback snapshot loaded, not [Error]. When a step of the sequence
    itself throws, [init] runs [showError]: the content of [#loading], if
    the document has such an element, is replaced entirely by the message
    and the retry control, which is the [Error] state when that element is
    not hidden; without such an element nothing is shown. *)
Theorem init_outcomes (w : World) :
  (exists w', App.init w = (Normal tt, w')) /\
  (forall app,
     document w !! "app" = Some app ->
     device_unavailable w -> network_unavailable w ->
     usable (loaded_preferences (localStorage w !! "appPreferences")) ->
     exists w' up,
       App.init w = (Normal tt, w') /\
       App.ui_phase w' = App.Ready /\
       document w' !! "loading" = Some (set_hidden true loading_spinner) /\
       deviceInfo w' = Some (fallback_snapshot up)) /\
  (forall e w1,
     App.init_sequence w = (Throw e, w1) ->
     App.init w = App.showError init_failure_message w1 /\
     (document w1 !! "loading" = None -> App.init w = (Normal tt, w1)) /\
     (forall el,
        document w1 !! "loading" = Some el ->
        document (snd (App.init w)) !! "loading"
        = Some (set_content (App.error_view init_failure_message) el) /\
        (hidden el = false -> App.ui_phase (snd (App.init w)) = App.Error))).
Proof.
  split; [|split].
  - unfold App.init, try_catch.
    destruct (App.init_sequence w) as [[[]|e] w1]; [eauto|].
    apply showError_returns.
  - intros app Happ Hd Hn Hu.
    destruct (with_start_time_frame w) as (Hs & Hdoc & Hcap).
    destruct (init_rest_ready (with_start_time w) app) as (w' & up & E & Hphase & Hl & Hi).
    + now rewrite Hdoc.
    + unfold device_unavailable. now rewrite Hcap.
    + unfold network_unavailable. now rewrite Hcap.
    + now rewrite Hs.
    + exists w', up. split; [|auto].
      unfold App.init, try_catch. now rewrite init_sequence_unfold, E.
  - intros e w1 Hseq.
    assert (E : App.init w = App.showError init_failure_message w1)
      by (unfold App.init, try_catch; now rewrite Hseq).
    split; [exact E|]. split.
    + intros Hnone. rewrite E. now apply showError_absent.
    + intros el Hel. rewrite E, (showError_spec _ _ _ Hel). cbn [snd].
      split.
      * cbn [document with_document]. apply lookup_insert_eq.
      * intros Hh. unfold App.ui_phase. cbn [document with_document].
        rewrite lookup_insert_eq. cbn [hidden set_content content]. now rewrite Hh.
Qed.

(** C5 fails as stated: with every provider call failing, [init] ends in
    the [Ready] state on the fallback values, and no error view is shown. *)
Lemma init_with_failing_providers_is_ready :
  let w' := snd (App.init (fresh_page (Some failing_bridge))) in
  fst (App.init (fresh_page (Some failing_bridge))) = Normal tt /\
  App.ui_phase w' = App.Ready /\
  App.ui_phase w' <> App.Error /\
  document w' !! "loading" = Some (set_hidden true loading_spinner) /\
  deviceInfo w' = Some (fallback_snapshot "0秒").
Proof. vm_compute. repeat split. discriminate. Qed.

(* ================================================================== *)
(** * The theorems at concrete states *)
(* ================================================================== *)




Lemma formatBatteryInfo_thresholds_witness :
  DeviceInfo.bf_levelClass (DeviceInfo.formatBatteryInfo (snapshot_with_level (literal "0.55")))
  = "high" /\
  (DeviceInfo.bf_levelClass (DeviceInfo.formatBatteryInfo (snapshot_with_level (literal "0.55")))
   = "high" <-> 50 < 55).
Proof.
  destruct (formatBatteryInfo_thresholds (snapshot_with_level (literal "0.55")))
    as (_ & Hn & H55 & _).
  split.
  - apply H55. reflexivity.
  - apply (Hn 55); [vm_compute; reflexivity|]. apply H55. reflexivity.
Defined.

Lemma zero_level_reads_full_witness :
  DeviceInfo.bf_level (DeviceInfo.formatBatteryInfo (snapshot_with_level (S754_zero false)))
  = num_of_Z 100 /\
  DeviceInfo.bf_levelClass (DeviceInfo.formatBatteryInfo (snapshot_with_level (S754_zero false)))
  = "high".
Proof.
  apply (zero_level_reads_full (snapshot_with_level (S754_zero false)) (fresh_page None)).
  right. right. exists false. reflexivity.
Defined.

(** A page with the given text stored as preferences. *)
Definition page_with_preferences (text : string) : World :=
  with_localStorage (fun m => <["appPreferences" := text]> m) (fresh_page None).

Lemma loadPreferences_defaults_witness :
  App.loadPreferences (page_with_preferences "{bad json")
  = (Normal tt, with_preferences App.getDefaultPreferences (page_with_preferences "{bad json")).
Proof.
  apply (loadPreferences_defaults (page_with_preferences "{bad json")).
  right. eexists. eexists. split; reflexivity.
Defined.

Lemma loadPreferences_verbatim_witness :
  App.loadPreferences (page_with_preferences "null")
  = (Normal tt, with_preferences VNull (page_with_preferences "null")).
Proof.
  destruct (loadPreferences_verbatim (page_with_preferences "null")) as (_ & H & _).
  apply (H "null"); reflexivity.
Defined.

Lemma preferences_roundtrip_witness :
  let saved := snd (App.savePreferences
                      (with_preferences (preferences_value default_preferences)
                         (fresh_page None))) in
  preferences (snd (App.loadPreferences (with_preferences VNull saved)))
  = preferences_value default_preferences.
Proof.
  intros saved.
  apply (preferences_roundtrip default_preferences
           (with_preferences (preferences_value default_preferences) (fresh_page None))
           (with_preferences VNull saved)).
  - vm_compute. reflexivity.
  - reflexivity.
  - reflexivity.
Defined.

Lemma startAutoRefresh_twice_witness :
  let w := with_preferences App.getDefaultPreferences (fresh_page None) in
  let w2 := snd (App.startAutoRefresh (snd (App.startAutoRefresh w))) in
  size (refresh_timers w2) = 1%nat /\ timers w2 !! 1%nat = None /\
  refreshInterval w2 = Some 2%nat.
Proof.
  intros w w2.
  destruct (startAutoRefresh_twice w (VNum (num_of_Z 30000)))
    as (_ & _ & _ & _ & H1 & H2 & _ & H3).
  - reflexivity.
  - split; [cbn; lia|]. intros id t H. cbn in H. rewrite lookup_empty in H. discriminate.
  - intros id t H. cbn in H. rewrite lookup_empty in H. discriminate.
  - auto.
Defined.

Lemma addNetworkListener_keeps_prior_witness :
  let w1 := snd (DeviceInfo.addNetworkListener OnNetworkChange
                   (fresh_page (Some working_bridge))) in
  networkListener w1 = Some 1%nat /\ size (listeners w1) = 1%nat.
Proof.
  intros w1.
  destruct (addNetworkListener_keeps_prior (fresh_page (Some working_bridge)) OnNetworkChange
              {| getStatus := Normal {| r_connected := Some true;
                                        r_connectionType := Some "wifi" |};
                 addListener_fails := None; remove_fails := None |})
    as (_ & H1 & _ & _ & _ & H2 & _).
  - reflexivity.
  - reflexivity.
  - reflexivity.
  - intros h cb H. cbn in H. rewrite lookup_empty in H. discriminate.
  - split; [exact H1 | apply H2; reflexivity].
Defined.

(** A page that shows a loading element before the script runs, with
    [null] stored as preferences: rendering the shell throws. *)
Definition page_with_static_loading : World :=
  with_document (fun d => <["loading" := {| hidden := false; show := false; in_app := true;
                                            content := [Spinner]; text := "" |}]> d)
    (page_with_preferences "null").

Lemma init_outcomes_witness :
  App.ui_phase (snd (App.init (fresh_page None))) = App.Ready /\
  App.ui_phase (snd (App.init page_with_static_loading)) = App.Error /\
  App.ui_phase (snd (App.init (page_with_preferences "null"))) = App.Uninitialized.
Proof.
  split; [|split].
  - destruct (init_outcomes (fresh_page None)) as (_ & H & _).
    destruct (H app_container) as (w' & up & E & Hp & _).
    + reflexivity.
    + exact I.
    + exact I.
    + split; discriminate.
    + now rewrite E.
  - destruct (init_outcomes page_with_static_loading) as (_ & _ & H).
    edestruct H as (_ & _ & H3).
    + vm_compute. reflexivity.
    + edestruct H3 as (_ & H4).
      * vm_compute. reflexivity.
      * apply H4. reflexivity.
  - destruct (init_outcomes (page_with_preferences "null")) as (_ & _ & H).
    edestruct H as (_ & H2 & _).
    + vm_compute. reflexivity.
    + rewrite H2; [|vm_compute; reflexivity]. vm_compute. reflexivity.
Defined.

(* ================================================================== *)
(** * More of InfoProvider *)
(* ================================================================== *)

Lemma str_or_filled a b : b <> "" -> str_or a b <> "".
Proof.
  intros Hb. destruct a as [s|]; cbn [str_or]; [|exact Hb].
  destruct (String.eqb_spec s ""); assumption.
Qed.

Lemma number_or_truthy a b : num_truthy b = true -> num_truthy (number_or a b) = true.
Proof.
  intros Hb. destruct a as [x|]; cbn [number_or]; [|exact Hb].
  destruct (num_truthy x) eqn:E; assumption.
Qed.

(** X1. [getDeviceInfo] returns in every state, leaves the state as it is,
    and its record has no blank field: every text is non-empty (an empty
    or missing answer of the provider is replaced by its placeholder) and
    the battery level is a number other than [0] and [NaN]. *)
Theorem getDeviceInfo_never_blank (w : World) :
  exists d x c,
    DeviceInfo.getDeviceInfo w = (Normal d, w) /\
    d_model d <> "" /\ d_platform d <> "" /\ d_operatingSystem d <> "" /\
    d_osVersion d <> "" /\ d_manufacturer d <> "" /\
    d_battery d = Some {| level := Some x; charging := Some c |} /\
    num_truthy x = true.
Proof.
  assert (Hfb : exists d x c,
             (Normal DeviceInfo.getFallbackDeviceInfo, w) = (Normal d, w) /\
             d_model d <> "" /\ d_platform d <> "" /\ d_operatingSystem d <> "" /\
             d_osVersion d <> "" /\ d_manufacturer d <> "" /\
             d_battery d = Some {| level := Some x; charging := Some c |} /\
             num_truthy x = true).
  { eexists _, _, _. split; [reflexivity|]. cbn. repeat split; discriminate. }
  unfold DeviceInfo.getDeviceInfo, DeviceInfo.getPlugins, bind, try_catch, await, ret.
  destruct (capacitor w) as [p|]; [|exact Hfb].
  destruct (Device p) as [device|]; [|exact Hfb].
  destruct (getInfo device) as [info|]; [|exact Hfb].
  destruct (getBatteryInfo device) as [b|]; [|exact Hfb].
  eexists _, _, _. split; [reflexivity|]. cbn [d_model d_platform d_operatingSystem
    d_osVersion d_manufacturer d_battery].
  repeat split; try (apply str_or_filled; discriminate).
  now apply number_or_truthy.
Qed.

(** X2. [getNetworkTypeText] answers "未连接" exactly when the connection
    flag is not [true], whatever the type: no entry of the table, and not
    the default, is that text. *)
Theorem getNetworkTypeText_unconnected (type : option string) (conn : option bool) :
  DeviceInfo.getNetworkTypeText type conn = "未连接" <-> conn <> Some true.
Proof.
  unfold DeviceInfo.getNetworkTypeText.
  destruct conn as [[|]|]; cbn [bool_or negb].
  - split; [|congruence]. intros H. exfalso.
    destruct type as [t|]; [|discriminate].
    destruct (String.eqb t "wifi"); [discriminate|].
    destruct (String.eqb t "cellular"); [discriminate|].
    destruct (String.eqb t "none"); [discriminate|].
    destruct (String.eqb t "unknown"); discriminate.
  - split; [discriminate | reflexivity].
  - split; [discriminate | reflexivity].
Qed.

(** The record of [getNetworkStatus]: it always has a connection type, and
    that is not empty. *)
Lemma getNetworkStatus_filled w :
  exists n t,
    DeviceInfo.getNetworkStatus w = (Normal n, w) /\
    connectionType n = Some t /\ t <> "" /\
    (n = DeviceInfo.getFallbackNetworkStatus \/
     exists net status,
       plugin Network w = Some net /\ getStatus net = Normal status /\
       connected n = r_connected status /\
       t = str_or (r_connectionType status) "unknown" /\
       typeText n
       = Some (DeviceInfo.getNetworkTypeText (r_connectionType status) (r_connected status))).
Proof.
  assert (Hfb : exists n t,
             (Normal DeviceInfo.getFallbackNetworkStatus, w) = (Normal n, w) /\
             connectionType n = Some t /\ t <> "" /\
             (n = DeviceInfo.getFallbackNetworkStatus \/
              exists net status,
                plugin Network w = Some net /\ getStatus net = Normal status /\
                connected n = r_connected status /\
                t = str_or (r_connectionType status) "unknown" /\
                typeText n
                = Some (DeviceInfo.getNetworkTypeText (r_connectionType status)
                          (r_connected status)))).
  { eexists _, _. split; [reflexivity|]. cbn.
    repeat split; try discriminate. now left. }
  unfold DeviceInfo.getNetworkStatus, DeviceInfo.getPlugins, bind, try_catch, await, ret, plugin.
  unfold plugin in Hfb.
  destruct (capacitor w) as [p|]; [|exact Hfb].
  destruct (Network p) as [net|]; [|exact Hfb].
  destruct (getStatus net) as [status|] eqn:Es; [|exact Hfb].
  eexists _, _. split; [reflexivity|].
  cbn [connectionType typeText connected].
  split; [reflexivity|]. split; [apply str_or_filled; discriminate|].
  right. exists net, status. repeat split. exact Es.
Qed.

(** X3. [getNetworkStatus] returns in every state and leaves the state as
    it is. Its record always has a connection type that is not empty: the
    fallback's "none", or the provider's, with "unknown" for a missing or
    empty one. A provider that does not report a connection gets the
    text "未连接", whatever type it reports. *)
Theorem getNetworkStatus_normalised (w : World) :
  exists n t,
    DeviceInfo.getNetworkStatus w = (Normal n, w) /\
    connectionType n = Some t /\ t <> "" /\
    (n = DeviceInfo.getFallbackNetworkStatus \/
     exists net status,
       plugin Network w = Some net /\ getStatus net = Normal status /\
       connected n = r_connected status /\
       t = str_or (r_connectionType status) "unknown" /\
       (r_connected status <> Some true -> typeText n = Some "未连接")).
Proof.
  destruct (getNetworkStatus_filled w) as (n & t & E & Ht & Hne & H).
  exists n, t. split; [exact E|]. split; [exact Ht|]. split; [exact Hne|].
  destruct H as [H|(net & status & Hp & Hs & Hc & Hty & Htxt)]; [now left|].
  right. exists net, status. repeat split; try assumption.
  intros Hnc. rewrite Htxt. f_equal. unfold DeviceInfo.getNetworkTypeText.
  now destruct (r_connected status) as [[|]|].
Qed.

(** X4. [getAllInfo] never throws: it returns the records of
    [getDeviceInfo] and [getNetworkStatus] with the version "1.0.0" and the
    text of [getUptime], and keeps that snapshot as [cachedInfo]; nothing
    else of the state changes. *)
Theorem getAllInfo_composes (w : World) :
  exists d n,
    DeviceInfo.getDeviceInfo w = (Normal d, w) /\
    DeviceInfo.getNetworkStatus w = (Normal n, w) /\
    let s := DeviceInfo.with_extras d (Some n) "1.0.0" (uptime_of w) in
    DeviceInfo.getAllInfo w = (Normal s, with_cachedInfo (Some s) w).
Proof.
  destruct (getDeviceInfo_returns w) as [d Hd].
  destruct (getNetworkStatus_returns w) as [n Hn].
  exists d, n. split; [exact Hd|]. split; [exact Hn|].
  cbv zeta. unfold DeviceInfo.getAllInfo, try_catch.
  rewrite (bind_normal _ _ _ _ _ Hd), (bind_normal _ _ _ _ _ Hn).
  rewrite (bind_normal _ _ _ _ _ (getUptime_spec w)).
  reflexivity.
Qed.



(** X6. The effects never throw and leave the state as it is, whatever the
    bridge does: [init] (the permission request), [hapticFeedback] and
    [sendNotification] swallow a failing call, and [copyToClipboard]
    answers [true] exactly when the bridge has a clipboard whose [write]
    succeeds. *)
Theorem effects_are_contained (w : World) (style title body t : string) :
  DeviceInfo.init w = (Normal tt, w) /\
  DeviceInfo.hapticFeedback style w = (Normal tt, w) /\
  DeviceInfo.sendNotification title body w = (Normal tt, w) /\
  exists ok,
    DeviceInfo.copyToClipboard t w = (Normal ok, w) /\
    (ok = true <-> exists c, plugin Clipboard w = Some c /\ write c = Normal tt).
Proof.
  split; [apply DeviceInfo_init_spec|].
  unfold DeviceInfo.hapticFeedback, DeviceInfo.sendNotification, DeviceInfo.copyToClipboard,
    DeviceInfo.getPlugins, bind, try_catch, await, ret, plugin.
  destruct (capacitor w) as [p|].
  - split; [|split].
    + destruct (Haptics p) as [h|]; [|reflexivity]. now destruct (impact h) as [[]|].
    + destruct (LocalNotifications p) as [ln|]; [|reflexivity].
      now destruct (schedule ln) as [[]|].
    + destruct (Clipboard p) as [c|].
      * destruct (write c) as [[]|e] eqn:E.
        -- exists true. split; [reflexivity|]. split; [eauto | reflexivity].
        -- exists false. split; [reflexivity|]. split; [discriminate|].
           intros (c' & Hc & Hw). congruence.
      * exists false. split; [reflexivity|]. split; [discriminate|].
        intros (c' & Hc & _). discriminate.
  - split; [reflexivity|]. split; [reflexivity|].
    exists false. split; [reflexivity|]. split; [discriminate|].
    intros (c' & Hc & _). discriminate.
Qed.

(** X7. Subscribing and unsubscribing never throw. Without a network
    plugin, or when [addListener] fails, [addNetworkListener] changes
    nothing: no handle is stored. [removeNetworkListener] with no handle
    held does nothing; when the [remove] call fails the handle stays held
    and the subscription active, so the state is unchanged and a later call
    tries again. *)
Theorem subscription_failures_contained (w : World) (cb : callback) :
  (exists w', DeviceInfo.addNetworkListener cb w = (Normal tt, w')) /\
  (plugin Network w = None \/
   (exists net e, plugin Network w = Some net /\ addListener_fails net = Some e) ->
   DeviceInfo.addNetworkListener cb w = (Normal tt, w)) /\
  (exists w', DeviceInfo.removeNetworkListener w = (Normal tt, w')) /\
  (networkListener w = None -> DeviceInfo.removeNetworkListener w = (Normal tt, w)) /\
  (forall net e,
     plugin Network w = Some net -> remove_fails net = Some e ->
     DeviceInfo.removeNetworkListener w = (Normal tt, w)).
Proof.
  split; [|split].
  { destruct (addNetworkListener_frame cb w) as (w' & E & _). eauto. }
  { unfold DeviceInfo.addNetworkListener, DeviceInfo.getPlugins, bind, try_catch, addListener,
      plugin, ret.
    destruct (capacitor w) as [p|]; [|reflexivity].
    destruct (Network p) as [net|]; [|reflexivity].
    intros [H|(net' & e & [= <-] & He)]; [discriminate|]. now rewrite He. }
  unfold DeviceInfo.removeNetworkListener, bind, get, try_catch, remove_listener, modify, ret.
  split; [|split].
  - destruct (networkListener w) as [h|]; [|eauto].
    destruct (plugin Network w) as [[? ? [e|]]|]; cbn; eauto.
  - now intros ->.
  - intros net e Hp Hr. destruct (networkListener w) as [h|]; [|reflexivity].
    rewrite Hp. destruct net as [? ? r]. cbn in Hr. subst r. reflexivity.
Qed.

(* ================================================================== *)
(** * More of AppController *)
(* ================================================================== *)

(** The state after [stopAutoRefresh], and after [removeNetworkListener]. *)
Definition stopped (w : World) : World :=
  if handle_truthy (refreshInterval w)
  then with_refreshInterval None (with_timers (fun _ => cleared w) (next_timer w) w)
  else w.

Definition unsubscribed (w : World) : World :=
  match networkListener w with
  | Some h =>
      match plugin Network w with
      | Some {| remove_fails := Some _ |} => w
      | _ => with_networkListener None (with_listeners (fun m => delete h m) (next_listener w) w)
      end
  | None => w
  end.

Lemma removeNetworkListener_total w :
  DeviceInfo.removeNetworkListener w = (Normal tt, unsubscribed w).
Proof.
  unfold DeviceInfo.removeNetworkListener, unsubscribed, bind, get, try_catch, remove_listener,
    modify, ret.
  destruct (networkListener w) as [h|]; [|reflexivity].
  now destruct (plugin Network w) as [[? ? [e|]]|].
Qed.

Lemma destroy_spec w : App.destroy w = (Normal tt, unsubscribed (stopped w)).
Proof.
  unfold App.destroy. rewrite (bind_normal _ _ _ _ _ (stopAutoRefresh_spec w)).
  apply removeNetworkListener_total.
Qed.

Lemma stopped_released w : handle_truthy (refreshInterval (stopped w)) = false.
Proof. unfold stopped. now destruct (handle_truthy (refreshInterval w)) eqn:E. Qed.

Lemma stopped_idle w : handle_truthy (refreshInterval w) = false -> stopped w = w.
Proof. unfold stopped. now intros ->. Qed.

Lemma unsubscribed_refreshInterval w : refreshInterval (unsubscribed w) = refreshInterval w.
Proof.
  unfold unsubscribed. destruct (networkListener w) as [h|]; [|reflexivity].
  now destruct (plugin Network w) as [[? ? [e|]]|].
Qed.

Lemma unsubscribed_twice w : unsubscribed (unsubscribed w) = unsubscribed w.
Proof.
  unfold unsubscribed at 2 3.
  destruct (networkListener w) as [h|] eqn:En.
  - destruct (plugin Network w) as [[? ? [e|]]|] eqn:Ep; try reflexivity.
    unfold unsubscribed. now rewrite En, Ep.
  - unfold unsubscribed. now rewrite En.
Qed.

(** X8. [destroy] never throws and is idempotent: a second call, made
    after the first has completed, changes nothing. After it no timer handle is held, and no subscription handle
    either unless the [remove] call of the bridge fails. *)
Theorem destroy_idempotent (w : World) :
  exists w1,
    App.destroy w = (Normal tt, w1) /\
    App.destroy w1 = (Normal tt, w1) /\
    handle_truthy (refreshInterval w1) = false /\
    ((forall net, plugin Network w = Some net -> remove_fails net = None) ->
     networkListener w1 = None).
Proof.
  exists (unsubscribed (stopped w)).
  assert (Hr : handle_truthy (refreshInterval (unsubscribed (stopped w))) = false)
    by (rewrite unsubscribed_refreshInterval; apply stopped_released).
  split; [apply destroy_spec|]. split; [|split].
  - rewrite destroy_spec, (stopped_idle _ Hr), unsubscribed_twice. reflexivity.
  - exact Hr.
  - intros Hok. unfold unsubscribed.
    assert (Hp : plugin Network (stopped w) = plugin Network w)
      by (unfold stopped; now destruct (handle_truthy (refreshInterval w))).
    destruct (networkListener (stopped w)) as [h|] eqn:En; [|exact En].
    rewrite Hp. destruct (plugin Network w) as [[? ? [e|]]|] eqn:Ep; try reflexivity.
    specialize (Hok _ eq_refl). discriminate.
Qed.

(** X9. Starting the refresh and stopping it again leaves the timers that
    were active before, without the one whose handle was held: no refresh
    timer is left and no handle is held; when none was held before, the
    timers are those from before the start. *)
Theorem start_then_stop (w : World) (d : value) :
  get_prop (preferences w) "refreshInterval" = Normal d ->
  timers_wf w -> refresh_timer_held w ->
  let w1 := snd (App.startAutoRefresh w) in
  let w2 := snd (App.stopAutoRefresh w1) in
  fst (App.stopAutoRefresh w1) = Normal tt /\
  timers w2 = cleared w /\
  refreshInterval w2 = None /\
  refresh_timers w2 = ∅ /\
  (refreshInterval w = None -> timers w2 = timers w).
Proof.
  intros Hd Hwf Hheld w1 w2.
  pose proof (startAutoRefresh_spec w d Hd) as E1.
  pose proof (stopAutoRefresh_spec w1) as E2.
  assert (Hpos : (0 < next_timer w)%nat) by (destruct Hwf; assumption).
  assert (Hr1 : refreshInterval w1 = Some (next_timer w)) by (subst w1; now rewrite E1).
  assert (Ht1 : timers w1 = <[next_timer w := refresh_timer d]> (cleared w))
    by (subst w1; now rewrite E1).
  assert (Hfresh : cleared w !! next_timer w = None).
  { destruct (cleared w !! next_timer w) as [t|] eqn:E; [|reflexivity].
    apply (cleared_lookup w _ t Hwf Hheld) in E as [_ E].
    destruct Hwf as [_ Hwf]. apply Hwf in E. lia. }
  assert (Hc1 : cleared w1 = cleared w).
  { unfold cleared at 1. rewrite Hr1, Ht1.
    destruct (next_timer w) as [|k] eqn:Ek; [lia|]. cbn [handle_truthy].
    now apply delete_insert_id. }
  assert (Ht : handle_truthy (refreshInterval w1) = true).
  { rewrite Hr1. destruct (next_timer w); [lia | reflexivity]. }
  rewrite Ht in E2.
  assert (Ht2 : timers w2 = cleared w) by (subst w2; rewrite E2; cbn; exact Hc1).
  repeat split.
  - now rewrite E2.
  - exact Ht2.
  - subst w2. now rewrite E2.
  - unfold refresh_timers. rewrite Ht2. apply map_empty. intros id.
    apply map_lookup_filter_None. right. intros t H.
    now apply (cleared_lookup w id t Hwf Hheld) in H as [Hn _].
  - intros Hnone. rewrite Ht2. unfold cleared. now rewrite Hnone.
Qed.

Definition hide_toast : timer :=
  {| repeats := false; what := HideToast; delay := VNum (num_of_Z 2000) |}.

Lemma showToast_spec m w el :
  document w !! "toast" = Some el ->
  App.showToast m w
  = (Normal tt,
     with_timers (fun t => <[next_timer w := hide_toast]> t) (S (next_timer w))
       (with_document (fun d => <["toast" := set_show true (set_text m el)]> d) w)).
Proof.
  intros H. unfold App.showToast, bind, getElementById, update_element, set_timer, ret.
  rewrite H. cbv beta iota. rewrite H. reflexivity.
Qed.

Lemma showToast_absent m w :
  document w !! "toast" = None -> App.showToast m w = (Normal tt, w).
Proof. intros H. unfold App.showToast, bind, getElementById. now rewrite H. Qed.

Lemma showToast_returns m w : exists w', App.showToast m w = (Normal tt, w').
Proof.
  destruct (document w !! "toast") as [el|] eqn:E.
  - rewrite (showToast_spec m w el E). eauto.
  - rewrite (showToast_absent m w E). eauto.
Qed.

(** X10. A toast's timer is not cancelled by the next toast: when a second
    message is shown before the first timer fires, that timer hides the
    second message, whose own timer is still pending. Without a [#toast]
    element [showToast] does nothing and starts no timer. *)
Theorem toast_hidden_by_earlier_timer (w : World) (m1 m2 : string) :
  (forall el,
     document w !! "toast" = Some el ->
     let n := next_timer w in
     let w1 := snd (App.showToast m1 w) in
     let w2 := snd (App.showToast m2 w1) in
     let w3 := snd (App.fire_timer n w2) in
     document w1 !! "toast" = Some (set_show true (set_text m1 el)) /\
     timers w1 !! n = Some hide_toast /\
     document w2 !! "toast" = Some (set_show true (set_text m2 el)) /\
     fst (App.fire_timer n w2) = Normal tt /\
     document w3 !! "toast" = Some (set_show false (set_text m2 el)) /\
     timers w3 !! n = None /\
     timers w3 !! S n = Some hide_toast) /\
  (document w !! "toast" = None -> App.showToast m1 w = (Normal tt, w)).
Proof.
  split; [|apply showToast_absent].
  intros el Hel n w1 w2 w3.
  pose proof (showToast_spec m1 w el Hel) as E1.
  assert (Hd1 : document w1 !! "toast" = Some (set_show true (set_text m1 el))).
  { subst w1. rewrite E1. cbn. apply lookup_insert_eq. }
  pose proof (showToast_spec m2 w1 _ Hd1) as E2.
  assert (Hn1 : next_timer w1 = S n) by (subst w1; now rewrite E1).
  assert (Ht1 : timers w1 = <[n := hide_toast]> (timers w)) by (subst w1; now rewrite E1).
  assert (Ht2 : timers w2 = <[S n := hide_toast]> (<[n := hide_toast]> (timers w))).
  { subst w2. rewrite E2. cbn. now rewrite Hn1, Ht1. }
  assert (Hd2 : document w2 !! "toast" = Some (set_show true (set_text m2 el))).
  { subst w2. rewrite E2. cbn. apply lookup_insert_eq. }
  assert (Hl : timers w2 !! n = Some hide_toast).
  { rewrite Ht2, lookup_insert_ne by lia. apply lookup_insert_eq. }
  assert (E3 : App.fire_timer n w2
               = (Normal tt,
                  with_document
                    (fun d => <["toast" := set_show false (set_show true (set_text m2 el))]> d)
                    (with_timers (fun t => delete n t) (next_timer w2) w2))).
  { unfold App.fire_timer, bind, get, clearInterval, update_element. rewrite Hl.
    cbn [repeats what hide_toast document with_timers]. now rewrite Hd2. }
  repeat split.
  - exact Hd1.
  - rewrite Ht1. apply lookup_insert_eq.
  - exact Hd2.
  - now rewrite E3.
  - subst w3. rewrite E3. cbn. apply lookup_insert_eq.
  - subst w3. rewrite E3. cbn. apply lookup_delete_eq.
  - subst w3. rewrite E3. cbn. rewrite lookup_delete_ne by lia.
    rewrite Ht2. apply lookup_insert_eq.
Qed.

Lemma updateUptime_spec w el info :
  document w !! "uptimeDisplay" = Some el -> deviceInfo w = Some info ->
  App.updateUptime w
  = (Normal tt,
     with_document (fun d => <["uptimeDisplay" := set_text (uptime_of w) el]> d)
       (with_deviceInfo (Some (App.set_uptime (uptime_of w) info)) w)).
Proof.
  intros Hel Hi. unfold App.updateUptime.
  rewrite (bind_normal (getElementById "uptimeDisplay") _ w (Some el) w)
    by (unfold getElementById; now rewrite Hel).
  rewrite (bind_normal get _ w w w eq_refl). rewrite Hi.
  rewrite (bind_normal _ _ _ _ _ (getUptime_spec w)).
  unfold bind, modify, update_element. cbn [document with_deviceInfo]. now rewrite Hel.
Qed.

Lemma updateUptime_idle w :
  document w !! "uptimeDisplay" = None \/ deviceInfo w = None ->
  App.updateUptime w = (Normal tt, w).
Proof.
  intros H. unfold App.updateUptime, bind, getElementById, get.
  destruct H as [-> | ->]; [reflexivity|]. now destruct (document w !! "uptimeDisplay").
Qed.

Lemma on_network_change_idle n w :
  deviceInfo w = None -> App.on_network_change n w = (Normal tt, w).
Proof. intros H. unfold App.on_network_change, bind, get. now rewrite H. Qed.

(** X11. A network event before the first snapshot is dropped: every
    subscription's callback returns at its guard and the state is
    unchanged. With a snapshot and one subscription, the snapshot's network
    record is replaced by the event's; the network card is rendered again
    from the updated snapshot when it is shown, and the document is left as
    it is when the card is hidden; on a page without the card the callback
    throws a TypeError after the snapshot is updated. *)
Theorem network_event_effect (w : World) (status : NetworkStatusResult) :
  (deviceInfo w = None -> App.network_event status w = (Normal tt, w)) /\
  (forall h info,
     listeners w = {[ h := OnNetworkChange ]} ->
     deviceInfo w = Some info ->
     let info' := App.set_network (DeviceInfo.listener_argument status) info in
     let w' := snd (App.network_event status w) in
     deviceInfo w' = Some info' /\
     (forall card,
        document w !! "networkCard" = Some card ->
        if hidden card
        then fst (App.network_event status w) = Normal tt /\ document w' = document w
        else fst (App.network_event status w) = fst (App.renderNetworkInfo info' w) /\
             document w' = document (snd (App.renderNetworkInfo info' w))) /\
     (document w !! "networkCard" = None ->
      exists m, fst (App.network_event status w) = Throw (TypeError m) /\
                document w' = document w)).
Proof.
  split.
  - intros Hnone. unfold App.network_event. rewrite (bind_normal get _ w w w eq_refl).
    induction (map_to_list (listeners w)) as [|[h cb] l IH]; [reflexivity|].
    cbn [foldr]. destruct cb.
    rewrite (bind_normal _ _ _ _ _ (on_network_change_idle _ w Hnone)). exact IH.
  - intros h info Hl Hi info' w'. subst w'.
    unfold App.network_event. rewrite (bind_normal get _ w w w eq_refl).
    rewrite Hl, map_to_list_singleton. cbn [foldr].
    unfold App.on_network_change, bind, get, modify, getElementById, throw. rewrite Hi.
    cbn [document with_deviceInfo]. fold info'.
    destruct (document w !! "networkCard") as [card|] eqn:Hc.
    + assert (Hr : App.renderNetworkInfo info' (with_deviceInfo (Some info') w)
                   = (fst (App.renderNetworkInfo info' w),
                      with_deviceInfo (Some info') (snd (App.renderNetworkInfo info' w)))).
      { unfold App.renderNetworkInfo, update_element. cbn [document with_deviceInfo].
        now destruct (document w !! "networkInfo"). }
      destruct (hidden card) eqn:Hh.
      * split; [reflexivity|]. split; [|discriminate].
        intros card' [= <-]. now rewrite Hh.
      * rewrite Hr.
        destruct (App.renderNetworkInfo info' w) as [[[]|e] w1]; cbn [fst snd];
          (split; [reflexivity|]); (split; [|discriminate]);
          intros card' [= <-]; rewrite Hh; split; reflexivity.
    + split; [reflexivity|]. split; [discriminate|].
      intros _. eexists. split; reflexivity.
Qed.

(* ================================================================== *)
(** * What a computation keeps *)
(* ================================================================== *)

(** A component of the state that the document, the subscriptions and the
    snapshots do not bear on, and one that the timers do not bear on. *)
Record page_independent {B} (proj : World -> B) : Prop := {
  indep_document : forall f w, proj (with_document f w) = proj w;
  indep_listeners : forall f n w, proj (with_listeners f n w) = proj w;
  indep_cachedInfo : forall x w, proj (with_cachedInfo x w) = proj w;
  indep_networkListener : forall x w, proj (with_networkListener x w) = proj w;
  indep_deviceInfo : forall x w, proj (with_deviceInfo x w) = proj w
}.

Record timer_independent {B} (proj : World -> B) : Prop := {
  indep_timers : forall f n w, proj (with_timers f n w) = proj w;
  indep_refreshInterval : forall x w, proj (with_refreshInterval x w) = proj w
}.

Create HintDb keeps.

Section Keeps.
Context {B : Type} (proj : World -> B).

(** The computation leaves the component as it was, however it ends. *)
Definition keeps {A} (m : JS A) : Prop := forall w, proj (snd (m w)) = proj w.

Lemma keeps_pure {A} (m : JS A) : (forall w, snd (m w) = w) -> keeps m.
Proof. intros H w. now rewrite H. Qed.

Lemma keeps_bind {A C} (m : JS A) (k : A -> JS C) :
  keeps m -> (forall a, keeps (k a)) -> keeps (bind m k).
Proof.
  intros Hm Hk w. specialize (Hm w). unfold bind.
  destruct (m w) as [[a|e] w']; cbn [snd] in *; [now rewrite Hk | exact Hm].
Qed.

Lemma keeps_try_catch {A} (body : JS A) (handler : error -> JS A) :
  keeps body -> (forall e, keeps (handler e)) -> keeps (try_catch body handler).
Proof.
  intros Hb Hh w. specialize (Hb w). unfold try_catch.
  destruct (body w) as [[a|e] w']; cbn [snd] in *; [exact Hb | now rewrite Hh].
Qed.

Lemma keeps_modify (f : World -> World) : (forall w, proj (f w) = proj w) -> keeps (modify f).
Proof. intros H w. apply H. Qed.

Ltac keeps_tac :=
  repeat first
    [ solve [auto with keeps]
    | apply keeps_bind; [|intros ?]
    | apply keeps_try_catch; [|intros ?]
    | progress cbv zeta
    | match goal with
      | |- keeps (match ?x with _ => _ end) => destruct x
      end ].

(** ** What does not touch the timers *)

Hypothesis Hproj : page_independent proj.

Lemma keeps_update_element id f : keeps (update_element id f).
Proof using Hproj.
  intros w. unfold update_element. destruct (document w !! id); [|reflexivity].
  apply (indep_document _ Hproj).
Qed.

Lemma keeps_addListener net cb : keeps (addListener net cb).
Proof using Hproj.
  intros w. unfold addListener. destruct (addListener_fails net); [reflexivity|].
  apply (indep_listeners _ Hproj).
Qed.

Lemma keeps_remove_listener h : keeps (remove_listener h).
Proof using Hproj.
  intros w. unfold remove_listener.
  destruct (plugin Network w) as [[? ? [e|]]|]; try reflexivity; apply (indep_listeners _ Hproj).
Qed.

#[local] Hint Resolve keeps_update_element keeps_addListener keeps_remove_listener : keeps.
#[local] Hint Extern 1 (keeps _) => (apply keeps_pure; intros; reflexivity) : keeps.
#[local] Hint Extern 1 (keeps (modify _)) =>
  (apply keeps_modify; intros;
   first [ apply (indep_document _ Hproj) | apply (indep_cachedInfo _ Hproj)
         | apply (indep_networkListener _ Hproj) | apply (indep_deviceInfo _ Hproj) ]) : keeps.

Lemma keeps_DeviceInfo_init : keeps DeviceInfo.init.
Proof using Hproj. unfold DeviceInfo.init, DeviceInfo.getPlugins. keeps_tac. Qed.

Lemma keeps_getAllInfo : keeps DeviceInfo.getAllInfo.
Proof using Hproj.
  unfold DeviceInfo.getAllInfo, DeviceInfo.getDeviceInfo, DeviceInfo.getNetworkStatus,
    DeviceInfo.getUptime, DeviceInfo.getPlugins.
  keeps_tac.
Qed.

Lemma keeps_hapticFeedback style : keeps (DeviceInfo.hapticFeedback style).
Proof using Hproj. unfold DeviceInfo.hapticFeedback, DeviceInfo.getPlugins. keeps_tac. Qed.

Lemma keeps_sendNotification title body : keeps (DeviceInfo.sendNotification title body).
Proof using Hproj. unfold DeviceInfo.sendNotification, DeviceInfo.getPlugins. keeps_tac. Qed.

Lemma keeps_copyToClipboard t : keeps (DeviceInfo.copyToClipboard t).
Proof using Hproj. unfold DeviceInfo.copyToClipboard, DeviceInfo.getPlugins. keeps_tac. Qed.

Lemma keeps_addNetworkListener cb : keeps (DeviceInfo.addNetworkListener cb).
Proof using Hproj. unfold DeviceInfo.addNetworkListener, DeviceInfo.getPlugins. keeps_tac. Qed.

Lemma keeps_removeNetworkListener : keeps DeviceInfo.removeNetworkListener.
Proof using Hproj. unfold DeviceInfo.removeNetworkListener. keeps_tac. Qed.

Lemma keeps_showError m : keeps (App.showError m).
Proof using Hproj. unfold App.showError. keeps_tac. Qed.

Lemma keeps_renderNetworkInfo info : keeps (App.renderNetworkInfo info).
Proof using Hproj. unfold App.renderNetworkInfo. keeps_tac. Qed.

Lemma keeps_updateUI : keeps App.updateUI.
Proof using Hproj.
  unfold App.updateUI, App.renderDeviceInfo, App.renderBatteryInfo, App.renderNetworkInfo,
    App.renderAppInfo.
  keeps_tac.
Qed.

#[local] Hint Resolve keeps_DeviceInfo_init keeps_getAllInfo keeps_hapticFeedback
  keeps_sendNotification keeps_copyToClipboard keeps_addNetworkListener
  keeps_removeNetworkListener keeps_showError keeps_renderNetworkInfo keeps_updateUI : keeps.

Lemma keeps_loadDeviceInfo : keeps App.loadDeviceInfo.
Proof using Hproj. unfold App.loadDeviceInfo. keeps_tac. Qed.

Lemma keeps_updateUptime : keeps App.updateUptime.
Proof using Hproj. unfold App.updateUptime, DeviceInfo.getUptime. keeps_tac. Qed.

Lemma keeps_renderUI : keeps App.renderUI.
Proof using Hproj. unfold App.renderUI. keeps_tac. Qed.

Lemma keeps_on_network_change n : keeps (App.on_network_change n).
Proof using Hproj. unfold App.on_network_change. keeps_tac. Qed.

#[local] Hint Resolve keeps_loadDeviceInfo keeps_updateUptime keeps_renderUI
  keeps_on_network_change : keeps.

Lemma keeps_network_event status : keeps (App.network_event status).
Proof using Hproj.
  unfold App.network_event. apply keeps_bind; [auto with keeps|]. intros w.
  induction (map_to_list (listeners w)) as [|[h cb] l IH]; cbn [foldr]; [auto with keeps|].
  destruct cb. apply keeps_bind; [auto with keeps | intros _; exact IH].
Qed.

(** ** What starts and clears timers *)

Hypothesis Htimers : timer_independent proj.

Lemma keeps_set_timer t : keeps (set_timer t).
Proof using Htimers. intros w. apply (indep_timers _ Htimers). Qed.

Lemma keeps_clearInterval id : keeps (clearInterval id).
Proof using Htimers. intros w. apply (indep_timers _ Htimers). Qed.

#[local] Hint Resolve keeps_set_timer keeps_clearInterval : keeps.
#[local] Hint Extern 1 (keeps (modify _)) =>
  (apply keeps_modify; intros; apply (indep_refreshInterval _ Htimers)) : keeps.

Lemma keeps_showToast m : keeps (App.showToast m).
Proof using Hproj Htimers. unfold App.showToast. keeps_tac. Qed.

Lemma keeps_startAutoRefresh : keeps App.startAutoRefresh.
Proof using Hproj Htimers. unfold App.startAutoRefresh. keeps_tac. Qed.

Lemma keeps_stopAutoRefresh : keeps App.stopAutoRefresh.
Proof using Hproj Htimers. unfold App.stopAutoRefresh. keeps_tac. Qed.

#[local] Hint Resolve keeps_showToast keeps_startAutoRefresh keeps_stopAutoRefresh : keeps.

Lemma keeps_destroy : keeps App.destroy.
Proof using Hproj Htimers. unfold App.destroy. keeps_tac. Qed.

Lemma keeps_fire_timer id : keeps (App.fire_timer id).
Proof using Hproj Htimers. unfold App.fire_timer. keeps_tac. Qed.

Lemma keeps_click a : a <> ToggleAutoRefresh -> keeps (App.click a).
Proof using Hproj Htimers.
  intros Ha. destruct a; [| | | |congruence]; cbn [App.click];
    unfold App.refreshInfo, App.testHaptics, App.sendTestNotification, App.copyAllInfo;
    keeps_tac.
Qed.

End Keeps.

Lemma localStorage_independent : page_independent localStorage.
Proof. split; reflexivity. Qed.

Lemma localStorage_timer_independent : timer_independent localStorage.
Proof. split; reflexivity. Qed.

Lemma preferences_independent : page_independent preferences.
Proof. split; reflexivity. Qed.

Lemma preferences_timer_independent : timer_independent preferences.
Proof. split; reflexivity. Qed.

(** The timers, the next handle and the handle held. *)
Definition timer_state (w : World) : gmap nat timer * nat * option nat :=
  (timers w, next_timer w, refreshInterval w).

Lemma timer_state_independent : page_independent timer_state.
Proof. split; reflexivity. Qed.

(** X12. What the host runs after the start writes neither the local
    storage nor the preferences, however it ends, with one exception, the
    auto-refresh toggle: not a timer that fires, a network event, a click on
    one of the other four buttons, or [destroy]. *)
Theorem events_keep_storage (w : World) :
  (forall id,
     localStorage (snd (App.fire_timer id w)) = localStorage w /\
     preferences (snd (App.fire_timer id w)) = preferences w) /\
  (forall status,
     localStorage (snd (App.network_event status w)) = localStorage w /\
     preferences (snd (App.network_event status w)) = preferences w) /\
  (forall a,
     a <> ToggleAutoRefresh ->
     localStorage (snd (App.click a w)) = localStorage w /\
     preferences (snd (App.click a w)) = preferences w) /\
  localStorage (snd (App.destroy w)) = localStorage w /\
  preferences (snd (App.destroy w)) = preferences w.
Proof.
  split; [|split; [|split; [|split]]].
  - intros id. split.
    + apply (keeps_fire_timer _ localStorage_independent localStorage_timer_independent).
    + apply (keeps_fire_timer _ preferences_independent preferences_timer_independent).
  - intros status. split.
    + apply (keeps_network_event _ localStorage_independent).
    + apply (keeps_network_event _ preferences_independent).
  - intros a Ha. split.
    + now apply (keeps_click _ localStorage_independent localStorage_timer_independent).
    + now apply (keeps_click _ preferences_independent preferences_timer_independent).
  - apply (keeps_destroy _ localStorage_independent localStorage_timer_independent).
  - apply (keeps_destroy _ preferences_independent preferences_timer_independent).
Qed.

Lemma keeps_loadPreferences : keeps localStorage App.loadPreferences.
Proof. intros w. now rewrite loadPreferences_spec. Qed.

Lemma keeps_init_rest : keeps localStorage init_rest.
Proof.
  pose proof localStorage_independent as H.
  pose proof localStorage_timer_independent as H'.
  unfold init_rest, App.setupNetworkListener.
  apply keeps_bind; [apply keeps_loadPreferences | intros _].
  apply keeps_bind; [now apply keeps_DeviceInfo_init | intros _].
  apply keeps_bind; [now apply keeps_renderUI | intros _].
  apply keeps_bind; [now apply keeps_loadDeviceInfo | intros _].
  apply keeps_bind; [now apply keeps_addNetworkListener | intros _].
  apply keeps_bind; [now apply keeps_pure | intros w].
  apply keeps_bind; [now apply keeps_pure | intros a].
  destruct (truthy a); [now apply keeps_startAutoRefresh | now apply keeps_pure].
Qed.

(** X13. [init] writes one key of the local storage at most, the start
    time, and only when none is stored (or the empty string): then it stores
    the clock, and otherwise it leaves the storage as it is, however [init]
    ends. Afterwards a start time is stored, so a later [init] keeps it: the
    uptime counts from the first start. *)
Theorem init_writes_start_time_once (w : World) :
  let w1 := snd (App.init w) in
  localStorage w1
  = (if item_truthy (localStorage w !! "appStartTime") then localStorage w
     else <["appStartTime" := Z_to_string (clock w)]> (localStorage w)) /\
  item_truthy (localStorage w1 !! "appStartTime") = true /\
  localStorage w1 !! "appPreferences" = localStorage w !! "appPreferences" /\
  localStorage (snd (App.init w1)) = localStorage w1.
Proof.
  assert (Hinit : forall u, localStorage (snd (App.init u)) = localStorage (with_start_time u)).
  { intros u. unfold App.init, try_catch.
    pose proof (keeps_init_rest (with_start_time u)) as Hk.
    rewrite <- init_sequence_unfold in Hk.
    destruct (App.init_sequence u) as [[[]|e] u1]; cbn [snd] in *; [exact Hk|].
    rewrite <- Hk. apply (keeps_showError _ localStorage_independent). }
  assert (Hstart : forall u, item_truthy (localStorage (with_start_time u) !! "appStartTime") = true).
  { intros u. unfold with_start_time.
    destruct (item_truthy (localStorage u !! "appStartTime")) eqn:E; [exact E|].
    cbn [localStorage with_localStorage]. rewrite lookup_insert_eq. unfold item_truthy.
    destruct (String.eqb_spec (Z_to_string (clock u)) "") as [E0|_]; [|reflexivity].
    now apply Z_to_string_nonempty in E0. }
  intros w1. subst w1. repeat split.
  - rewrite Hinit. unfold with_start_time.
    now destruct (item_truthy (localStorage w !! "appStartTime")).
  - rewrite Hinit. apply Hstart.
  - rewrite Hinit. apply with_start_time_frame.
  - rewrite (Hinit (snd (App.init w))). unfold with_start_time at 1.
    rewrite (Hinit w) at 1. now rewrite Hstart.
Qed.

(* ================================================================== *)
(** * The page start and the tick *)
(* ================================================================== *)

Definition uptime_tick : timer :=
  {| repeats := true; what := UptimeTick; delay := VNum (num_of_Z 1000) |}.

(** The handler after the start time is stored. *)
Definition main_rest : JS unit :=
  (App.loadPreferences;;
   let* _ := set_timer uptime_tick in
   try_catch
     (DeviceInfo.init;;
      App.renderUI;;
      App.loadDeviceInfo;;
      App.setupNetworkListener;;
      let* w := get in
      let* autoRefresh := await (get_prop (preferences w) "autoRefresh") in
      if truthy autoRefresh then App.startAutoRefresh else ret tt)
     (fun error => App.showError init_failure_message))%js.

Lemma main_unfold w : App.main w = main_rest (with_start_time w).
Proof.
  unfold App.main, with_start_time.
  rewrite (bind_normal (getItem "appStartTime") _ w _ w eq_refl).
  destruct (item_truthy (localStorage w !! "appStartTime")); reflexivity.
Qed.

(** A postcondition of a sequence, from one that the first part
    establishes however it ends. *)
Lemma snd_bind {A C} (P Q : World -> Prop) (m : JS A) (k : A -> JS C) w :
  P (snd (m w)) -> (forall w', P w' -> Q w') ->
  (forall a w', P w' -> Q (snd (k a w'))) ->
  Q (snd (bind m k w)).
Proof.
  intros Hm HPQ Hk. unfold bind.
  destruct (m w) as [[a|e] w']; cbn [snd] in *; auto.
Qed.

Lemma try_catch_showError_returns body m w :
  exists w', try_catch body (fun _ => App.showError m) w = (Normal tt, w').
Proof.
  unfold try_catch. destruct (body w) as [[[]|e] w1]; [eauto | apply showError_returns].
Qed.

Lemma tick_survives_start n ts w :
  timer_state w = ts -> ts.1.1 !! n = Some uptime_tick -> ts.1.2 <> n ->
  handle_truthy ts.2 = false ->
  timers (snd (App.startAutoRefresh w)) !! n = Some uptime_tick.
Proof.
  intros <- Hn Hne Hh. unfold timer_state in *. cbn [fst snd] in *.
  unfold App.startAutoRefresh, bind, get, clearInterval, await, set_timer, modify, ret.
  destruct (refreshInterval w) as [[|id]|]; try discriminate;
    destruct (get_prop (preferences w) "refreshInterval"); cbn; try exact Hn;
    now rewrite lookup_insert_ne.
Qed.

(** X14. The page start never throws. It installs the one-second tick
    while [init] waits at its first [await], under the first free handle,
    and the tick stays active whether [init] succeeds or fails (no handle
    being held when the page starts). A firing of the tick keeps the timer
    and runs [updateUptime]: before the first snapshot, or without the
    [#uptimeDisplay] element, this changes nothing; afterwards the element's
    text and the snapshot's uptime become the text of [getUptime]. *)
Theorem main_installs_tick (w : World) :
  (exists w', App.main w = (Normal tt, w')) /\
  (handle_truthy (refreshInterval w) = false ->
   timers (snd (App.main w)) !! next_timer w = Some uptime_tick) /\
  (forall id,
     timers w !! id = Some uptime_tick ->
     App.fire_timer id w = App.updateUptime w /\
     (document w !! "uptimeDisplay" = None \/ deviceInfo w = None ->
      App.fire_timer id w = (Normal tt, w)) /\
     (forall el info,
        document w !! "uptimeDisplay" = Some el -> deviceInfo w = Some info ->
        let w' := snd (App.fire_timer id w) in
        fst (App.fire_timer id w) = Normal tt /\
        timers w' !! id = Some uptime_tick /\
        document w' !! "uptimeDisplay" = Some (set_text (uptime_of w) el) /\
        deviceInfo w' = Some (App.set_uptime (uptime_of w) info))).
Proof.
  split; [|split].
  - rewrite main_unfold. unfold main_rest.
    rewrite (bind_normal _ _ _ _ _ (loadPreferences_spec _)).
    rewrite (bind_normal (set_timer uptime_tick) _ _ _ _ eq_refl).
    apply try_catch_showError_returns.
  - intros Hh. rewrite main_unfold. unfold main_rest.
    rewrite (bind_normal _ _ _ _ _ (loadPreferences_spec _)).
    rewrite (bind_normal (set_timer uptime_tick) _ _ _ _ eq_refl).
    set (n := next_timer w).
    match goal with |- context [try_catch _ _ ?u] => set (w1 := u) end.
    assert (Hn1 : timers w1 !! n = Some uptime_tick).
    { subst w1 n. unfold with_start_time.
      destruct (item_truthy (localStorage w !! "appStartTime")); cbn; apply lookup_insert_eq. }
    assert (Hnext : next_timer w1 <> n).
    { subst w1 n. unfold with_start_time.
      destruct (item_truthy (localStorage w !! "appStartTime")); cbn; lia. }
    assert (Hh1 : handle_truthy (refreshInterval w1) = false).
    { subst w1. unfold with_start_time.
      destruct (item_truthy (localStorage w !! "appStartTime")); exact Hh. }
    set (P := fun u : World => timer_state u = timer_state w1).
    set (Q := fun u : World => timers u !! n = Some uptime_tick).
    assert (HPQ : forall u, P u -> Q u).
    { intros u Hu. unfold P, timer_state in Hu. unfold Q. now injection Hu as -> _ _. }
    change (Q (snd (try_catch
                      (DeviceInfo.init;; App.renderUI;; App.loadDeviceInfo;;
                       App.setupNetworkListener;;
                       let* w := get in
                       let* autoRefresh := await (get_prop (preferences w) "autoRefresh") in
                       if truthy autoRefresh then App.startAutoRefresh else ret tt)%js
                      (fun _ => App.showError init_failure_message) w1))).
    assert (Hbody : Q (snd ((DeviceInfo.init;; App.renderUI;; App.loadDeviceInfo;;
                             App.setupNetworkListener;;
                             let* w := get in
                             let* autoRefresh := await (get_prop (preferences w) "autoRefresh") in
                             if truthy autoRefresh then App.startAutoRefresh else ret tt)%js w1))).
    { pose proof timer_state_independent as Hi.
      apply (snd_bind P Q); [apply (keeps_DeviceInfo_init _ Hi) | exact HPQ |].
      intros _ u1 Hu1.
      apply (snd_bind P Q);
        [unfold P; rewrite (keeps_renderUI _ Hi); exact Hu1 | exact HPQ |].
      intros _ u2 Hu2.
      apply (snd_bind P Q);
        [unfold P; rewrite (keeps_loadDeviceInfo _ Hi); exact Hu2 | exact HPQ |].
      intros _ u3 Hu3.
      apply (snd_bind P Q);
        [unfold P, App.setupNetworkListener; rewrite (keeps_addNetworkListener _ Hi);
         exact Hu3 | exact HPQ |].
      intros _ u4 Hu4.
      unfold bind, get, await.
      destruct (get_prop (preferences u4) "autoRefresh") as [a|e]; [|now apply HPQ].
      destruct (truthy a); [|now apply HPQ].
      unfold Q. apply (tick_survives_start n (timer_state w1) u4 Hu4); assumption. }
    unfold try_catch.
    match goal with |- Q (snd (match ?body w1 with _ => _ end)) =>
      destruct (body w1) as [[[]|e] u] eqn:Eb end; cbn [snd] in Hbody; [exact Hbody|].
    assert (Hi : page_independent (fun u : World => timers u !! n)) by (split; reflexivity).
    pose proof (keeps_showError _ Hi init_failure_message u) as Hk. cbv beta in Hk.
    unfold Q. rewrite Hk. exact Hbody.
  - intros id Hid.
    assert (E : App.fire_timer id w = App.updateUptime w).
    { unfold App.fire_timer. rewrite (bind_normal get _ w w w eq_refl). now rewrite Hid. }
    split; [exact E|]. split.
    + intros H. rewrite E. now apply updateUptime_idle.
    + intros el info Hel Hi w'. subst w'. rewrite E, (updateUptime_spec w el info Hel Hi).
      cbn. repeat split; [exact Hid | apply lookup_insert_eq].
Qed.

(* ================================================================== *)
(** * The buttons *)
(* ================================================================== *)

Lemma hapticFeedback_spec style w : DeviceInfo.hapticFeedback style w = (Normal tt, w).
Proof.
  unfold DeviceInfo.hapticFeedback, DeviceInfo.getPlugins, bind, try_catch, await, ret.
  destruct (capacitor w) as [p|]; [|reflexivity].
  destruct (Haptics p) as [h|]; [|reflexivity]. now destruct (impact h) as [[]|].
Qed.

Lemma sendNotification_spec title body w :
  DeviceInfo.sendNotification title body w = (Normal tt, w).
Proof.
  unfold DeviceInfo.sendNotification, DeviceInfo.getPlugins, bind, try_catch, await, ret.
  destruct (capacitor w) as [p|]; [|reflexivity].
  destruct (LocalNotifications p) as [ln|]; [|reflexivity]. now destruct (schedule ln) as [[]|].
Qed.

(** Whether the bridge has a clipboard whose [write] succeeds. *)
Definition clipboard_works (w : World) : bool :=
  match plugin Clipboard w with
  | Some c => match write c with Normal _ => true | Throw _ => false end
  | None => false
  end.

Lemma copyToClipboard_spec t w :
  DeviceInfo.copyToClipboard t w = (Normal (clipboard_works w), w).
Proof.
  unfold DeviceInfo.copyToClipboard, clipboard_works, plugin, DeviceInfo.getPlugins, bind,
    try_catch, await, ret.
  destruct (capacitor w) as [p|]; [|reflexivity].
  destruct (Clipboard p) as [c|]; [|reflexivity]. now destruct (write c) as [[]|].
Qed.

Lemma loadDeviceInfo_returns w : exists w', App.loadDeviceInfo w = (Normal tt, w').
Proof.
  unfold App.loadDeviceInfo, try_catch.
  match goal with |- context [match ?body w with _ => _ end] => destruct (body w) as [[[]|e] w1] end;
    [eauto | apply showError_returns].
Qed.

Definition copy_message (ok : bool) : string :=
  if ok then "✅ 已复制到剪贴板" else "❌ 复制失败".

Lemma copyAllInfo_spec w info :
  deviceInfo w = Some info ->
  App.copyAllInfo w = App.showToast (copy_message (clipboard_works w)) w.
Proof.
  intros Hi. unfold App.copyAllInfo. rewrite (bind_normal get _ w w w eq_refl), Hi.
  rewrite (bind_normal _ _ _ _ _ (copyToClipboard_spec _ w)).
  rewrite (bind_normal _ _ _ _ _ (hapticFeedback_spec _ w)).
  unfold copy_message. now destruct (clipboard_works w).
Qed.

(** X15. [copyAllInfo] without a snapshot does nothing. With one, the copy
    and the haptic feedback leave the state as it is, and the toast tells
    how the copy ended: the success message exactly when the bridge has a
    clipboard whose [write] succeeds, the failure message otherwise. *)
Theorem copyAllInfo_reports (w : World) :
  (deviceInfo w = None -> App.copyAllInfo w = (Normal tt, w)) /\
  (forall info el,
     deviceInfo w = Some info -> document w !! "toast" = Some el ->
     fst (App.copyAllInfo w) = Normal tt /\
     document (snd (App.copyAllInfo w)) !! "toast"
     = Some (set_show true
               (set_text (if clipboard_works w then "✅ 已复制到剪贴板" else "❌ 复制失败") el)) /\
     deviceInfo (snd (App.copyAllInfo w)) = Some info /\
     localStorage (snd (App.copyAllInfo w)) = localStorage w).
Proof.
  split.
  - intros Hn. unfold App.copyAllInfo. now rewrite (bind_normal get _ w w w eq_refl), Hn.
  - intros info el Hi Hel. rewrite (copyAllInfo_spec w info Hi).
    rewrite (showToast_spec _ w el Hel). cbn.
    repeat split; [|exact Hi]. rewrite lookup_insert_eq. unfold copy_message.
    now destruct (clipboard_works w).
Qed.

Definition is_object (v : value) : bool :=
  match v with
  | VObj _ | VArr _ _ => true
  | _ => false
  end.

Lemma set_prop_object v k x p : set_prop v k x = Normal p -> is_object p = true.
Proof.
  destruct v; cbn [set_prop]; try discriminate.
  - destruct (array_index k) as [i|]; [|now intros [= <-]].
    destruct (N.to_nat i <? length elems)%nat; now intros [= <-].
  - now intros [= <-].
Qed.

Lemma object_usable v : is_object v = true -> usable v.
Proof. destruct v; try discriminate; split; discriminate. Qed.

Lemma set_prop_on_object v k x : is_object v = true -> exists p, set_prop v k x = Normal p.
Proof.
  destruct v; try discriminate; intros _; cbn [set_prop]; [|eauto].
  destruct (array_index k) as [i|]; [|eauto].
  destruct (N.to_nat i <? length elems)%nat; eauto.
Qed.

(** What [toggleAutoRefresh] does after it saved the preferences. *)
Definition toggle_branch (on : bool) : JS unit :=
  if on then bind App.startAutoRefresh (fun _ => App.showToast "⏱️ 已开启自动刷新")
  else bind App.stopAutoRefresh (fun _ => App.showToast "⏹️ 已停止自动刷新").

Lemma toggle_branch_returns on w :
  usable (preferences w) -> exists w', toggle_branch on w = (Normal tt, w').
Proof.
  intros Hu. unfold toggle_branch. destruct on.
  - destruct (get_prop_usable (preferences w) "refreshInterval" Hu) as [d Hd].
    rewrite (bind_normal _ _ _ _ _ (startAutoRefresh_spec w d Hd)).
    apply showToast_returns.
  - rewrite (bind_normal _ _ _ _ _ (stopAutoRefresh_spec w)).
    apply showToast_returns.
Qed.

Lemma keeps_toggle_branch {B} (proj : World -> B) on :
  page_independent proj -> timer_independent proj -> keeps proj (toggle_branch on).
Proof.
  intros Hp Ht. unfold toggle_branch. destruct on.
  - apply keeps_bind; [now apply keeps_startAutoRefresh | intros _]. now apply keeps_showToast.
  - apply keeps_bind; [now apply keeps_stopAutoRefresh | intros _]. now apply keeps_showToast.
Qed.

(** [toggleAutoRefresh] on preferences that take the new property, step by
    step: the preferences are replaced and saved, the refresh is started or
    stopped and the toast shown, and the label of the button is written. *)
Lemma toggleAutoRefresh_steps w old prefs :
  get_prop (preferences w) "autoRefresh" = Normal old ->
  set_prop (preferences w) "autoRefresh" (VBool (negb (truthy old))) = Normal prefs ->
  let w2 := with_localStorage
              (fun m => <["appPreferences" := ToString_stringified (JSON_stringify prefs)]> m)
              (with_preferences prefs w) in
  exists now w4 w',
    get_prop prefs "autoRefresh" = Normal now /\
    toggle_branch (truthy now) w2 = (Normal tt, w4) /\
    App.toggleAutoRefresh w = (Normal tt, w') /\
    timers w' = timers w4 /\ next_timer w' = next_timer w4 /\
    refreshInterval w' = refreshInterval w4 /\
    preferences w' = prefs /\
    localStorage w' = localStorage w2.
Proof.
  intros Hold Hset w2.
  assert (Hu : usable prefs) by (eapply object_usable, set_prop_object; exact Hset).
  destruct (get_prop_usable prefs "autoRefresh" Hu) as [now Hnow].
  destruct (toggle_branch_returns (truthy now) w2 Hu) as [w4 E4].
  pose proof (keeps_toggle_branch preferences (truthy now) preferences_independent
                preferences_timer_independent w2) as Hp4.
  pose proof (keeps_toggle_branch localStorage (truthy now) localStorage_independent
                localStorage_timer_independent w2) as Hs4.
  rewrite E4 in Hp4, Hs4. cbn [snd] in Hp4, Hs4.
  assert (E : exists w',
             App.toggleAutoRefresh w = (Normal tt, w') /\
             timers w' = timers w4 /\ next_timer w' = next_timer w4 /\
             refreshInterval w' = refreshInterval w4 /\
             preferences w' = preferences w4 /\ localStorage w' = localStorage w4).
  { unfold App.toggleAutoRefresh.
    rewrite (bind_normal get _ w w w eq_refl).
    rewrite (bind_normal (await _) _ w old w) by (unfold await; now rewrite Hold).
    rewrite (bind_normal (await _) _ w prefs w) by (unfold await; now rewrite Hset).
    rewrite (bind_normal (modify (with_preferences prefs)) _ w tt _ eq_refl).
    rewrite (bind_normal _ _ _ _ _ (savePreferences_spec _)).
    cbn [preferences with_preferences]. fold w2.
    rewrite (bind_normal (await _) _ w2 now w2) by (unfold await; now rewrite Hnow).
    unfold toggle_branch in E4.
    assert (E4' : (if truthy now
                   then bind App.startAutoRefresh (fun _ => App.showToast "⏱️ 已开启自动刷新")
                   else bind App.stopAutoRefresh (fun _ => App.showToast "⏹️ 已停止自动刷新")) w2
                  = (Normal tt, w4)) by exact E4.
    rewrite (bind_normal _ _ _ _ _ E4').
    unfold bind, getElementById, update_element, ret.
    destruct (document w4 !! "buttonGroup") as [el|] eqn:Eg; [rewrite Eg|];
      eexists; repeat split. }
  destruct E as (w' & E & Ht & Hn & Hr & Hp & Hs).
  exists now, w4, w'. repeat split; try assumption.
  - now rewrite Hp, Hp4.
  - now rewrite Hs, Hs4.
Qed.

Lemma toggleAutoRefresh_spec w old prefs :
  get_prop (preferences w) "autoRefresh" = Normal old ->
  set_prop (preferences w) "autoRefresh" (VBool (negb (truthy old))) = Normal prefs ->
  exists w',
    App.toggleAutoRefresh w = (Normal tt, w') /\
    preferences w' = prefs /\
    localStorage w'
    = <["appPreferences" := ToString_stringified (JSON_stringify prefs)]> (localStorage w).
Proof.
  intros Hold Hset.
  destruct (toggleAutoRefresh_steps w old prefs Hold Hset)
    as (now & w4 & w' & _ & _ & E & _ & _ & _ & Hp & Hs).
  exists w'. repeat split; assumption.
Qed.

Lemma toggleAutoRefresh_refused w :
  is_object (preferences w) = false ->
  exists m, App.toggleAutoRefresh w = (Throw (TypeError m), w).
Proof.
  unfold App.toggleAutoRefresh, bind, get, await.
  destruct (preferences w); try discriminate; intros _; cbn; eauto.
Qed.

(** X16. What a click does to the control flow. The refresh, the haptics
    test, the notification test and the copy return normally in every
    state: failures of the bridge and of the rendering are caught on the
    way. The auto-refresh toggle returns normally when the preferences are
    an object; on any other value ([null] or a primitive, which
    [loadPreferences] installs when such a text is stored) it throws a
    TypeError before anything is written. *)
Theorem click_outcome (w : World) (a : action) :
  match a with
  | ToggleAutoRefresh =>
      if is_object (preferences w)
      then exists w', App.click a w = (Normal tt, w')
      else exists m, App.click a w = (Throw (TypeError m), w)
  | _ => exists w', App.click a w = (Normal tt, w')
  end.
Proof.
  destruct a; cbn [App.click].
  - unfold App.refreshInfo.
    rewrite (bind_normal _ _ _ _ _ (hapticFeedback_spec _ w)).
    destruct (loadDeviceInfo_returns w) as [w1 E]. rewrite (bind_normal _ _ _ _ _ E).
    apply showToast_returns.
  - unfold App.testHaptics.
    rewrite (bind_normal _ _ _ _ _ (hapticFeedback_spec _ w)). apply showToast_returns.
  - unfold App.sendTestNotification.
    rewrite (bind_normal _ _ _ _ _ (sendNotification_spec _ _ w)).
    rewrite (bind_normal _ _ _ _ _ (hapticFeedback_spec _ w)). apply showToast_returns.
  - destruct (deviceInfo w) as [info|] eqn:Ei.
    + rewrite (copyAllInfo_spec w info Ei). apply showToast_returns.
    + unfold App.copyAllInfo. rewrite (bind_normal get _ w w w eq_refl), Ei. now exists w.
  - destruct (is_object (preferences w)) eqn:Eo.
    + destruct (get_prop_usable _ "autoRefresh" (object_usable _ Eo)) as [old Hold].
      destruct (set_prop_on_object _ "autoRefresh" (VBool (negb (truthy old))) Eo)
        as [prefs Hset].
      destruct (toggleAutoRefresh_spec w old prefs Hold Hset) as (w' & E & _). eauto.
    + now apply toggleAutoRefresh_refused.
Qed.

Definition toggled (p : Preferences) : Preferences :=
  {| pref_autoRefresh := negb (pref_autoRefresh p);
     pref_refreshInterval := pref_refreshInterval p;
     pref_showBattery := pref_showBattery p;
     pref_showNetwork := pref_showNetwork p;
     pref_showUptime := pref_showUptime p |}.

Lemma toggled_twice p : toggled (toggled p) = p.
Proof. destruct p as [[] ? ? ? ?]; reflexivity. Qed.

Lemma toggleAutoRefresh_preferences p w :
  preferences w = preferences_value p ->
  exists w',
    App.toggleAutoRefresh w = (Normal tt, w') /\
    preferences w' = preferences_value (toggled p) /\
    localStorage w'
    = <["appPreferences" := ToString_stringified (JSON_stringify (preferences_value (toggled p)))]>
        (localStorage w).
Proof.
  intros Hp.
  apply (toggleAutoRefresh_spec w (VBool (pref_autoRefresh p))); rewrite Hp.
  - reflexivity.
  - destruct p as [b n b1 b2 b3]. cbn [preferences_value toggled pref_autoRefresh
      pref_refreshInterval pref_showBattery pref_showNetwork pref_showUptime truthy].
    generalize (num_of_Z n). intros x. now destruct b.
Qed.

(** X17. The auto-refresh toggle on a Preferences object flips
    [autoRefresh] and nothing else, and persists the new object: a fresh
    session that starts from the storage it left loads the flipped
    preferences; the stored start time is not touched, and a second toggle
    restores the preferences. *)
Theorem toggleAutoRefresh_persists (p : Preferences) (w fresh : World) :
  Z.abs (pref_refreshInterval p) < 2 ^ 53 ->
  preferences w = preferences_value p ->
  localStorage fresh = localStorage (snd (App.toggleAutoRefresh w)) ->
  let w1 := snd (App.toggleAutoRefresh w) in
  fst (App.toggleAutoRefresh w) = Normal tt /\
  preferences w1 = preferences_value (toggled p) /\
  localStorage w1 !! "appStartTime" = localStorage w !! "appStartTime" /\
  preferences (snd (App.loadPreferences fresh)) = preferences_value (toggled p) /\
  fst (App.toggleAutoRefresh w1) = Normal tt /\
  preferences (snd (App.toggleAutoRefresh w1)) = preferences_value p.
Proof.
  intros Hn Hp Hfresh w1.
  destruct (toggleAutoRefresh_preferences p w Hp) as (w' & E & Hp' & Hs').
  assert (Hw1 : w1 = w') by (subst w1; now rewrite E). rewrite E in Hfresh. cbn [snd] in Hfresh.
  destruct (toggleAutoRefresh_preferences (toggled p) w' Hp') as (w'' & E2 & Hp'' & _).
  rewrite toggled_twice in Hp''.
  rewrite Hw1, E, E2. cbn [fst snd]. repeat split; try assumption.
  - rewrite Hs'. now rewrite lookup_insert_ne.
  - rewrite loadPreferences_spec, Hfresh, Hs'. cbn [snd preferences with_preferences].
    rewrite lookup_insert_eq.
    assert (Hn' : Z.abs (pref_refreshInterval (toggled p)) < 2 ^ 53) by exact Hn.
    destruct (JSON_roundtrip_preferences (toggled p) Hn') as (text & -> & _ & Ht).
    unfold loaded_preferences. cbn [ToString_stringified]. now rewrite Ht.
Qed.

(* ================================================================== *)
(** * Rendering *)
(* ================================================================== *)

Lemma outside_app_lookup d i el :
  outside_app d !! i = Some el <-> d !! i = Some el /\ in_app el = false.
Proof. unfold outside_app. now rewrite map_lookup_filter_Some. Qed.

Lemma rendered_again (S : gmap string element) d :
  (forall i el, S !! i = Some el -> i = "app" \/ in_app el = true) ->
  S !! "app" <> None ->
  S ∪ outside_app (S ∪ outside_app d) = S ∪ outside_app d.
Proof.
  intros Hin Happ. apply map_eq. intros i. apply option_eq. intros el.
  rewrite !lookup_union_Some_raw. split.
  - intros [H|[Hn H]]; [now left|]. right. split; [exact Hn|].
    apply outside_app_lookup in H as [H Hout].
    apply lookup_union_Some_raw in H as [H|[_ H]]; [congruence | exact H].
  - intros [H|[Hn H]]; [now left|]. right. split; [exact Hn|].
    apply outside_app_lookup. split.
    + apply lookup_union_Some_raw. now right.
    + now apply outside_app_lookup in H.
Qed.

Lemma rendered_shell_lookup app a i el :
  rendered_shell app a !! i = Some el -> i = "app" \/ in_app el = true.
Proof.
  unfold rendered_shell. destruct (decide (i = "app")) as [->|Hne]; [now left|].
  rewrite lookup_insert_ne by congruence. intros H. right.
  unfold App.shell in H. apply elem_of_list_to_map_2 in H.
  repeat (apply elem_of_cons in H as [H|H]; [now inversion H|]).
  now apply elem_of_nil in H.
Qed.

(** X18. [renderUI] is idempotent on preferences that can be read: when
    the page has no [#app] it does nothing, and otherwise it writes the
    shell, keeps the elements outside [#app] (those whose id the shell does
    not use), and a second call changes nothing. *)
Theorem renderUI_idempotent (w : World) :
  usable (preferences w) ->
  exists w1,
    App.renderUI w = (Normal tt, w1) /\
    App.renderUI w1 = (Normal tt, w1) /\
    (document w !! "app" = None -> w1 = w) /\
    (forall i el,
       i <> "app" -> App.shell "" !! i = None ->
       document w !! i = Some el -> in_app el = false ->
       document w1 !! i = Some el).
Proof.
  intros Hu. destruct (get_prop_usable _ "autoRefresh" Hu) as [a Ha].
  destruct (document w !! "app") as [app|] eqn:Happ.
  - set (d1 := rendered_shell app a ∪ outside_app (document w)).
    exists (set_document d1 w).
    assert (Happ1 : d1 !! "app"
                    = Some (set_content [Heading "📱 iOS 设备信息面板"; Paragraph "查看您的设备详情"]
                              app)).
    { subst d1. apply lookup_union_Some_l. unfold rendered_shell. apply lookup_insert_eq. }
    split; [now apply renderUI_spec|]. split; [|split].
    + rewrite (renderUI_spec (set_document d1 w) _ a Happ1 Ha).
      rewrite set_document_twice. cbn [document set_document with_document].
      change (rendered_shell (set_content _ app) a) with (rendered_shell app a).
      subst d1. rewrite rendered_again; [reflexivity | apply rendered_shell_lookup |].
      unfold rendered_shell. now rewrite lookup_insert_eq.
    + discriminate.
    + intros i el Hne Hs Hi Hout. cbn [document set_document with_document]. subst d1.
      apply lookup_union_Some_raw. right. split; [|now apply outside_app_lookup].
      unfold rendered_shell. rewrite lookup_insert_ne by congruence.
      apply not_elem_of_list_to_map_1. now apply not_elem_of_list_to_map_2 in Hs.
  - exists w.
    assert (E : App.renderUI w = (Normal tt, w))
      by (unfold App.renderUI, bind, getElementById; now rewrite Happ).
    repeat split; try exact E.
    intros i el _ _ Hi _. exact Hi.
Qed.

Ltac render_cards_step :=
  match goal with
  | |- context [bind (App.renderAppInfo ?info) ?k ?w] =>
      erewrite (bind_normal (App.renderAppInfo info) k w);
      [| eapply renderAppInfo_in; reflexivity];
      cbv beta; rewrite ?set_document_twice
  end;
  match goal with
  | |- context [update_element ?id ?f ?w] =>
      erewrite (update_element_in _ _ id f w); [| reflexivity | reflexivity];
      rewrite ?set_document_twice
  end;
  eexists; split; [reflexivity|];
  repeat match goal with |- _ /\ _ => split end; reflexivity.

(** [updateUI] on the freshly rendered shell, card by card. *)
Lemma updateUI_cards w app a R info sb sn :
  document w = rendered_shell app a ∪ R ->
  deviceInfo w = Some info ->
  get_prop (preferences w) "showBattery" = Normal sb ->
  get_prop (preferences w) "showNetwork" = Normal sn ->
  exists A,
    App.updateUI w = (Normal tt, set_document (A ∪ R) w) /\
    A !! "loading" = Some (set_hidden true loading_spinner) /\
    A !! "deviceCard" = Some (App.shell_element false [Heading "设备信息"]) /\
    App.visible A "buttonGroup" = true /\
    App.visible A "appCard" = true /\
    App.visible A "batteryCard" = truthy sb /\
    App.visible A "networkCard" = truthy sn /\
    A !! "uptimeDisplay"
    = Some {| hidden := false; show := false; in_app := true; content := [];
              text := uptime info |}.
Proof.
  intros Hdoc Hinfo Hsb Hsn.
  unfold App.updateUI. rewrite (bind_normal get _ w w w eq_refl). rewrite Hinfo.
  update_step Hdoc. update_step Hdoc. update_step Hdoc.
  unfold App.renderDeviceInfo. update_step Hdoc.
  rewrite (bind_normal (await (get_prop (preferences w) "showBattery")) _ _ sb _)
    by (unfold await; now rewrite Hsb).
  destruct (truthy sb).
  - unfold App.renderBatteryInfo. rewrite bind_assoc. update_step Hdoc. update_step Hdoc.
    rewrite (bind_normal (await (get_prop (preferences w) "showNetwork")) _ _ sn _)
      by (unfold await; now rewrite Hsn).
    destruct (truthy sn).
    + unfold App.renderNetworkInfo. rewrite bind_assoc. update_step Hdoc. update_step Hdoc.
      render_cards_step.
    + rewrite bind_ret. render_cards_step.
  - rewrite bind_ret.
    rewrite (bind_normal (await (get_prop (preferences w) "showNetwork")) _ _ sn _)
      by (unfold await; now rewrite Hsn).
    destruct (truthy sn).
    + unfold App.renderNetworkInfo. rewrite bind_assoc. update_step Hdoc. update_step Hdoc.
      render_cards_step.
    + rewrite bind_ret. render_cards_step.
Qed.

(** X19. On the rendered shell [updateUI] hides the spinner and shows the
    device card, the application card and the buttons; the battery card and
    the network card are shown exactly when [showBattery] and [showNetwork]
    are truthy. The uptime row is written whatever the preferences say:
    [showUptime] is not read. Elements outside [#app] are kept. *)
Theorem updateUI_cards_follow_preferences (w : World) (app : element) (a : value)
    (R : gmap string element) (info : Snapshot) :
  document w = rendered_shell app a ∪ R ->
  deviceInfo w = Some info ->
  usable (preferences w) ->
  exists sb sn A,
    get_prop (preferences w) "showBattery" = Normal sb /\
    get_prop (preferences w) "showNetwork" = Normal sn /\
    App.updateUI w = (Normal tt, set_document (A ∪ R) w) /\
    App.visible A "loading" = false /\
    App.visible A "deviceCard" = true /\
    App.visible A "buttonGroup" = true /\
    App.visible A "appCard" = true /\
    App.visible A "batteryCard" = truthy sb /\
    App.visible A "networkCard" = truthy sn /\
    A !! "uptimeDisplay"
    = Some {| hidden := false; show := false; in_app := true; content := [];
              text := uptime info |} /\
    App.ui_phase (snd (App.updateUI w)) = App.Ready.
Proof.
  intros Hdoc Hinfo Hu.
  destruct (get_prop_usable _ "showBattery" Hu) as [sb Hsb].
  destruct (get_prop_usable _ "showNetwork" Hu) as [sn Hsn].
  destruct (updateUI_cards w app a R info sb sn Hdoc Hinfo Hsb Hsn)
    as (A & E & Hl & Hc & Hb & Ha & Hbat & Hnet & Hup).
  exists sb, sn, A. repeat split; try assumption.
  - unfold App.visible. now rewrite Hl.
  - unfold App.visible. now rewrite Hc.
  - rewrite E. unfold App.ui_phase, App.visible. cbn [snd document set_document with_document].
    now rewrite (lookup_union_Some_l _ _ _ _ Hl), (lookup_union_Some_l _ _ _ _ Hc).
Qed.

(* ================================================================== *)
(** * Initialisation on every bridge *)
(* ================================================================== *)

Lemma getAllInfo_total w :
  exists s, DeviceInfo.getAllInfo w = (Normal s, with_cachedInfo (Some s) w).
Proof.
  destruct (getDeviceInfo_returns w) as [d Hd].
  destruct (getNetworkStatus_returns w) as [n Hn].
  eexists. unfold DeviceInfo.getAllInfo, try_catch.
  rewrite (bind_normal _ _ _ _ _ Hd), (bind_normal _ _ _ _ _ Hn).
  rewrite (bind_normal _ _ _ _ _ (getUptime_spec w)). reflexivity.
Qed.

Lemma init_rest_any_bridge w app :
  document w !! "app" = Some app ->
  usable (loaded_preferences (localStorage w !! "appPreferences")) ->
  exists w' s w0,
    init_rest w = (Normal tt, w') /\
    App.ui_phase w' = App.Ready /\
    App.visible (document w') "loading" = false /\
    deviceInfo w' = Some s /\
    fst (DeviceInfo.getAllInfo w0) = Normal s /\
    capacitor w0 = capacitor w /\ localStorage w0 = localStorage w /\ clock w0 = clock w /\
    preferences w' = loaded_preferences (localStorage w !! "appPreferences").
Proof.
  intros Happ Hu.
  set (v := loaded_preferences (localStorage w !! "appPreferences")) in *.
  unfold init_rest.
  rewrite (bind_normal _ _ _ _ _ (loadPreferences_spec w)). fold v.
  rewrite (bind_normal _ _ _ _ _ (DeviceInfo_init_spec _)).
  set (w1 := with_preferences v w).
  destruct (get_prop_usable v "autoRefresh" Hu) as [a Ha].
  rewrite (bind_normal _ _ _ _ _ (renderUI_spec w1 app a Happ Ha)).
  set (R := outside_app (document w1)).
  set (w2 := set_document (rendered_shell app a ∪ R) w1).
  destruct (getAllInfo_total w2) as [s Hs].
  destruct (get_prop_usable v "showBattery" Hu) as [sb Hsb].
  destruct (get_prop_usable v "showNetwork" Hu) as [sn Hsn].
  set (w2' := with_deviceInfo (Some s) (with_cachedInfo (Some s) w2)).
  destruct (updateUI_on_shell w2' app a R s sb sn eq_refl eq_refl Hsb Hsn) as (A & E & Hl & Hc).
  assert (Eload : App.loadDeviceInfo w2 = (Normal tt, set_document (A ∪ R) w2')).
  { unfold App.loadDeviceInfo, try_catch.
    rewrite (bind_normal _ _ _ _ _ Hs).
    rewrite (bind_normal (modify (with_deviceInfo (Some s))) _ _ tt _ eq_refl).
    fold w2'. now rewrite E. }
  rewrite (bind_normal _ _ _ _ _ Eload).
  set (w3 := set_document (A ∪ R) w2').
  destruct (addNetworkListener_frame OnNetworkChange w3)
    as (w4 & E4 & Hdoc4 & Hp4 & Hi4 & Ht4 & Hn4 & Hr4 & Hs4).
  unfold App.setupNetworkListener. rewrite (bind_normal _ _ _ _ _ E4).
  rewrite (bind_normal get _ w4 w4 w4 eq_refl).
  assert (Ha4 : get_prop (preferences w4) "autoRefresh" = Normal a) by (now rewrite Hp4).
  rewrite (bind_normal (await _) _ w4 a w4) by (unfold await; now rewrite Ha4).
  assert (Hload : document w4 !! "loading" = Some (set_hidden true loading_spinner)).
  { rewrite Hdoc4. subst w3. cbn [document set_document with_document].
    now apply lookup_union_Some_l. }
  assert (Hcard : document w4 !! "deviceCard"
                  = Some (App.shell_element false [Heading "设备信息"])).
  { rewrite Hdoc4. subst w3. cbn [document set_document with_document].
    now apply lookup_union_Some_l. }
  assert (Hinfo : deviceInfo w4 = Some s) by (now rewrite Hi4).
  assert (Hall : fst (DeviceInfo.getAllInfo w2) = Normal s) by (now rewrite Hs).
  destruct (truthy a).
  - destruct (get_prop_usable (preferences w4) "refreshInterval") as [d Hdl];
      [now rewrite Hp4|].
    rewrite (startAutoRefresh_spec w4 d Hdl).
    eexists. exists s, w2. split; [reflexivity|].
    cbn [document deviceInfo preferences with_refreshInterval with_timers].
    unfold App.ui_phase, App.visible. cbn [document with_refreshInterval with_timers].
    rewrite Hload, Hcard. repeat split; try assumption; now rewrite Hp4.
  - exists w4, s, w2. split; [reflexivity|].
    unfold App.ui_phase, App.visible. rewrite Hload, Hcard.
    repeat split; try assumption; now rewrite Hp4.
Qed.

(** X20. On a page with an [#app] container, and stored preferences that
    load to a value other than [null], [init] reaches the ready state on
    every bridge, working, failing or absent: the spinner is hidden, the
    device card is shown, and the snapshot shown is what [getAllInfo]
    returns for this bridge, storage and clock. The preferences are those
    loaded from the storage. *)
Theorem init_ready_on_every_bridge (w : World) (app : element) :
  document w !! "app" = Some app ->
  usable (loaded_preferences (localStorage w !! "appPreferences")) ->
  exists w' s w0,
    App.init w = (Normal tt, w') /\
    App.ui_phase w' = App.Ready /\
    App.visible (document w') "loading" = false /\
    deviceInfo w' = Some s /\
    fst (DeviceInfo.getAllInfo w0) = Normal s /\
    capacitor w0 = capacitor w /\
    localStorage w0 = localStorage (snd (App.init w)) /\
    clock w0 = clock w /\
    preferences w' = loaded_preferences (localStorage w !! "appPreferences").
Proof.
  intros Happ Hu.
  destruct (with_start_time_frame w) as (Hs & Hdoc & Hcap).
  destruct (init_rest_any_bridge (with_start_time w) app)
    as (w' & s & w0 & E & Hphase & Hl & Hi & Hall & Hc0 & Hs0 & Hk0 & Hp).
  - now rewrite Hdoc.
  - now rewrite Hs.
  - assert (Einit : App.init w = (Normal tt, w'))
      by (unfold App.init, try_catch; now rewrite init_sequence_unfold, E).
    exists w', s, w0. rewrite Einit. cbn [snd].
    repeat split; try assumption.
    + now rewrite Hc0.
    + rewrite Hs0. pose proof (keeps_init_rest (with_start_time w)) as Hk.
      rewrite E in Hk. cbn [snd] in Hk. now rewrite Hk.
    + rewrite Hk0. unfold with_start_time.
      now destruct (item_truthy (localStorage w !! "appStartTime")).
    + now rewrite Hp, Hs.
Qed.

(** X21. What [formatNetworkInfo] shows for a snapshot of [getAllInfo]: the
    record of [getNetworkStatus] has a connection type, so the type shown is
    that one and not the formatter's own placeholder, and the status class
    is "connected" exactly when the record's flag is [true]. For a snapshot
    without a network record the formatter falls to "disconnected",
    "unknown" and "未知". *)
Theorem formatNetworkInfo_of_getAllInfo (w : World) :
  (exists s n t,
     fst (DeviceInfo.getAllInfo w) = Normal s /\
     fst (DeviceInfo.getNetworkStatus w) = Normal n /\
     network s = Some n /\ connectionType n = Some t /\
     DeviceInfo.nf_type (DeviceInfo.formatNetworkInfo s) = t /\
     (DeviceInfo.nf_connected (DeviceInfo.formatNetworkInfo s) = true
      <-> connected n = Some true) /\
     (DeviceInfo.nf_statusClass (DeviceInfo.formatNetworkInfo s) = "connected"
      <-> connected n = Some true)) /\
  (forall s,
     network s = None ->
     DeviceInfo.formatNetworkInfo s
     = {| DeviceInfo.nf_connected := false; DeviceInfo.nf_type := "unknown";
          DeviceInfo.nf_text := "未知"; DeviceInfo.nf_statusClass := "disconnected" |}).
Proof.
  split.
  - destruct (getDeviceInfo_returns w) as [d Hd].
    destruct (getNetworkStatus_filled w) as (n & t & Hn & Ht & Htne & _).
    eexists _, n, t. split.
    { unfold DeviceInfo.getAllInfo, try_catch.
      rewrite (bind_normal _ _ _ _ _ Hd), (bind_normal _ _ _ _ _ Hn).
      rewrite (bind_normal _ _ _ _ _ (getUptime_spec w)). reflexivity. }
    split; [now rewrite Hn|].
    cbn [network DeviceInfo.with_extras DeviceInfo.formatNetworkInfo DeviceInfo.nf_type
           DeviceInfo.nf_connected DeviceInfo.nf_statusClass].
    rewrite Ht. cbn [str_or].
    destruct (String.eqb_spec t "") as [->|_]; [congruence|].
    split; [reflexivity|]. split; [reflexivity|]. split; [reflexivity|].
    destruct (connected n) as [[|]|]; cbn [bool_or]; split;
      (split; [reflexivity || discriminate | reflexivity || discriminate]).
  - intros s Hs. unfold DeviceInfo.formatNetworkInfo. now rewrite Hs.
Qed.

Lemma showToast_invariant m w :
  timers_wf w -> refresh_timer_held w ->
  timers_wf (snd (App.showToast m w)) /\ refresh_timer_held (snd (App.showToast m w)).
Proof.
  intros Hwf Hheld. destruct (document w !! "toast") as [el|] eqn:E.
  - rewrite (showToast_spec m w el E). cbn [snd]. destruct Hwf as [H0 Hwf]. split.
    + split; cbn; [lia|]. intros id t H.
      destruct (decide (id = next_timer w)) as [->|Hne]; [lia|].
      rewrite lookup_insert_ne in H by congruence. apply Hwf in H. lia.
    + intros id t H Hr. cbn in *.
      destruct (decide (id = next_timer w)) as [->|Hne].
      * rewrite lookup_insert_eq in H. injection H as <-. discriminate.
      * rewrite lookup_insert_ne in H by congruence. eauto.
  - rewrite (showToast_absent m w E). now split.
Qed.

(** X22. The two facts about timers that the refresh relies on hold on a
    page without timers and are kept by [startAutoRefresh],
    [stopAutoRefresh] and [showToast]: timer handles are positive and below
    the next handle, and every active refresh timer is the one whose handle
    [App.state] holds. *)
Theorem refresh_invariants_kept (w : World) (m : string) :
  (timers w = ∅ -> (0 < next_timer w)%nat -> timers_wf w /\ refresh_timer_held w) /\
  (timers_wf w -> refresh_timer_held w -> usable (preferences w) ->
   timers_wf (snd (App.startAutoRefresh w)) /\
   refresh_timer_held (snd (App.startAutoRefresh w)) /\
   timers_wf (snd (App.stopAutoRefresh w)) /\
   refresh_timer_held (snd (App.stopAutoRefresh w)) /\
   timers_wf (snd (App.showToast m w)) /\
   refresh_timer_held (snd (App.showToast m w))).
Proof.
  split.
  - intros He Hpos. split.
    + split; [exact Hpos|]. intros id t H. now rewrite He in H.
    + intros id t H. now rewrite He in H.
  - intros Hwf Hheld Hu.
    destruct (get_prop_usable _ "refreshInterval" Hu) as [d Hd].
    destruct (startAutoRefresh_invariant w d Hd Hwf Hheld) as [H1 H2].
    destruct (stopAutoRefresh_invariant w Hwf Hheld) as (H3 & H4 & _).
    destruct (showToast_invariant m w Hwf Hheld) as [H5 H6].
    exact (conj H1 (conj H2 (conj H3 (conj H4 (conj H5 H6))))).
Qed.

(** X23. [loadDeviceInfo] on a page without the shell. The snapshot is
    stored before [updateUI] runs, so it stays stored when the rendering
    throws. With a [#loading] element but no device card, [updateUI] hides
    [#loading] and then throws, and the error view is written into the
    element just hidden: no error is shown. Without a [#loading] element
    the document is left as it is. *)
Theorem loadDeviceInfo_without_shell (w : World) :
  exists s,
    fst (DeviceInfo.getAllInfo w) = Normal s /\
    (forall el,
       document w !! "loading" = Some el -> document w !! "deviceCard" = None ->
       App.loadDeviceInfo w
       = (Normal tt,
          with_document
            (fun d => <["loading" := set_content (App.error_view "加载设备信息失败")
                                       (set_hidden true el)]> d)
            (with_document (fun d => <["loading" := set_hidden true el]> d)
               (with_deviceInfo (Some s) (with_cachedInfo (Some s) w)))) /\
       App.ui_phase (snd (App.loadDeviceInfo w)) = App.Uninitialized) /\
    (document w !! "loading" = None ->
     App.loadDeviceInfo w
     = (Normal tt, with_deviceInfo (Some s) (with_cachedInfo (Some s) w))).
Proof.
  destruct (getAllInfo_total w) as [s Hs]. exists s.
  split; [now rewrite Hs|]. split.
  - intros el Hel Hcard.
    assert (E : App.loadDeviceInfo w
                = (Normal tt,
                   with_document
                     (fun d => <["loading" := set_content (App.error_view "加载设备信息失败")
                                                (set_hidden true el)]> d)
                     (with_document (fun d => <["loading" := set_hidden true el]> d)
                        (with_deviceInfo (Some s) (with_cachedInfo (Some s) w))))).
    { unfold App.loadDeviceInfo, try_catch.
      rewrite (bind_normal _ _ _ _ _ Hs).
      rewrite (bind_normal (modify (with_deviceInfo (Some s))) _ _ tt _ eq_refl).
      unfold App.updateUI.
      rewrite (bind_normal get _ _ _ _ eq_refl). cbn [deviceInfo with_deviceInfo].
      unfold bind at 1. unfold update_element at 1.
      cbn [document with_deviceInfo with_cachedInfo]. rewrite Hel.
      unfold bind at 1. unfold update_element at 1.
      cbn [document with_document with_deviceInfo with_cachedInfo].
      rewrite lookup_insert_ne by discriminate. rewrite Hcard.
      apply showError_spec. cbn. apply lookup_insert_eq. }
    split; [exact E|]. rewrite E. unfold App.ui_phase, App.visible.
    cbn [snd document with_document with_deviceInfo with_cachedInfo].
    rewrite lookup_insert_eq. cbn [hidden set_content set_hidden negb andb].
    rewrite !lookup_insert_ne by discriminate. now rewrite Hcard.
  - intros Hnone. unfold App.loadDeviceInfo, try_catch.
    rewrite (bind_normal _ _ _ _ _ Hs).
    rewrite (bind_normal (modify (with_deviceInfo (Some s))) _ _ tt _ eq_refl).
    unfold App.updateUI.
    rewrite (bind_normal get _ _ _ _ eq_refl). cbn [deviceInfo with_deviceInfo].
    unfold bind at 1. unfold update_element at 1.
    cbn [document with_deviceInfo with_cachedInfo]. rewrite Hnone.
    now apply showError_absent.
Qed.

(* ================================================================== *)
(** * The toggle and the refresh timer *)
(* ================================================================== *)

Lemma showToast_timers m w :
  timers_wf w ->
  refresh_timers (snd (App.showToast m w)) = refresh_timers w /\
  refreshInterval (snd (App.showToast m w)) = refreshInterval w.
Proof.
  intros [_ Hwf]. destruct (document w !! "toast") as [el|] eqn:E.
  - rewrite (showToast_spec m w el E). cbn [snd]. split; [|reflexivity].
    unfold refresh_timers. cbn [timers with_timers with_document].
    apply map_eq. intros i. apply option_eq. intros t.
    rewrite !map_lookup_filter_Some. cbn [snd].
    destruct (decide (i = next_timer w)) as [->|Hne].
    + rewrite lookup_insert_eq. split.
      * intros [[= <-] Hr]. discriminate.
      * intros [H _]. apply Hwf in H. lia.
    + now rewrite lookup_insert_ne by congruence.
  - now rewrite (showToast_absent m w E).
Qed.

Lemma refresh_timers_started w d :
  get_prop (preferences w) "refreshInterval" = Normal d ->
  timers_wf w -> refresh_timer_held w ->
  refresh_timers (snd (App.startAutoRefresh w)) = {[ next_timer w := refresh_timer d ]} /\
  refreshInterval (snd (App.startAutoRefresh w)) = Some (next_timer w).
Proof.
  intros Hd Hwf Hheld. rewrite (startAutoRefresh_spec w d Hd). cbn [snd]. split; [|reflexivity].
  unfold refresh_timers. cbn [timers with_timers with_refreshInterval].
  apply map_eq. intros i.
  destruct (decide (i = next_timer w)) as [->|Hne].
  - rewrite lookup_singleton_eq. apply map_lookup_filter_Some.
    split; [apply lookup_insert_eq | reflexivity].
  - rewrite lookup_singleton_ne by congruence. apply map_lookup_filter_None.
    right. intros t H. rewrite lookup_insert_ne in H by congruence.
    now apply (cleared_lookup w i t Hwf Hheld) in H as [Hn _].
Qed.

(** X24. After the toggle the refresh timer follows the preference.
    Toggling a Preferences object with [autoRefresh] off starts the one
    refresh timer, with the interval of the preferences as its delay, and
    holds its handle; toggling with [autoRefresh] on leaves no refresh
    timer and no handle. The toast's timer is no refresh timer, and the two
    facts about timers are kept. *)
Theorem toggle_controls_refresh_timer (p : Preferences) (w : World) :
  preferences w = preferences_value p ->
  timers_wf w -> refresh_timer_held w ->
  let w1 := snd (App.toggleAutoRefresh w) in
  fst (App.toggleAutoRefresh w) = Normal tt /\
  (pref_autoRefresh p = false ->
   refresh_timers w1
   = {[ next_timer w := refresh_timer (VNum (num_of_Z (pref_refreshInterval p))) ]} /\
   refreshInterval w1 = Some (next_timer w)) /\
  (pref_autoRefresh p = true ->
   refresh_timers w1 = ∅ /\ handle_truthy (refreshInterval w1) = false) /\
  timers_wf w1 /\ refresh_timer_held w1.
Proof.
  intros Hp Hwf Hheld w1.
  assert (Hold : get_prop (preferences w) "autoRefresh" = Normal (VBool (pref_autoRefresh p)))
    by (now rewrite Hp).
  assert (Hset : set_prop (preferences w) "autoRefresh"
                   (VBool (negb (truthy (VBool (pref_autoRefresh p)))))
                 = Normal (preferences_value (toggled p))).
  { rewrite Hp. destruct p as [b n b1 b2 b3]. cbn [preferences_value toggled pref_autoRefresh
      pref_refreshInterval pref_showBattery pref_showNetwork pref_showUptime truthy].
    generalize (num_of_Z n). intros x. now destruct b. }
  destruct (toggleAutoRefresh_steps w _ _ Hold Hset)
    as (now & w4 & w' & Hnow & E4 & E & Ht & Hn & Hr & _ & _).
  match type of E4 with toggle_branch _ ?u = _ => set (w2 := u) in * end.
  assert (Hnow' : now = VBool (negb (pref_autoRefresh p))).
  { assert (H : get_prop (preferences_value (toggled p)) "autoRefresh"
                = Normal (VBool (negb (pref_autoRefresh p))))
      by (destruct p as [b n b1 b2 b3]; reflexivity).
    congruence. }
  subst now. cbn [truthy] in E4.
  assert (Hw1 : w1 = w') by (subst w1; now rewrite E). rewrite Hw1, E. cbn [fst].
  assert (Hwf2 : timers_wf w2) by exact Hwf.
  assert (Hheld2 : refresh_timer_held w2) by exact Hheld.
  assert (Hd2 : get_prop (preferences w2) "refreshInterval"
                = Normal (VNum (num_of_Z (pref_refreshInterval p)))).
  { destruct p as [b n b1 b2 b3]. reflexivity. }
  assert (Hrt : refresh_timers w' = refresh_timers w4)
    by (unfold refresh_timers; now rewrite Ht).
  assert (Hwf' : timers_wf w' <-> timers_wf w4)
    by (unfold timers_wf; now rewrite Ht, Hn).
  assert (Hheld' : refresh_timer_held w' <-> refresh_timer_held w4)
    by (unfold refresh_timer_held; now rewrite Ht, Hr).
  unfold toggle_branch in E4.
  destruct (pref_autoRefresh p) eqn:Eb; cbn [negb] in E4.
  - (* the refresh was on: it is stopped *)
    rewrite (bind_normal _ _ _ _ _ (stopAutoRefresh_spec w2)) in E4.
    destruct (stopAutoRefresh_invariant w2 Hwf2 Hheld2) as (Hwf3 & Hheld3 & Hnone).
    rewrite stopAutoRefresh_spec in Hwf3, Hheld3, Hnone. cbn [snd] in Hwf3, Hheld3, Hnone.
    match type of E4 with App.showToast ?m ?u = _ => set (w3 := u) in * end.
    destruct (showToast_timers "⏹️ 已停止自动刷新" w3 Hwf3) as [Hf Hi].
    destruct (showToast_invariant "⏹️ 已停止自动刷新" w3 Hwf3 Hheld3) as [Hwf4 Hheld4].
    rewrite E4 in Hf, Hi, Hwf4, Hheld4. cbn [snd] in Hf, Hi, Hwf4, Hheld4.
    split; [reflexivity|]. split; [discriminate|]. split.
    + intros _. split; [now rewrite Hrt, Hf|].
      rewrite Hr, Hi. subst w3. now destruct (handle_truthy (refreshInterval w2)) eqn:Eh.
    + split; [now apply Hwf' | now apply Hheld'].
  - (* the refresh was off: it is started *)
    rewrite (bind_normal _ _ _ _ _ (startAutoRefresh_spec w2 _ Hd2)) in E4.
    destruct (startAutoRefresh_invariant w2 _ Hd2 Hwf2 Hheld2) as (Hwf3 & Hheld3).
    destruct (refresh_timers_started w2 _ Hd2 Hwf2 Hheld2) as [Hone Hid].
    rewrite (startAutoRefresh_spec w2 _ Hd2) in Hwf3, Hheld3, Hone, Hid.
    cbn [snd] in Hwf3, Hheld3, Hone, Hid.
    match type of E4 with App.showToast ?m ?u = _ => set (w3 := u) in * end.
    destruct (showToast_timers "⏱️ 已开启自动刷新" w3 Hwf3) as [Hf Hi].
    destruct (showToast_invariant "⏱️ 已开启自动刷新" w3 Hwf3 Hheld3) as [Hwf4 Hheld4].
    rewrite E4 in Hf, Hi, Hwf4, Hheld4. cbn [snd] in Hf, Hi, Hwf4, Hheld4.
    split; [reflexivity|]. split; [|split; [discriminate|]].
    + intros _. split; [now rewrite Hrt, Hf, Hone | now rewrite Hr, Hi, Hid].
    + split; [now apply Hwf' | now apply Hheld'].
Qed.

(* ================================================================== *)
(** * The further theorems at concrete states *)
(* ================================================================== *)


Lemma start_then_stop_witness :
  let w := with_preferences App.getDefaultPreferences (fresh_page None) in
  let w2 := snd (App.stopAutoRefresh (snd (App.startAutoRefresh w))) in
  timers w2 = ∅ /\ refreshInterval w2 = None.
Proof.
  intros w w2.
  destruct (start_then_stop w (VNum (num_of_Z 30000))) as (_ & _ & H2 & _ & H4).
  - reflexivity.
  - split; [cbn; lia|]. intros id t H. cbn in H. rewrite lookup_empty in H. discriminate.
  - intros id t H. cbn in H. rewrite lookup_empty in H. discriminate.
  - split; [apply H4; reflexivity | exact H2].
Defined.

(** A page that holds a [#toast] element and nothing else. *)
Definition page_with_toast : World :=
  with_document (fun _ => {[ "toast" := App.shell_element false [] ]}) (fresh_page None).

Lemma toast_hidden_by_earlier_timer_witness :
  let w2 := snd (App.showToast "second" (snd (App.showToast "first" page_with_toast))) in
  let w3 := snd (App.fire_timer 1 w2) in
  document w3 !! "toast" = Some (set_show false (set_text "second" (App.shell_element false []))) /\
  timers w3 !! 2%nat = Some hide_toast.
Proof.
  intros w2 w3.
  destruct (toast_hidden_by_earlier_timer page_with_toast "first" "second") as [H _].
  destruct (H (App.shell_element false [])) as (_ & _ & _ & _ & H5 & _ & H7).
  - reflexivity.
  - split; [exact H5 | exact H7].
Defined.

(** The page after [init] on a working bridge: the shell is rendered, the
    snapshot loaded and one subscription active. *)
Definition page_ready : World := snd (App.init (fresh_page (Some working_bridge))).

Lemma network_event_effect_witness :
  let offline := {| r_connected := Some false; r_connectionType := Some "none" |} in
  App.network_event offline (fresh_page (Some working_bridge))
  = (Normal tt, fresh_page (Some working_bridge)) /\
  (network <$> deviceInfo (snd (App.network_event offline page_ready)))
  = Some (Some (DeviceInfo.listener_argument offline)).
Proof.
  intros offline. split.
  - apply (network_event_effect (fresh_page (Some working_bridge))). reflexivity.
  - destruct (network_event_effect page_ready offline) as [_ H].
    edestruct (H 1%nat) as [E _]; [vm_compute; reflexivity | vm_compute; reflexivity |].
    rewrite E. reflexivity.
Defined.

Lemma copyAllInfo_reports_witness :
  let w := with_deviceInfo (Some DeviceInfo.getFallbackInfo) page_with_toast in
  text <$> (document (snd (App.copyAllInfo w)) !! "toast") = Some "❌ 复制失败".
Proof.
  intros w.
  destruct (copyAllInfo_reports w) as [_ H].
  destruct (H DeviceInfo.getFallbackInfo (App.shell_element false [])) as (_ & E & _).
  - reflexivity.
  - reflexivity.
  - rewrite E. reflexivity.
Defined.

Lemma toggleAutoRefresh_persists_witness :
  let w := with_preferences (preferences_value default_preferences) (fresh_page None) in
  let fresh := with_localStorage (fun _ => localStorage (snd (App.toggleAutoRefresh w)))
                 (fresh_page None) in
  preferences (snd (App.loadPreferences fresh)) = preferences_value (toggled default_preferences).
Proof.
  intros w fresh.
  destruct (toggleAutoRefresh_persists default_preferences w fresh) as (_ & _ & _ & H & _).
  - vm_compute. reflexivity.
  - reflexivity.
  - reflexivity.
  - exact H.
Defined.

Lemma renderUI_idempotent_witness :
  exists w1,
    App.renderUI (fresh_page None) = (Normal tt, w1) /\ App.renderUI w1 = (Normal tt, w1).
Proof.
  destruct (renderUI_idempotent (fresh_page None)) as (w1 & H1 & H2 & _).
  - split; discriminate.
  - exists w1. split; assumption.
Defined.

(** The shell of a fresh page, with the fallback snapshot loaded. *)
Definition page_with_shell : World :=
  with_deviceInfo (Some DeviceInfo.getFallbackInfo)
    (set_document (rendered_shell app_container VUndefined ∪ ∅)
       (with_preferences App.getDefaultPreferences (fresh_page None))).

Lemma updateUI_cards_follow_preferences_witness :
  App.ui_phase (snd (App.updateUI page_with_shell)) = App.Ready.
Proof.
  destruct (updateUI_cards_follow_preferences page_with_shell app_container VUndefined ∅
              DeviceInfo.getFallbackInfo)
    as (sb & sn & A & _ & _ & _ & _ & _ & _ & _ & _ & _ & _ & H).
  - reflexivity.
  - reflexivity.
  - split; discriminate.
  - exact H.
Defined.

Lemma init_ready_on_every_bridge_witness :
  App.ui_phase (snd (App.init (fresh_page (Some working_bridge)))) = App.Ready.
Proof.
  destruct (init_ready_on_every_bridge (fresh_page (Some working_bridge)) app_container)
    as (w' & s & w0 & E & Hp & _).
  - reflexivity.
  - split; discriminate.
  - now rewrite E.
Defined.

Lemma refresh_invariants_kept_witness :
  timers_wf (fresh_page None) /\ refresh_timer_held (fresh_page None) /\
  timers_wf (snd (App.startAutoRefresh (fresh_page None))).
Proof.
  destruct (refresh_invariants_kept (fresh_page None) "") as [H0 H].
  destruct H0 as [Hwf Hheld]; [reflexivity | cbn; lia |].
  destruct (H Hwf Hheld) as (H1 & _); [split; discriminate|].
  split; [exact Hwf|]. split; [exact Hheld | exact H1].
Defined.

Lemma toggle_controls_refresh_timer_witness :
  let w := with_preferences (preferences_value default_preferences) (fresh_page None) in
  refreshInterval (snd (App.toggleAutoRefresh w)) = Some 1%nat /\
  size (refresh_timers (snd (App.toggleAutoRefresh w))) = 1%nat.
Proof.
  intros w.
  destruct (toggle_controls_refresh_timer default_preferences w) as (_ & H & _).
  - reflexivity.
  - split; [cbn; lia|]. intros id t H. cbn in H. rewrite lookup_empty in H. discriminate.
  - intros id t H. cbn in H. rewrite lookup_empty in H. discriminate.
  - destruct (H eq_refl) as [H1 H2]. split; [exact H2|].
    rewrite H1. apply map_size_singleton.
Defined.

Lemma main_installs_tick_witness :
  timers (snd (App.main (fresh_page (Some failing_bridge)))) !! 1%nat = Some uptime_tick.
Proof.
  destruct (main_installs_tick (fresh_page (Some failing_bridge))) as (_ & H & _).
  apply H. reflexivity.
Defined.

Lemma loadDeviceInfo_without_shell_witness :
  App.ui_phase (snd (App.init page_with_static_loading)) = App.Error /\
  App.ui_phase (snd (App.loadDeviceInfo (snd (App.init page_with_static_loading))))
  = App.Uninitialized.
Proof.
  split; [vm_compute; reflexivity|].
  destruct (loadDeviceInfo_without_shell (snd (App.init page_with_static_loading)))
    as (s & _ & H & _).
  edestruct H as [_ Hp]; [vm_compute; reflexivity | vm_compute; reflexivity | exact Hp].
Defined.
